(** * Kids-game: the screen and stylesheet lifecycle of [app.js], the error
    facility of [utils/errorHandler.js], the helpers of [utils/helpers.js],
    the sound manager of [utils/soundManager.js], the loading screen and
    the popup of [components].

    The JavaScript sources are embedded shallowly.  The browser state the
    code reads and writes (document head and body, the console, pending
    timers, the sound manager, [window.location]) is one record, [World];
    code that can throw runs in a small exception-and-state monad [M] with
    [try_catch] and [try_finally]; what the browser decides (whether a
    stylesheet loads, whether a dynamic import resolves and what it is
    rejected with, how a relative [href] resolves) is an oracle record,
    [Env].  Markup assigned to [innerHTML] goes through a model of the
    HTML parser, [Html].

    An [async] function is run to the completion of its promise, one
    invocation at a time: the sources serialise nothing, and the properties
    below are about one invocation.  Timer callbacks ([setTimeout]) are
    recorded as pending and not run. *)

From Stdlib Require Import String Ascii List Arith Lia Bool.
From stdpp Require Import base list strings gmap.
Import ListNotations.
Open Scope string_scope.
Open Scope list_scope.

(** ** JavaScript strings

    A string is carried as its UTF-8 bytes.  Only the [String.prototype]
    methods the sources call are given. *)

Module JsString.

(** The double quote, for markup and selectors. *)
Definition dq : string := String (ascii_of_nat 34) EmptyString.

(** The string of the bytes with these codes. *)
Definition bytes (codes : list nat) : string :=
  string_of_list_ascii (map ascii_of_nat codes).

(** White space and line terminators of ECMAScript, each as its UTF-8
    bytes: TAB, LF, VT, FF, CR, SPACE, U+00A0, U+1680, U+2000 to U+200A,
    U+2028, U+2029, U+202F, U+205F, U+3000 and U+FEFF. *)
Definition whiteSpace : list string :=
  map bytes
    [ [9]; [10]; [11]; [12]; [13]; [32]; [194; 160]; [225; 154; 128];
      [226; 128; 128]; [226; 128; 129]; [226; 128; 130]; [226; 128; 131];
      [226; 128; 132]; [226; 128; 133]; [226; 128; 134]; [226; 128; 135];
      [226; 128; 136]; [226; 128; 137]; [226; 128; 138];
      [226; 128; 168]; [226; 128; 169]; [226; 128; 175]; [226; 129; 159];
      [227; 128; 128]; [239; 187; 191] ].

Fixpoint drop (n : nat) (s : string) : string :=
  match n, s with
  | O, _ => s
  | S _, EmptyString => EmptyString
  | S n', String _ s' => drop n' s'
  end.

Fixpoint reverseOnto (s acc : string) : string :=
  match s with
  | EmptyString => acc
  | String c s' => reverseOnto s' (String c acc)
  end.

Definition reverse (s : string) : string := reverseOnto s EmptyString.

(** What is left of [s] behind the first of the strings [ws] that it starts
    with. *)
Fixpoint behind (ws : list string) (s : string) : option string :=
  match ws with
  | [] => None
  | w :: ws' =>
      if String.prefix w s then Some (drop (String.length w) s)
      else behind ws' s
  end.

(** Leading occurrences of the strings [ws] are dropped, at most [n]. *)
Fixpoint dropLeading (n : nat) (ws : list string) (s : string) : string :=
  match n with
  | O => s
  | S n' =>
      match behind ws s with
      | Some s' => dropLeading n' ws s'
      | None => s
      end
  end.

Definition trimStart (s : string) : string :=
  dropLeading (String.length s) whiteSpace s.

Definition trimEnd (s : string) : string :=
  reverse (dropLeading (String.length s) (map reverse whiteSpace) (reverse s)).

(** [s.trim()] *)
Definition trim (s : string) : string := trimEnd (trimStart s).

(** [hay.includes(needle)] *)
Fixpoint includes (hay needle : string) : bool :=
  if String.prefix needle hay then true
  else match hay with
       | EmptyString => false
       | String _ hay' => includes hay' needle
       end.

(** [s.replace(pat, rep)] with a string pattern: the first occurrence
    only. *)
Fixpoint replace (pat rep s : string) : string :=
  if String.prefix pat s then rep +:+ drop (String.length pat) s
  else match s with
       | EmptyString => EmptyString
       | String c s' => String c (replace pat rep s')
       end.

(** [s.replace(/^\//, '')]: one leading slash. *)
Definition stripLeadingSlash (s : string) : string :=
  match s with
  | String "/" s' => s'
  | _ => s
  end.

(** [s.replace(/^\/|\/$/g, '')].  With the global flag the pattern is
    tried at every position from left to right and each match is removed:
    [^\/] matches a slash at the first position, [\/$] a slash at the last
    one.  [atStart] says that the position is the first. *)
Fixpoint replaceEdgeSlashes (atStart : bool) (s : string) : string :=
  match s with
  | EmptyString => EmptyString
  | String c s' =>
      if Ascii.eqb c "/" && (atStart || String.eqb s' "")
      then replaceEdgeSlashes false s'
      else String c (replaceEdgeSlashes false s')
  end.

Definition stripSlashes (s : string) : string := replaceEdgeSlashes true s.

End JsString.

(** A value that is a string or [undefined]: what a call site can hand to a
    function that expects a path. *)
Inductive JsVal :=
| JUndefined
| JStr (s : string).

(** [String(v)] *)
Definition to_string (v : JsVal) : string :=
  match v with
  | JUndefined => "undefined"
  | JStr s => s
  end.

(** [!v] *)
Definition falsy (v : JsVal) : bool :=
  match v with
  | JUndefined => true
  | JStr s => String.eqb s ""
  end.

(** ** Errors ([utils/errorHandler.js]) *)

(** [ErrorTypes]: the enumeration is an object of string constants. *)
Module ErrorTypes.
Definition ASSET_LOADING : string := "ASSET_LOADING".
Definition GAME_INITIALIZATION : string := "GAME_INITIALIZATION".
Definition RUNTIME : string := "RUNTIME".
Definition NETWORK : string := "NETWORK".
Definition RESOURCE : string := "RESOURCE".
End ErrorTypes.

(** A thrown value: a [GameError] (message, type, details) or another
    [Error] (a [TypeError] of the runtime, a rejection reason of the
    browser).  The [timestamp] and [stack] fields are left out. *)
Inductive JsError :=
| GameError (message : string) (type : string) (details : list (string * JsVal))
| NativeError (name : string) (message : string).

Definition error_message (e : JsError) : string :=
  match e with
  | GameError m _ _ => m
  | NativeError _ m => m
  end.

(** [error instanceof GameError] *)
Definition instanceof_GameError (e : JsError) : bool :=
  match e with
  | GameError _ _ _ => true
  | NativeError _ _ => false
  end.

(** ** The browser state *)

(** A [link] element of [document.head], with its attributes as written. *)
Record Link := { rel : string; href : string }.

(** A floor of the home screen: its [data-game] attribute, its text, and
    the click listeners attached to it, each the screen identifier its
    closure passes to [loadScreen]. *)
Record Floor := {
  data_game : string;
  label : string;
  clicks : list string
}.

(** The children of [document.body] the sources create or look for. *)
Inductive Node :=
| Placeholder                      (* the div with [z-index: 9998] *)
| LoadingEl                        (* [div.loading-screen] *)
| ErrorContainer (msg : string)    (* [div#error-container] *)
| Container (loaded : bool) (floors : list Floor)   (* [div.container] *)
| Element (classes : list string) (html : string).  (* anything else *)

(** ** Markup

    [element.innerHTML = markup] runs the HTML fragment parser of the
    browser.  It is modelled for the kind of markup the sources write:
    text, [div] and [span] elements, [img], attribute values in double
    quotes.  The tokenizer follows the states of the HTML standard that
    such markup reaches, the tree builder its rules for these tags inside
    a [body].  Everything else (character references, comments, other
    tags, unquoted or single-quoted attribute values, carriage returns) is
    outside the model: the parser answers [None]. *)

Module Html.

Definition Attrs := list (string * string).

Inductive Token :=
| TChar (c : ascii)
| TStart (name : string) (attrs : Attrs)
| TEnd (name : string).

(** The tokenizer states, with what each has collected. *)
Inductive Mode :=
| Data
| TagOpen
| EndTagOpen
| TagName (name : string)
| EndTagName (name : string)
| BeforeAttrName (name : string) (attrs : Attrs)
| AttrName (name : string) (attrs : Attrs) (attr : string)
| BeforeAttrValue (name : string) (attrs : Attrs) (attr : string)
| AttrValue (name : string) (attrs : Attrs) (attr value : string)
| AfterAttrValue (name : string) (attrs : Attrs).

Definition codeIs (c : ascii) (n : nat) : bool := Nat.eqb (nat_of_ascii c) n.

(** TAB, LF, FF and SPACE. *)
Definition isSpace (c : ascii) : bool :=
  codeIs c 9 || codeIs c 10 || codeIs c 12 || codeIs c 32.

Definition isUpper (c : ascii) : bool :=
  Nat.leb 65 (nat_of_ascii c) && Nat.leb (nat_of_ascii c) 90.

Definition isLetter (c : ascii) : bool :=
  isUpper c || (Nat.leb 97 (nat_of_ascii c) && Nat.leb (nat_of_ascii c) 122).

(** Names are lowercased as they are read. *)
Definition lower (c : ascii) : ascii :=
  if isUpper c then ascii_of_nat (nat_of_ascii c + 32) else c.

Definition snoc (s : string) (c : ascii) : string := s +:+ String c EmptyString.

Definition hasAttr (attrs : Attrs) (a : string) : bool :=
  existsb (fun kv => String.eqb (fst kv) a) attrs.

(** A second attribute of the same name is dropped. *)
Definition addAttr (attrs : Attrs) (a v : string) : Attrs :=
  if hasAttr attrs a then attrs else attrs ++ [(a, v)].

(** One character: the tokens emitted and the next state. *)
Definition step (m : Mode) (c : ascii) : option (list Token * Mode) :=
  match m with
  | Data =>
      if codeIs c 60 then Some ([], TagOpen)                    (* < *)
      else if codeIs c 38 || codeIs c 0 || codeIs c 13 then None   (* & NUL CR *)
      else Some ([TChar c], Data)
  | TagOpen =>
      if codeIs c 47 then Some ([], EndTagOpen)                 (* / *)
      else if isLetter c then Some ([], TagName (String (lower c) EmptyString))
      else None
  | EndTagOpen =>
      if isLetter c then Some ([], EndTagName (String (lower c) EmptyString))
      else None
  | TagName n =>
      if isSpace c then Some ([], BeforeAttrName n [])
      else if codeIs c 62 then Some ([TStart n []], Data)          (* > *)
      else if codeIs c 47 || codeIs c 0 || codeIs c 13 then None
      else Some ([], TagName (snoc n (lower c)))
  | EndTagName n =>
      if codeIs c 62 then Some ([TEnd n], Data)
      else if isSpace c || codeIs c 47 || codeIs c 0 || codeIs c 13 then None
      else Some ([], EndTagName (snoc n (lower c)))
  | BeforeAttrName n attrs =>
      if isSpace c then Some ([], BeforeAttrName n attrs)
      else if codeIs c 62 then Some ([TStart n attrs], Data)
      else if codeIs c 47 || codeIs c 61 || codeIs c 34 || codeIs c 39 || codeIs c 60
              || codeIs c 0 || codeIs c 13 then None
      else Some ([], AttrName n attrs (String (lower c) EmptyString))
  | AttrName n attrs a =>
      if codeIs c 61 then Some ([], BeforeAttrValue n attrs a)     (* = *)
      else if codeIs c 62 then Some ([TStart n (addAttr attrs a "")], Data)
      else if isSpace c || codeIs c 47 || codeIs c 34 || codeIs c 39 || codeIs c 60
              || codeIs c 0 || codeIs c 13 then None
      else Some ([], AttrName n attrs (snoc a (lower c)))
  | BeforeAttrValue n attrs a =>
      if isSpace c then Some ([], BeforeAttrValue n attrs a)
      else if codeIs c 34 then Some ([], AttrValue n attrs a "")    (* the quote *)
      else None
  | AttrValue n attrs a v =>
      if codeIs c 34 then Some ([], AfterAttrValue n (addAttr attrs a v))
      else if codeIs c 38 || codeIs c 0 || codeIs c 13 then None
      else Some ([], AttrValue n attrs a (snoc v c))
  | AfterAttrValue n attrs =>
      if isSpace c then Some ([], BeforeAttrName n attrs)
      else if codeIs c 62 then Some ([TStart n attrs], Data)
      else None
  end.

(** The tokenizer run over a piece of markup from a state. *)
Fixpoint scan (m : Mode) (s : string) : option (list Token * Mode) :=
  match s with
  | EmptyString => Some ([], m)
  | String c s' =>
      match step m c with
      | None => None
      | Some (ts, m') =>
          match scan m' s' with
          | None => None
          | Some (ts', m'') => Some (ts ++ ts', m'')
          end
      end
  end.

(** The tokens of a whole markup: the end of the input is reached in the
    data state. *)
Definition tokens (markup : string) : option (list Token) :=
  match scan Data markup with
  | Some (ts, Data) => Some ts
  | _ => None
  end.

(** The tree. *)
#[warnings="-register-all"]
Inductive Tree :=
| Text (s : string)
| Elem (tag : string) (attrs : Attrs) (kids : list Tree).

(** The tree builder: the children of the current node, youngest first,
    and the open elements around it, innermost first, each with its tag,
    its attributes and its older siblings.  The bottom of the stack, the
    [body] the fragment is parsed for, is not listed. *)
Record Builder := {
  kids : list Tree;
  opened : list (string * Attrs * list Tree)
}.

Definition start : Builder := {| kids := []; opened := [] |}.

(** A character goes to the text node that ends the current node, or to a
    new one. *)
Definition addChar (c : ascii) (ks : list Tree) : list Tree :=
  match ks with
  | Text t :: ks' => Text (snoc t c) :: ks'
  | _ => Text (String c EmptyString) :: ks
  end.

(** The current node is popped off the stack of open elements. *)
Definition pop (b : Builder) : Builder :=
  match opened b with
  | (n, attrs, older) :: rest =>
      {| kids := Elem n attrs (rev (kids b)) :: older; opened := rest |}
  | [] => b
  end.

(** Elements are popped until one with this tag has been. *)
Fixpoint popUntil (tag : string) (ks : list Tree)
    (op : list (string * Attrs * list Tree)) : Builder :=
  match op with
  | [] => {| kids := ks; opened := [] |}
  | (n, attrs, older) :: rest =>
      if String.eqb n tag
      then {| kids := Elem n attrs (rev ks) :: older; opened := rest |}
      else popUntil tag (Elem n attrs (rev ks) :: older) rest
  end.

Definition isOpen (tag : string) (b : Builder) : bool :=
  existsb (fun f => String.eqb (fst (fst f)) tag) (opened b).

(** One token, by the rules for content of a [body]. *)
Definition insert (t : Token) (b : Builder) : option Builder :=
  match t with
  | TChar c => Some {| kids := addChar c (kids b); opened := opened b |}
  | TStart n attrs =>
      if String.eqb n "div" || String.eqb n "span" then
        Some {| kids := []; opened := (n, attrs, kids b) :: opened b |}
      else if String.eqb n "img" then
        Some {| kids := Elem n attrs [] :: kids b; opened := opened b |}
      else None
  | TEnd n =>
      if String.eqb n "div" then
        (* ignored unless a [div] is open; the elements inside it are
           closed with it *)
        Some (if isOpen n b then popUntil n (kids b) (opened b) else b)
      else if String.eqb n "span" then
        (* ignored unless the current node is the [span] *)
        Some (match opened b with
              | (n', _, _) :: _ => if String.eqb n' n then pop b else b
              | [] => b
              end)
      else None
  end.

Fixpoint build (ts : list Token) (b : Builder) : option Builder :=
  match ts with
  | [] => Some b
  | t :: ts' =>
      match insert t b with
      | Some b' => build ts' b'
      | None => None
      end
  end.

(** At the end of the input the elements still open are closed. *)
Fixpoint finish (ks : list Tree) (op : list (string * Attrs * list Tree)) : list Tree :=
  match op with
  | [] => rev ks
  | (n, attrs, older) :: rest => finish (Elem n attrs (rev ks) :: older) rest
  end.

(** The children of the element after [innerHTML = markup]. *)
Definition parse (markup : string) : option (list Tree) :=
  match tokens markup with
  | Some ts =>
      match build ts start with
      | Some b => Some (finish (kids b) (opened b))
      | None => None
      end
  | None => None
  end.

(** [getAttribute] *)
Fixpoint attr (a : string) (attrs : Attrs) : option string :=
  match attrs with
  | [] => None
  | (k, v) :: attrs' => if String.eqb k a then Some v else attr a attrs'
  end.

(** The tokens of a [class] attribute: split at white space. *)
Fixpoint classTokens (cur : string) (s : string) : list string :=
  match s with
  | EmptyString => if String.eqb cur "" then [] else [cur]
  | String c s' =>
      if isSpace c || codeIs c 13
      then (if String.eqb cur "" then [] else [cur]) ++ classTokens "" s'
      else classTokens (snoc cur c) s'
  end.

(** [classList] *)
Definition classList (attrs : Attrs) : list string :=
  match attr "class" attrs with
  | Some v => classTokens "" v
  | None => []
  end.

Definition hasClass (cls : string) (attrs : Attrs) : bool :=
  existsb (String.eqb cls) (classList attrs).

(** [tagName], in lower case; text has none. *)
Definition tagOf (t : Tree) : string :=
  match t with
  | Text _ => ""
  | Elem n _ _ => n
  end.

(** [textContent] *)
Fixpoint textContent (t : Tree) : string :=
  match t with
  | Text s => s
  | Elem _ _ ks => String.concat "" (map textContent ks)
  end.

(** [getElementsByClassName(cls)]: the elements of a forest that carry the
    class, in document order. *)
Fixpoint byClass (cls : string) (t : Tree) : list Tree :=
  match t with
  | Text _ => []
  | Elem n attrs ks =>
      (if hasClass cls attrs then [t] else []) ++ flat_map (byClass cls) ks
  end.

Definition elementsByClassName (cls : string) (forest : list Tree) : list Tree :=
  flat_map (byClass cls) forest.

(** The elements with a [data-game] attribute, in document order, as the
    floors they are: attribute, text, no listener yet. *)
Fixpoint floorsIn (t : Tree) : list Floor :=
  match t with
  | Text _ => []
  | Elem n attrs ks =>
      match attr "data-game" attrs with
      | Some g => [{| data_game := g; label := textContent t; clicks := [] |}]
      | None => []
      end ++ flat_map floorsIn ks
  end.

(** Nothing in the tree is an element the sources look for by [id], by
    [style] or by the classes of the loading screen and of a game
    screen. *)
Fixpoint quiet (t : Tree) : bool :=
  match t with
  | Text _ => true
  | Elem _ attrs ks =>
      negb (hasAttr attrs "id") && negb (hasAttr attrs "style")
      && negb (hasClass "loading-screen" attrs)
      && negb (hasClass "game-screen" attrs)
      && forallb quiet ks
  end.

(** A child of the body.  Text is no element; what the sources look for in
    rendered markup is the container and its floors, and an element that
    is not such a [div.container] is outside the model. *)
Definition node (t : Tree) : option (option Node) :=
  match t with
  | Text _ => Some None
  | Elem n attrs ks =>
      if String.eqb n "div" && hasClass "container" attrs
         && negb (hasAttr attrs "data-game") && quiet t
      then Some (Some (Container (hasClass "loaded" attrs) (flat_map floorsIn ks)))
      else None
  end.

Fixpoint nodes (forest : list Tree) : option (list Node) :=
  match forest with
  | [] => Some []
  | t :: forest' =>
      match node t, nodes forest' with
      | Some (Some n), Some ns => Some (n :: ns)
      | Some None, Some ns => Some ns
      | _, _ => None
      end
  end.

(** The element children of the body after [document.body.innerHTML =
    markup].  Markup outside the model is kept as written. *)
Definition bodyOf (markup : string) : list Node :=
  match parse markup with
  | Some forest =>
      match nodes forest with
      | Some ns => ns
      | None => [Element [] markup]
      end
  | None => [Element [] markup]
  end.

End Html.

(** Pending [setTimeout] callbacks. *)
Inductive Timer :=
| AddLoadedToContainer   (* 100 ms, [loadScreen] *)
| RemoveLoadingEl        (* 500 ms, [LoadingScreen.hide] *)
| RemoveErrorContainer.  (* 5000 ms, [showUserFriendlyError] *)

(** The console.  [console.error] of [handleError] is the error report:
    context, message and type. *)
Inductive ConsoleEntry :=
| ConsoleLog (text : string)
| ConsoleWarn (text : string)
| ConsoleError (text : string)
| ErrorReport (context : string) (message : string) (type : string).

(** Calls that reach the sound manager. *)
Inductive SoundCall :=
| SoundPlay (id sprite : string)
| SoundStop (id : string)
| SoundVolume (id : string) (percent : nat).

(** The elements a shown loading screen holds ([messageElement],
    [progressElement], the [fade-out] class of [element]). *)
Record LoadingElement := {
  ls_message : string;
  ls_progress : option nat;   (* the text [n%] *)
  ls_fade_out : bool
}.

(** A [LoadingScreen] object. *)
Record LoadingScreenObj := {
  element : option LoadingElement;
  isHiding : bool
}.

Record World := {
  head : list Link;                (* [document.head], document order *)
  body : list Node;                (* [document.body], document order *)
  loadedCSS : list string;         (* [App.loadedCSS], a Set: insertion order *)
  screens_home : option string;    (* [App.screens.home] *)
  loadingScreen : LoadingScreenObj;  (* [App.loadingScreen] *)
  console : list ConsoleEntry;     (* oldest first *)
  sounds : list SoundCall;         (* oldest first *)
  timers : list Timer;             (* oldest first *)
  location_href : option string    (* an assignment to [window.location.href] *)
}.

(** ** Control flow: returning and throwing *)

Inductive Outcome (A : Type) :=
| Returned (a : A) (w : World)
| Thrown (e : JsError) (w : World).
Arguments Returned {A} a w.
Arguments Thrown {A} e w.

Definition M (A : Type) : Type := World -> Outcome A.

Definition ret {A} (a : A) : M A := fun w => Returned a w.

Definition throw {A} (e : JsError) : M A := fun w => Thrown e w.

Definition bind {A B} (m : M A) (k : A -> M B) : M B :=
  fun w => match m w with
           | Returned a w' => k a w'
           | Thrown e w' => Thrown e w'
           end.

(** [try { m } catch (error) { h error }] *)
Definition try_catch {A} (m : M A) (h : JsError -> M A) : M A :=
  fun w => match m w with
           | Returned a w' => Returned a w'
           | Thrown e w' => h e w'
           end.

(** [try { m } finally { f }]: [f] runs on both exits; a throw of [f]
    replaces the pending exit. *)
Definition try_finally {A} (m : M A) (f : M unit) : M A :=
  fun w => match m w with
           | Returned a w' =>
               match f w' with
               | Returned _ w'' => Returned a w''
               | Thrown e w'' => Thrown e w''
               end
           | Thrown e w' =>
               match f w' with
               | Returned _ w'' => Thrown e w''
               | Thrown e' w'' => Thrown e' w''
               end
           end.

(** A statement that only changes the state. *)
Definition modify (f : World -> World) : M unit := fun w => Returned tt (f w).

Definition gets {A} (f : World -> A) : M A := fun w => Returned (f w) w.

Declare Scope js_scope.
Delimit Scope js_scope with js.
Notation "x <- m ;; k" := (bind m (fun x => k))
  (at level 100, m at next level, k at level 200, right associativity) : js_scope.
Notation "m ;; k" := (bind m (fun _ => k))
  (at level 100, k at level 200, right associativity) : js_scope.
Open Scope js_scope.

(** The world an outcome ends in. *)
Definition final {A} (o : Outcome A) : World :=
  match o with
  | Returned _ w => w
  | Thrown _ w => w
  end.

Definition returns {A} (o : Outcome A) : bool :=
  match o with
  | Returned _ _ => true
  | Thrown _ _ => false
  end.

(** Field updates. *)
Definition set_head (f : list Link -> list Link) (w : World) : World :=
  {| head := f (head w); body := body w; loadedCSS := loadedCSS w;
     screens_home := screens_home w; loadingScreen := loadingScreen w;
     console := console w; sounds := sounds w; timers := timers w;
     location_href := location_href w |}.

Definition set_body (f : list Node -> list Node) (w : World) : World :=
  {| head := head w; body := f (body w); loadedCSS := loadedCSS w;
     screens_home := screens_home w; loadingScreen := loadingScreen w;
     console := console w; sounds := sounds w; timers := timers w;
     location_href := location_href w |}.

Definition set_loadedCSS (f : list string -> list string) (w : World) : World :=
  {| head := head w; body := body w; loadedCSS := f (loadedCSS w);
     screens_home := screens_home w; loadingScreen := loadingScreen w;
     console := console w; sounds := sounds w; timers := timers w;
     location_href := location_href w |}.

Definition set_screens_home (s : string) (w : World) : World :=
  {| head := head w; body := body w; loadedCSS := loadedCSS w;
     screens_home := Some s; loadingScreen := loadingScreen w;
     console := console w; sounds := sounds w; timers := timers w;
     location_href := location_href w |}.

Definition set_loadingScreen (f : LoadingScreenObj -> LoadingScreenObj) (w : World) : World :=
  {| head := head w; body := body w; loadedCSS := loadedCSS w;
     screens_home := screens_home w; loadingScreen := f (loadingScreen w);
     console := console w; sounds := sounds w; timers := timers w;
     location_href := location_href w |}.

Definition add_console (c : ConsoleEntry) (w : World) : World :=
  {| head := head w; body := body w; loadedCSS := loadedCSS w;
     screens_home := screens_home w; loadingScreen := loadingScreen w;
     console := console w ++ [c]; sounds := sounds w; timers := timers w;
     location_href := location_href w |}.

Definition add_sound (c : SoundCall) (w : World) : World :=
  {| head := head w; body := body w; loadedCSS := loadedCSS w;
     screens_home := screens_home w; loadingScreen := loadingScreen w;
     console := console w; sounds := sounds w ++ [c]; timers := timers w;
     location_href := location_href w |}.

Definition add_timer (t : Timer) (w : World) : World :=
  {| head := head w; body := body w; loadedCSS := loadedCSS w;
     screens_home := screens_home w; loadingScreen := loadingScreen w;
     console := console w; sounds := sounds w; timers := timers w ++ [t];
     location_href := location_href w |}.

Definition set_location (url : string) (w : World) : World :=
  {| head := head w; body := body w; loadedCSS := loadedCSS w;
     screens_home := screens_home w; loadingScreen := loadingScreen w;
     console := console w; sounds := sounds w; timers := timers w;
     location_href := Some url |}.

Definition console_log (s : string) : M unit := modify (add_console (ConsoleLog s)).
Definition console_warn (s : string) : M unit := modify (add_console (ConsoleWarn s)).
Definition console_error (s : string) : M unit := modify (add_console (ConsoleError s)).

(** ** [utils/errorHandler.js] *)

Module ErrorHandler.

(** The banner text [handleError] picks for an error: the [switch] on
    [error.type], its [default], and the branch of other errors. *)
Definition userMessage (e : JsError) : string :=
  match e with
  | GameError _ t _ =>
      if String.eqb t ErrorTypes.ASSET_LOADING then
        "Не можахме да заредим необходимите ресурси. Моля, опитайте отново."
      else if String.eqb t ErrorTypes.GAME_INITIALIZATION then
        "Възникна проблем при стартиране на играта. Моля, опитайте отново."
      else if String.eqb t ErrorTypes.RUNTIME then
        "Нещо се обърка. Нека опитаме отново!"
      else if String.eqb t ErrorTypes.NETWORK then
        "Проблем с връзката. Моля, проверете интернет връзката си."
      else if String.eqb t ErrorTypes.RESOURCE then
        "Липсват някои ресурси. Моля, презаредете страницата."
      else
        "Възникна неочаквана грешка. Моля, опитайте отново."
  | NativeError _ _ =>
      "Възникна неочаквана грешка. Моля, опитайте отново."
  end.

(** [error instanceof GameError ? error.type : 'UNKNOWN'] *)
Definition reportedType (e : JsError) : string :=
  match e with
  | GameError _ t _ => t
  | NativeError _ _ => "UNKNOWN"
  end.

(** [errorContainer.innerHTML = ...] on the element
    [document.getElementById('error-container')] finds: the first one. *)
Fixpoint setErrorContainer (msg : string) (ns : list Node) : option (list Node) :=
  match ns with
  | [] => None
  | ErrorContainer _ :: ns' => Some (ErrorContainer msg :: ns')
  | n :: ns' => option_map (cons n) (setErrorContainer msg ns')
  end.

Definition showUserFriendlyError (msg : string) : M unit :=
  modify (set_body (fun b =>
            match setErrorContainer msg b with
            | Some b' => b'
            | None => b ++ [ErrorContainer msg]   (* created and appended *)
            end));;
  modify (add_timer RemoveErrorContainer).

(** [handleError(error, context, fallback = null)].  [fallback] is [None]
    when the argument is absent (not a function). *)
Definition handleError (error : JsError) (context : string)
    (fallback : option (M unit)) : M unit :=
  modify (add_console
            (ErrorReport context (error_message error) (reportedType error)));;
  showUserFriendlyError (userMessage error);;
  match fallback with
  | Some f =>
      try_catch f
        (fun fallbackError =>
           console_error "Error in fallback handler:";;
           modify (set_location "/"))
  | None => ret tt
  end.

End ErrorHandler.

(** ** [components/loadingScreen/loadingScreen.js]

    The methods act on the [LoadingScreen] object of the application and on
    the document body.  [show] and [hide] return promises the application
    does not wait for in [loadScreen]; what they do before returning is
    what is modelled, the 500 ms removal is a pending timer. *)

Module LoadingScreen.

Definition show (message : string) : M unit :=
  fun w =>
    match element (loadingScreen w) with
    | Some _ => Returned tt w
    | None =>
        Returned tt
          (set_body (fun b => b ++ [LoadingEl])
             (set_loadingScreen
                (fun ls => {| element := Some {| ls_message := message;
                                                 ls_progress := None;
                                                 ls_fade_out := false |};
                              isHiding := isHiding ls |}) w))
    end.

Definition updateMessage (message : string) : M unit :=
  modify (set_loadingScreen (fun ls =>
    match element ls with
    | Some el => {| element := Some {| ls_message := message;
                                       ls_progress := ls_progress el;
                                       ls_fade_out := ls_fade_out el |};
                    isHiding := isHiding ls |}
    | None => ls
    end)).

(** [Math.round((current / total) * 100)] for [total > 0], as at every call
    site: half rounds up. *)
Definition percentage (current total : nat) : nat :=
  (200 * current + total) / (2 * total).

Definition updateProgress (current total : nat) : M unit :=
  modify (set_loadingScreen (fun ls =>
    match element ls with
    | Some el => {| element := Some {| ls_message := ls_message el;
                                       ls_progress := Some (percentage current total);
                                       ls_fade_out := ls_fade_out el |};
                    isHiding := isHiding ls |}
    | None => ls
    end)).

Definition hide : M unit :=
  fun w =>
    match element (loadingScreen w) with
    | None => Returned tt w
    | Some el =>
        if isHiding (loadingScreen w) then Returned tt w
        else
          Returned tt
            (add_timer RemoveLoadingEl
               (set_loadingScreen
                  (fun _ => {| element := Some {| ls_message := ls_message el;
                                                  ls_progress := ls_progress el;
                                                  ls_fade_out := true |};
                               isHiding := true |}) w))
    end.

End LoadingScreen.

(** ** [utils/soundManager.js], as the calls it receives *)

Module soundManager.
Definition play (id sprite : string) : M unit := modify (add_sound (SoundPlay id sprite)).
Definition stop (id : string) : M unit := modify (add_sound (SoundStop id)).
Definition setVolume (id : string) (percent : nat) : M unit :=
  modify (add_sound (SoundVolume id percent)).
End soundManager.

(** ** The game registry ([gameModules/generatedGames.js])

    [generateGames.js] writes the registry as an object literal, one
    property per game directory.  It is taken as the list of its own
    properties in [Object.keys] order. *)

Record GameEntry := { script : string; style : string }.

Definition Registry := list (string * GameEntry).

(** [Object.keys(games)] *)
Definition keys (games : Registry) : list string := map fst games.

Fixpoint own (games : Registry) (k : string) : option GameEntry :=
  match games with
  | [] => None
  | (k', e) :: games' => if String.eqb k' k then Some e else own games' k
  end.

(** The properties an object literal inherits from [Object.prototype]:
    all of them functions or objects, hence truthy. *)
Definition objectPrototypeNames : list string :=
  [ "constructor"; "hasOwnProperty"; "isPrototypeOf"; "propertyIsEnumerable";
    "toLocaleString"; "toString"; "valueOf"; "__proto__";
    "__defineGetter__"; "__defineSetter__"; "__lookupGetter__";
    "__lookupSetter__" ].

(** The value of [games[k]]. *)
Inductive Property :=
| OwnEntry (e : GameEntry)   (* an entry of the registry *)
| Inherited                  (* found on the prototype: truthy, no fields *)
| Undefined.

Definition get (games : Registry) (k : string) : Property :=
  match own games k with
  | Some e => OwnEntry e
  | None =>
      if existsb (String.eqb k) objectPrototypeNames then Inherited
      else Undefined
  end.

(** [const { script, style } = v] for a truthy [v]. *)
Definition destructure (e : option GameEntry) : JsVal * JsVal :=
  match e with
  | Some e => (JStr (script e), JStr (style e))
  | None => (JUndefined, JUndefined)
  end.

(** ** What the browser decides *)

(** What a promise is rejected with: any value. *)
Inductive Reason :=
| ErrorObject (e : JsError)   (* an [Error]: it has a [message] *)
| OtherValue                  (* a string, a number, an object without a
                                 [message]: anything else but the next two *)
| NullValue                   (* [null] *)
| UndefinedValue.             (* [undefined] *)

(** [reason.message] throws for [null] and [undefined]; it is [undefined]
    for a value without that property. *)
Definition reason_message (reason : Reason) : JsError + JsVal :=
  match reason with
  | ErrorObject e => inr (JStr (error_message e))
  | OtherValue => inr JUndefined
  | NullValue =>
      inl (NativeError "TypeError"
             "Cannot read properties of null (reading 'message')")
  | UndefinedValue =>
      inl (NativeError "TypeError"
             "Cannot read properties of undefined (reading 'message')")
  end.

(** [import(specifier)]: rejected, or resolved with a module whose
    [startGame] export is a function or missing.  What a [startGame] that
    throws throws is an error object, as everything thrown in [M]. *)
Inductive ImportResult :=
| ImportRejected (reason : Reason)
| ImportResolved (startGame : option (M unit)).

Record Env := {
  abs_url : string -> string;        (* the [href] property of a link whose
                                        attribute is the argument *)
  css_load_ok : string -> bool;      (* [load] (true) or [error] (false) for
                                        an attached link with this attribute *)
  import_module : string -> ImportResult   (* [import(specifier)] *)
}.

(** ** [app.js]: the application controller *)

Module App.

Import JsString.

(** [cssPath.trim().replace(/^\/|\/$/g, '')] *)
Definition normalizePath (cssPath : string) : string :=
  stripSlashes (trim cssPath).

(** [Set.prototype.has] and [add] on the insertion-ordered set. *)
Definition has (s : list string) (x : string) : bool := existsb (String.eqb x) s.

Definition add (x : string) (s : list string) : list string :=
  if has s x then s else s ++ [x].

(** [Set.prototype.delete] *)
Definition delete (x : string) (s : list string) : list string :=
  List.filter (fun y => negb (String.eqb x y)) s.

(** [untrackCSS(cssPath)] *)
Definition untrackCSS (cssPath : string) : M unit :=
  fun w =>
    if has (loadedCSS w) cssPath then
      (modify (set_loadedCSS (delete cssPath));;
       console_log ("CSS untracked: " +:+ cssPath)) w
    else Returned tt w.

(** One floor of the markup: the template of the [map] callback. *)
Definition floorMarkup (gameId : string) : string :=
  "<div class=" +:+ dq +:+ "floor" +:+ dq +:+ " data-game=" +:+ dq +:+ gameId
  +:+ dq +:+ ">Етаж " +:+ replace "game" "" gameId +:+ "</div>".

(** [Array.prototype.join('')] *)
Definition join (l : list string) : string := fold_right String.append "" l.

Definition nl : string := String (ascii_of_nat 10) EmptyString.

(** The error of [link.onerror]. *)
Definition cssLoadError (normalizedPath : string) : JsError :=
  GameError ("Failed to load CSS: " +:+ normalizedPath) ErrorTypes.RESOURCE
    [("cssPath", JStr normalizedPath)].

Section Controller.

Variable env : Env.
Variable games : Registry.

(** The [floors] array of [generateHomeScreen] before it is joined. *)
Definition floorsMarkup : list string := map floorMarkup (rev (keys games)).

(** [generateHomeScreen()]: the markup. *)
Definition generateHomeScreen : string :=
  nl +:+ "            <div class=" +:+ dq +:+ "container" +:+ dq +:+ ">"
  +:+ nl +:+ "                <img src=" +:+ dq +:+ "logo.png" +:+ dq
  +:+ " alt=" +:+ dq +:+ "Logo" +:+ dq +:+ ">"
  +:+ nl +:+ "                <div class=" +:+ dq +:+ "building" +:+ dq +:+ ">"
  +:+ nl +:+ "                    " +:+ join floorsMarkup
  +:+ nl +:+ "                </div>"
  +:+ nl +:+ "            </div>"
  +:+ nl +:+ "        ".

(** The element [floorMarkup gameId] denotes, before any listener. *)
Definition floorElement (gameId : string) : Floor :=
  {| data_game := gameId;
     label := "Етаж " +:+ replace "game" "" gameId;
     clicks := [] |}.

Definition ensureCSS (cssPath : JsVal) : M unit :=
  try_catch
    (match cssPath with
     | JUndefined =>
         (* [cssPath.trim()] on undefined *)
         throw (NativeError "TypeError"
                  "Cannot read properties of undefined (reading 'trim')")
     | JStr p =>
         let normalizedPath := normalizePath p in
         loaded <- gets (fun w => has (loadedCSS w) normalizedPath);;
         if loaded then
           console_log ("CSS already loaded: " +:+ normalizedPath)
         else
           let link := {| rel := "stylesheet"; href := normalizedPath |} in
           existingLink <- gets (fun w =>
             find (fun l => includes (abs_url env (href l)) normalizedPath)
                  (head w));;
           match existingLink with
           | None =>
               modify (set_head (fun h => h ++ [link]));;
               if css_load_ok env normalizedPath then
                 (* link.onload *)
                 modify (set_loadedCSS (add normalizedPath))
               else
                 (* link.onerror *)
                 throw (cssLoadError normalizedPath)
           | Some _ =>
               console_warn ("Duplicate CSS detected: " +:+ normalizedPath)
           end
     end)
    (fun error =>
       ErrorHandler.handleError
         (if instanceof_GameError error then error
          else GameError "CSS loading failed" ErrorTypes.ASSET_LOADING
                 [("cssPath", cssPath);
                  ("originalError", JStr (error_message error))])
         "App.ensureCSS" None).

(** [floor.addEventListener('click', () => this.loadScreen(gameId))] on the
    first element [document.querySelector('[data-game=...]')] finds.  The
    selector holds the identifier between double quotes as it is: for an
    identifier without quote, backslash or control character it selects
    the elements whose attribute is the identifier. *)
Fixpoint addClickFloors (gameId : string) (fs : list Floor) : option (list Floor) :=
  match fs with
  | [] => None
  | f :: fs' =>
      if String.eqb (data_game f) gameId then
        Some ({| data_game := data_game f; label := label f;
                 clicks := clicks f ++ [gameId] |} :: fs')
      else option_map (cons f) (addClickFloors gameId fs')
  end.

Fixpoint addClickNodes (gameId : string) (ns : list Node) : option (list Node) :=
  match ns with
  | [] => None
  | Container l fs :: ns' =>
      match addClickFloors gameId fs with
      | Some fs' => Some (Container l fs' :: ns')
      | None => option_map (cons (Container l fs)) (addClickNodes gameId ns')
      end
  | n :: ns' => option_map (cons n) (addClickNodes gameId ns')
  end.

Definition addFloorListener (gameId : string) (w : World) : World :=
  match addClickNodes gameId (body w) with
  | Some b => set_body (fun _ => b) w
  | None => w                                  (* [if (floor)] fails *)
  end.

(** [setupFloorListeners()] *)
Definition setupFloorListeners : M unit :=
  console_log "Setting up floor listeners for games:";;
  modify (fun w => fold_left (fun w' gameId => addFloorListener gameId w')
                     (keys games) w).

(** [placeholder.remove()] on the first match of
    [div[style*="z-index: 9998"]], when there is one. *)
Fixpoint removePlaceholder (ns : list Node) : list Node :=
  match ns with
  | [] => []
  | Placeholder :: ns' => ns'
  | n :: ns' => n :: removePlaceholder ns'
  end.

(** [gameContainer.classList.add('loaded')] on the first match of
    [.game-screen], when there is one. *)
Fixpoint markGameScreenLoaded (ns : list Node) : list Node :=
  match ns with
  | [] => []
  | Element cls html :: ns' =>
      if existsb (String.eqb "game-screen") cls
      then Element (cls ++ ["loaded"]) html :: ns'
      else Element cls html :: markGameScreenLoaded ns'
  | n :: ns' => n :: markGameScreenLoaded ns'
  end.

(** [this.screens.home] as [innerHTML] takes it: a string. *)
Definition home_markup (w : World) : string :=
  match screens_home w with
  | Some markup => markup
  | None => "undefined"
  end.

(** The statements both the home branch and the recovery callback run:
    generate (which logs the registry), render, schedule the [loaded]
    class, wire the floors. *)
Definition renderHome : M unit :=
  console_log "Available games:";;
  modify (set_screens_home generateHomeScreen);;
  (* [document.body.innerHTML = this.screens.home] *)
  modify (fun w => set_body (fun _ => Html.bodyOf (home_markup w)) w);;
  modify (add_timer AddLoadedToContainer);;
  setupFloorListeners.

(** [loadScreen(screenId)] *)
Definition loadScreen (screenId : string) : M unit :=
  console_log ("Loading screen: " +:+ screenId);;
  try_finally
    (try_catch
       (modify (set_body (fun b => b ++ [Placeholder]));;
        console_log "Loading global CSS...";;
        ensureCSS (JStr "style.css");;
        ensureCSS (JStr "components/loadingScreen/loadingScreen.css");;
        if String.eqb screenId "home" then
          console_log "Generating home screen...";;
          renderHome;;
          soundManager.play "commonSounds" "homeBackgroundMusic"
        else
          LoadingScreen.show ("Зареждане на " +:+ screenId +:+ "...");;
          let found (e : option GameEntry) : M unit :=
            soundManager.stop "commonSounds";;
            let '(script, style) := destructure e in
            console_log ("Loading game CSS: " +:+ to_string style);;
            LoadingScreen.updateMessage "Зареждане на стилове...";;
            ensureCSS style;;
            LoadingScreen.updateProgress 1 2;;
            console_log ("Loading game script: " +:+ to_string script);;
            LoadingScreen.updateMessage "Зареждане на играта...";;
            (* the [catch] of the inner [try]: what it caught is the reason
               [import(script)] was rejected with, or what the statements
               after it threw *)
            let failed (error : Reason) : M unit :=
              console_error "Failed to load game module:";;
              match reason_message error with
              | inl typeError => throw typeError
              | inr message =>
                  throw (GameError "Failed to load game module"
                           ErrorTypes.GAME_INITIALIZATION
                           [("screenId", JStr screenId); ("script", script);
                            ("error", message)])
              end in
            match import_module env (to_string script) with
            | ImportRejected reason => failed reason
            | ImportResolved startGame =>
                try_catch
                  (LoadingScreen.updateProgress 2 2;;
                   modify (set_body (fun _ => []));;
                   soundManager.play "commonSounds" "openGame";;
                   soundManager.setVolume "commonSounds" 20;;
                   match startGame with
                   | Some start => start
                   | None =>
                       throw (NativeError "TypeError"
                                "gameModule.startGame is not a function")
                   end;;
                   modify (set_body markGameScreenLoaded))
                  (fun error => failed (ErrorObject error))
            end
          in
          match get games screenId with
          | OwnEntry e => found (Some e)
          | Inherited => found None
          | Undefined =>
              throw (GameError "Game not found" ErrorTypes.RESOURCE
                       [("screenId", JStr screenId)])
          end)
       (fun error =>
          console_error "Error in loadScreen:";;
          ErrorHandler.handleError error "app.loadScreen"
            (Some renderHome)))
    (LoadingScreen.hide;;
     modify (set_body removePlaceholder)).

End Controller.

End App.

(** ** [utils/helpers.js]

    The repository holds two copies of this file.  They agree on
    [shuffleArray]; they differ in [unloadCSS].  [Helpers] is the copy at
    [utils/helpers.js], the one the components import; [HelpersDocumented]
    is the copy that carries the JSDoc header. *)

Definition link_eqb (a b : Link) : bool :=
  String.eqb (rel a) (rel b) && String.eqb (href a) (href b).

(** [document.head.removeChild(link)] *)
Fixpoint removeChild (link : Link) (h : list Link) : list Link :=
  match h with
  | [] => []
  | l :: h' => if link_eqb l link then h' else l :: removeChild link h'
  end.

(** [document.querySelectorAll('link[rel="stylesheet"]')] *)
Definition stylesheetLinks (w : World) : list Link :=
  List.filter (fun l => String.eqb (rel l) "stylesheet") (head w).

(** [Math.random()]: a number in the interval from 0 (included) to 1
    (excluded), as an exact fraction. *)
Record Unit01 := {
  numer : nat;
  denom : nat;
  in_range : numer < denom
}.

(** [Math.floor(r * n)] *)
Definition floorMul (r : Unit01) (n : nat) : nat := (numer r * n) / denom r.

Section Shuffle.

Context {A : Type}.

(** [[array[i], array[j]] = [array[j], array[i]]]: both reads, then the
    write at [i], then the write at [j].  Outside the array the loop never
    reads. *)
Definition swap (array : list A) (i j : nat) : list A :=
  match array !! j, array !! i with
  | Some aj, Some ai => <[j := ai]> (<[i := aj]> array)
  | _, _ => array
  end.

(** The loop of [shuffleArray] from index [i] down to 1; [calls] counts the
    draws already made from [random]. *)
Fixpoint shuffleLoop (random : nat -> Unit01) (calls i : nat) (array : list A) : list A :=
  match i with
  | O => array
  | S i' =>
      let j := floorMul (random calls) (i + 1) in
      shuffleLoop random (S calls) i' (swap array i j)
  end.

(** [shuffleArray(array)] on the array a reference points to, in a store of
    arrays: the array is changed in place and the reference is returned. *)
Definition shuffleArray (random : nat -> Unit01) (array : nat)
    (store : gmap nat (list A)) : nat * gmap nat (list A) :=
  match store !! array with
  | Some a => (array, <[array := shuffleLoop random 0 (length a - 1) a]> store)
  | None => (array, store)
  end.

End Shuffle.

Module Helpers.

Import JsString.

Section WithEnv.

Variable env : Env.

(** [links.forEach(link => ...)], with [found] threaded through. *)
Fixpoint forEachLink (filename : string) (links : list Link) (found : bool) : M bool :=
  match links with
  | [] => ret found
  | link :: links' =>
      let h := abs_url env (href link) in
      if negb (String.eqb h "") && includes h filename then
        modify (set_head (removeChild link));;
        console_log ("Премахнат CSS файл: " +:+ filename);;
        App.untrackCSS filename;;
        forEachLink filename links' true
      else forEachLink filename links' found
  end.

(** [unloadCSS(filename)] of [utils/helpers.js] *)
Definition unloadCSS (filename : JsVal) : M unit :=
  try_catch
    (if falsy filename then
       throw (GameError "No filename provided for CSS unloading"
                ErrorTypes.RESOURCE [("filename", filename)])
     else
       links <- gets stylesheetLinks;;
       found <- forEachLink (to_string filename) links false;;
       if negb found then
         throw (GameError "CSS file not found" ErrorTypes.RESOURCE
                  [("filename", filename)])
       else ret tt)
    (fun error =>
       ErrorHandler.handleError
         (if instanceof_GameError error then error
          else GameError "Failed to unload CSS file" ErrorTypes.ASSET_LOADING
                 [("filename", filename);
                  ("originalError", JStr (error_message error))])
         "helpers.unloadCSS" None).

End WithEnv.

End Helpers.

Module HelpersDocumented.

Import JsString.

Section WithEnv.

Variable env : Env.

Fixpoint forEachLink (normalizedFilename : string) (links : list Link) (found : bool) : M bool :=
  match links with
  | [] => ret found
  | link :: links' =>
      let h := abs_url env (href link) in
      if negb (String.eqb h "") && includes h normalizedFilename then
        modify (set_head (removeChild link));;
        console_log ("Премахнат CSS файл: " +:+ normalizedFilename);;
        App.untrackCSS normalizedFilename;;
        forEachLink normalizedFilename links' true
      else forEachLink normalizedFilename links' found
  end.

(** [unloadCSS(filename)] of the documented copy *)
Definition unloadCSS (filename : JsVal) : M unit :=
  try_catch
    (if falsy filename then
       throw (GameError "No filename provided for CSS unloading"
                ErrorTypes.RESOURCE [("filename", filename)])
     else
       let normalizedFilename := stripLeadingSlash (to_string filename) in
       links <- gets stylesheetLinks;;
       found <- forEachLink normalizedFilename links false;;
       if negb found then
         console_warn ("CSS file not found: " +:+ normalizedFilename)
       else ret tt)
    (fun error =>
       ErrorHandler.handleError
         (if instanceof_GameError error then error
          else GameError "Failed to unload CSS file" ErrorTypes.ASSET_LOADING
                 [("filename", filename);
                  ("originalError", JStr (error_message error))])
         "helpers.unloadCSS" None).

End WithEnv.

End HelpersDocumented.

(** ** [components/popUp/popUp.js]: the constructor

    The state is the module variable [instance] and the store of [PopUp]
    objects; references are store addresses. *)

Module PopUp.

Record Obj := {
  popup : option string;             (* the open popup element *)
  popupMessage : option string;
  popupCloseButton : option string;
  cssLoaded : bool;
  cssLink : option string
}.

Record State := {
  instance : option nat;            (* [let instance = null] *)
  objects : gmap nat Obj;
  next : nat;                       (* the address [new] allocates next *)
  loadSoundCalls : list string      (* [soundManager.loadSound] ids *)
}.

(** The module as loaded, before any constructor call. *)
Definition initial : State :=
  {| instance := None; objects := ∅; next := 0; loadSoundCalls := [] |}.

(** [new PopUp()]: [new] allocates [this]; the constructor returns the
    recorded instance when there is one, and the fresh object is dropped;
    otherwise it records [this], initialises its fields and loads the
    sounds. *)
Definition construct (st : State) : nat * State :=
  let this := next st in
  match instance st with
  | Some i =>
      (i, {| instance := instance st; objects := objects st;
             next := S (next st); loadSoundCalls := loadSoundCalls st |})
  | None =>
      (this,
       {| instance := Some this;
          objects := <[this := {| popup := None; popupMessage := None;
                                  popupCloseButton := None;
                                  cssLoaded := false; cssLink := None |}]>
                       (objects st);
          next := S (next st);
          loadSoundCalls := loadSoundCalls st ++ ["popUpSounds"] |})
  end.

(** What other code does to the module between constructor calls: it
    cannot assign [instance] (the variable is not exported); it can write
    the fields of an object it holds a reference to. *)
Definition writeObj (r : nat) (f : Obj -> Obj) (st : State) : State :=
  {| instance := instance st; objects := alter f r (objects st);
     next := next st; loadSoundCalls := loadSoundCalls st |}.

(** A run of the program as seen by the module: constructor calls
    interleaved with field writes. *)
Inductive Op :=
| New
| FieldWrite (r : nat) (f : Obj -> Obj).

Fixpoint run (ops : list Op) (st : State) : list nat * State :=
  match ops with
  | [] => ([], st)
  | New :: ops' =>
      let '(r, st') := construct st in
      let '(rs, st'') := run ops' st' in
      (r :: rs, st'')
  | FieldWrite r f :: ops' => run ops' (writeObj r f st)
  end.

End PopUp.

(** ** Observations on a world *)

(** The floors of the document, in document order. *)
Fixpoint floorsOf (ns : list Node) : list Floor :=
  match ns with
  | [] => []
  | Container _ fs :: ns' => fs ++ floorsOf ns'
  | _ :: ns' => floorsOf ns'
  end.

(** A floor whose click loads its own game, once. *)
Definition wiredFloor (gameId : string) : Floor :=
  {| data_game := gameId;
     label := "Етаж " +:+ JsString.replace "game" "" gameId;
     clicks := [gameId] |}.

(** A floor that is wired when [wired] says so. *)
Definition floorWith (wired : string -> bool) (gameId : string) : Floor :=
  {| data_game := gameId;
     label := "Етаж " +:+ JsString.replace "game" "" gameId;
     clicks := if wired gameId then [gameId] else [] |}.

(** The home screen with a working listener on every floor. *)
Definition wiredHomeBody (games : Registry) : list Node :=
  [Container false (map wiredFloor (rev (keys games)))].

(** Error reports by kind. *)
Definition reportOfType (t : string) (c : ConsoleEntry) : bool :=
  match c with
  | ErrorReport _ _ t' => String.eqb t' t
  | _ => false
  end.

Definition countReports (t : string) (cs : list ConsoleEntry) : nat :=
  length (List.filter (reportOfType t) cs).

(** The report of a screen that is not in the registry. *)
Definition notFoundReport (c : ConsoleEntry) : bool :=
  match c with
  | ErrorReport ctx m t =>
      String.eqb ctx "app.loadScreen" && String.eqb m "Game not found"
      && String.eqb t ErrorTypes.RESOURCE
  | _ => false
  end.

Definition countNotFound (cs : list ConsoleEntry) : nat :=
  length (List.filter notFoundReport cs).

Definition anyReport (c : ConsoleEntry) : bool :=
  match c with
  | ErrorReport _ _ _ => true
  | _ => false
  end.

(** The error reports of a console, in order. *)
Definition reports (cs : list ConsoleEntry) : list ConsoleEntry :=
  List.filter anyReport cs.

(** What [ensureCSS] can write to the console: logs, warnings, and reports
    of its own context, of kind RESOURCE or ASSET_LOADING. *)
Definition cssEntry (c : ConsoleEntry) : bool :=
  match c with
  | ConsoleLog _ | ConsoleWarn _ => true
  | ConsoleError _ => false
  | ErrorReport ctx _ t =>
      String.eqb ctx "App.ensureCSS"
      && (String.eqb t ErrorTypes.RESOURCE || String.eqb t ErrorTypes.ASSET_LOADING)
  end.

(** A link of the head that [ensureCSS] or [unloadCSS] takes for [path]:
    [link.href.includes(path)]. *)
Definition linkMatches (env : Env) (path : string) (l : Link) : bool :=
  JsString.includes (abs_url env (href l)) path.

(** The number of links whose [href] attribute is [path]. *)
Definition countLinks (path : string) (h : list Link) : nat :=
  length (List.filter (fun l => String.eqb (href l) path) h).

(** The document holds no link for [path]: none that [ensureCSS] would take
    for it, none with that attribute. *)
Definition noLinkFor (env : Env) (path : string) (w : World) : bool :=
  forallb (fun l => negb (linkMatches env path l)
                    && negb (String.eqb (href l) path)) (head w).

(** No stylesheet link [unloadCSS] would take for [filename]. *)
Definition noStylesheetFor (env : Env) (filename : string) (w : World) : bool :=
  forallb (fun l => negb (negb (String.eqb (abs_url env (href l)) "")
                          && JsString.includes (abs_url env (href l)) filename))
          (stylesheetLinks w).

(** How often the tracked set holds [path]. *)
Definition countTracked (path : string) (s : list string) : nat :=
  length (List.filter (String.eqb path) s).

(** No link of the head that [ensureCSS] would take for [path]. *)
Definition noExistingLink (env : Env) (path : string) (w : World) : bool :=
  forallb (fun l => negb (linkMatches env path l)) (head w).

Definition isPlaceholder (n : Node) : bool :=
  match n with Placeholder => true | _ => false end.

Definition isLoadingEl (n : Node) : bool :=
  match n with LoadingEl => true | _ => false end.

Definition hasBanner (msg : string) (ns : list Node) : bool :=
  existsb (fun n => match n with
                    | ErrorContainer m => String.eqb m msg
                    | _ => false
                    end) ns.

(** ** The identifier of a path, in the words of the specification

    These definitions follow the specification, not the source: they are
    what [normalizePath] is compared with. *)

Module SpecNormalForm.

(** "Stripping leading slashes": all of them. *)
Fixpoint stripLeadingSlashes (s : string) : string :=
  match s with
  | EmptyString => EmptyString
  | String c s' => if Ascii.eqb c "/" then stripLeadingSlashes s' else s
  end.

(** "Stripping trailing slashes": all of them. *)
Definition stripTrailingSlashes (s : string) : string :=
  JsString.reverse (stripLeadingSlashes (JsString.reverse s)).

(** "Trimming whitespace and stripping leading and trailing slashes". *)
Definition identifier (path : string) : string :=
  stripTrailingSlashes (stripLeadingSlashes (JsString.trim path)).

(** One trailing slash, when there is one. *)
Fixpoint stripTrailingSlash (s : string) : string :=
  match s with
  | EmptyString => EmptyString
  | String c EmptyString => if Ascii.eqb c "/" then EmptyString else s
  | String c s' => String c (stripTrailingSlash s')
  end.

(** The amended wording: trimming white space, then taking one slash off
    the front and one off the end, where there is one. *)
Definition identifierOnce (path : string) : string :=
  stripTrailingSlash (JsString.stripLeadingSlash (JsString.trim path)).

End SpecNormalForm.

(** Every character of the string passes the test. *)
Fixpoint allChars (P : ascii -> bool) (s : string) : bool :=
  match s with
  | EmptyString => true
  | String c s' => P c && allChars P s'
  end.

(** A character that stands for itself in markup, in text and between
    double quotes: no quote, no ampersand, no [<], no NUL and no carriage
    return. *)
Definition markupFreeChar (c : ascii) : bool :=
  negb (Html.codeIs c 34) && negb (Html.codeIs c 38) && negb (Html.codeIs c 60)
  && negb (Html.codeIs c 0) && negb (Html.codeIs c 13).

(** An identifier [generateHomeScreen] can write into its markup as it
    is. *)
Definition markupFree (k : string) : bool := allChars markupFreeChar k.

Definition markupFreeKeys (games : Registry) : bool :=
  forallb markupFree (keys games).

(** A character that also stands for itself between the double quotes of
    a selector: no backslash and no control character either. *)
Definition plainChar (c : ascii) : bool :=
  markupFreeChar c && Nat.leb 32 (nat_of_ascii c) && negb (Html.codeIs c 92).

(** A game identifier made of such characters, as the names of the game
    directories are.  [generateHomeScreen] and [setupFloorListeners] write
    the identifier into markup and into a selector as it is. *)
Definition plainKey (k : string) : bool := allChars plainChar k.

Definition plainKeys (games : Registry) : bool := forallb plainKey (keys games).

(** The floor [floorMarkup gameId] is parsed to. *)
Definition floorTree (gameId : string) : Html.Tree :=
  Html.Elem "div" [("class", "floor"); ("data-game", gameId)]
    [Html.Text ("Етаж " +:+ JsString.replace "game" "" gameId)].

(** The tokens [floorMarkup gameId] is read to. *)
Definition floorTokens (gameId : string) : list Html.Token :=
  Html.TStart "div" [("class", "floor"); ("data-game", gameId)]
  :: map Html.TChar
       (list_ascii_of_string ("Етаж " +:+ JsString.replace "game" "" gameId))
  ++ [Html.TEnd "div"].

(** A line break and [n] spaces of indentation. *)
Fixpoint spaces (n : nat) : string :=
  match n with
  | O => EmptyString
  | S n' => String " " (spaces n')
  end.

Definition indent (n : nat) : string := App.nl +:+ spaces n.

(** The tree the markup of the home screen is parsed to: the container
    with the logo and the building, the building with the floors of the
    identifiers [ks] in this order, and the white space of the template
    between them. *)
Definition homeForest (ks : list string) : list Html.Tree :=
  [ Html.Text (indent 12);
    Html.Elem "div" [("class", "container")]
      [ Html.Text (indent 16);
        Html.Elem "img" [("src", "logo.png"); ("alt", "Logo")] [];
        Html.Text (indent 16);
        Html.Elem "div" [("class", "building")]
          (match ks with
           | [] => [Html.Text (indent 20 +:+ indent 16)]
           | _ => Html.Text (indent 20) :: map floorTree ks ++ [Html.Text (indent 16)]
           end);
        Html.Text (indent 12) ];
    Html.Text (indent 8) ].

(** ** Sample data: a served page, three games *)

Module Sample.

Definition gameEntry (name : string) : string * GameEntry :=
  (name, {| script := "./games/" +:+ name +:+ "/" +:+ name +:+ ".js";
            style := "games/" +:+ name +:+ "/" +:+ name +:+ ".css" |}).

(** The registry [generateGames.js] writes for [game1], [game2], [game3]. *)
Definition games : Registry :=
  [gameEntry "game1"; gameEntry "game2"; gameEntry "game3"].

(** Relative paths resolve against the page; every stylesheet loads; no
    module can be imported. *)
Definition env : Env :=
  {| abs_url := fun p => "http://localhost:8000/" +:+ p;
     css_load_ok := fun _ => true;
     import_module := fun _ =>
       ImportRejected
         (ErrorObject
            (NativeError "TypeError" "Failed to fetch dynamically imported module")) |}.

(** The same page when no stylesheet can be fetched. *)
Definition offline : Env :=
  {| abs_url := abs_url env;
     css_load_ok := fun _ => false;
     import_module := import_module env |}.

(** The page before the application has touched it. *)
Definition world : World :=
  {| head := []; body := []; loadedCSS := []; screens_home := None;
     loadingScreen := {| element := None; isHiding := false |};
     console := []; sounds := []; timers := []; location_href := None |}.

(** A recovery callback that throws. *)
Definition failingFallback : M unit :=
  throw (NativeError "TypeError" "Cannot read properties of null").

Definition half : Unit01 := {| numer := 1; denom := 2; in_range := le_n 2 |}.

End Sample.

(** Unfolds the control-flow combinators. *)
Ltac run :=
  unfold bind, ret, throw, try_catch, try_finally, modify, gets,
         console_log, console_warn, console_error in *;
  simpl in *.

Ltac run_goal :=
  unfold bind, ret, throw, try_catch, try_finally, modify, gets,
         console_log, console_warn, console_error;
  simpl.

(** Replaces the next call of [ensureCSS] in the goal by what [effect]
    says about it. *)
Ltac step_call effect w' x E L C F :=
  match goal with
  | |- context [App.ensureCSS ?env ?v ?W] =>
      destruct (effect env v W) as (w' & x & E & L & C & F);
      rewrite E; simpl
  end.

(** ** [app.js]: start-up and orientation *)

Module AppInit.

(** [checkOrientation()] on the class list of [document.body], given
    [window.innerHeight] and [window.innerWidth].  A class list is a set of
    tokens in insertion order. *)
Definition checkOrientation (innerHeight innerWidth : nat)
    (classList : list string) : list string :=
  if Nat.ltb innerWidth innerHeight then App.delete "landscape" classList
  else App.add "landscape" classList.

Section Boot.

Variable env : Env.
Variable games : Registry.


End Boot.

End AppInit.

(** ** [loadingScreen.js]: the callback of [hide]'s timer *)

Module LoadingScreenTimer.

(** [this.element.parentNode.removeChild(this.element)] when the element
    is in the body. *)
Fixpoint removeLoadingEl (ns : list Node) : list Node :=
  match ns with
  | [] => []
  | LoadingEl :: ns' => ns'
  | n :: ns' => n :: removeLoadingEl ns'
  end.

(** The function [hide] hands to [setTimeout]: detach the element if there
    is one and it is attached, then reset every field. *)
Definition hideTimeout : M unit :=
  fun w =>
    let w' := match element (loadingScreen w) with
              | Some _ => set_body removeLoadingEl w
              | None => w
              end in
    Returned tt
      (set_loadingScreen (fun _ => {| element := None; isHiding := false |}) w').

End LoadingScreenTimer.

(** ** [utils/helpers.js]: the other helpers *)

Module HelpersMore.

Import JsString.


(** [s.endsWith(suffix)] *)
Fixpoint endsWith (s suffix : string) : bool :=
  if String.eqb s suffix then true
  else match s with
       | EmptyString => false
       | String _ s' => endsWith s' suffix
       end.

(** [s.split('/')] *)
Fixpoint splitSlash (s : string) : list string :=
  match s with
  | EmptyString => [EmptyString]
  | String c s' =>
      if Ascii.eqb c "/" then EmptyString :: splitSlash s'
      else match splitSlash s' with
           | part :: parts => String c part :: parts
           | [] => [String c EmptyString]
           end
  end.

(** [parts.join('/')] *)
Fixpoint joinSlash (parts : list string) : string :=
  match parts with
  | [] => EmptyString
  | [part] => part
  | part :: parts' => part +:+ "/" +:+ joinSlash parts'
  end.

(** [parts.findIndex(part => part.startsWith('game'))]; [None] is -1. *)
Fixpoint findIndexGame (parts : list string) : option nat :=
  match parts with
  | [] => None
  | part :: parts' =>
      if String.prefix "game" part then Some 0
      else option_map S (findIndexGame parts')
  end.

(** What [getCurrentGameCssPath] returns: a string, [null] from the
    [catch], or [undefined] when the function falls off its end. *)
Inductive CssPath :=
| PathString (s : string)
| PathNull
| PathUndefined.

Section WithEnv.

Variable env : Env.

(** The link [getCurrentGameCssPath] looks for. *)
Definition isGameCssLink (l : Link) : bool :=
  let h := abs_url env (href l) in
  negb (String.eqb h "") && includes h "/game" && endsWith h ".css".

(** [getCurrentGameCssPath()] *)
Definition getCurrentGameCssPath : M CssPath :=
  try_catch
    (gameCssLink <- gets (fun w => find isGameCssLink (head w));;
     match gameCssLink with
     | None =>
         throw (GameError "No game CSS file found" ErrorTypes.RESOURCE [])
     | Some link =>
         let fullPath := abs_url env (href link) in
         let pathParts := splitSlash fullPath in
         match findIndexGame pathParts with
         | Some gameIndex =>
             ret (PathString (joinSlash (List.skipn gameIndex pathParts)))
         | None => ret PathUndefined
         end
     end)
    (fun error =>
       ErrorHandler.handleError
         (if instanceof_GameError error then error
          else GameError "Failed to get current game CSS path" ErrorTypes.RUNTIME
                 [("originalError", JStr (error_message error))])
         "helpers.getCurrentGameCssPath" None;;
       ret PathNull).

End WithEnv.

End HelpersMore.

(** ** [utils/soundManager.js]: the class

    A [Howl] is an object of the audio library: it is known by the order
    in which it was constructed, and what the manager asks of it is
    logged. *)

Module SoundManager.

Inductive HowlCall :=
| HowlPlay (sprite : option string)
| HowlStop
| HowlPause
| HowlVolume (percent : nat)
| HowlUnload.

(** [new Howl({ src: [src], html5: true, preload: true, ...options })];
    the options are carried as given. *)
Record HowlInfo := { howl_src : string; howl_options : string }.

Record State := {
  sounds : list (string * nat);       (* [this.sounds], a Map: insertion order *)
  howls : list HowlInfo;              (* every Howl constructed, oldest first *)
  calls : list (nat * HowlCall);      (* method calls on Howls, oldest first *)
  messages : list ConsoleEntry        (* what the manager writes to the console *)
}.

(** [new SoundManager()] *)
Definition initial : State :=
  {| sounds := []; howls := []; calls := []; messages := [] |}.

(** [Map.prototype.get] *)
Fixpoint get (m : list (string * nat)) (id : string) : option nat :=
  match m with
  | [] => None
  | (k, v) :: m' => if String.eqb k id then Some v else get m' id
  end.

(** [Map.prototype.delete] *)
Definition remove (m : list (string * nat)) (id : string) : list (string * nat) :=
  List.filter (fun kv => negb (String.eqb (fst kv) id)) m.

Definition call (h : nat) (c : HowlCall) (st : State) : State :=
  {| sounds := sounds st; howls := howls st; calls := calls st ++ [(h, c)];
     messages := messages st |}.

Definition say (c : ConsoleEntry) (st : State) : State :=
  {| sounds := sounds st; howls := howls st; calls := calls st;
     messages := messages st ++ [c] |}.

(** [loadSound(id, src, options)]: the Howl it returns. *)
Definition loadSound (id src options : string) (st : State) : nat * State :=
  match get (sounds st) id with
  | Some sound =>
      (sound, say (ConsoleLog ("Sound " +:+ id +:+ " already loaded")) st)
  | None =>
      let sound := length (howls st) in
      (sound,
       {| sounds := sounds st ++ [(id, sound)];   (* the id is new: [set] appends *)
          howls := howls st ++ [{| howl_src := src; howl_options := options |}];
          calls := calls st; messages := messages st |})
  end.

(** [play(id, sprite)]: [None] is [null]; otherwise what the Howl's [play]
    returns, which is not modelled beyond the Howl that played.  The Howl's
    [play] is called without an argument when [sprite] is falsy. *)
Definition play (id : string) (sprite : option string) (st : State) : option nat * State :=
  match get (sounds st) id with
  | None => (None, say (ConsoleWarn ("Sound " +:+ id +:+ " not found")) st)
  | Some sound =>
      let arg := match sprite with
                 | Some s => if String.eqb s "" then None else Some s   (* [if (sprite)] *)
                 | None => None
                 end in
      (Some sound, call sound (HowlPlay arg) st)
  end.

Definition stop (id : string) (st : State) : State :=
  match get (sounds st) id with
  | Some sound => call sound HowlStop st
  | None => st
  end.

Definition pause (id : string) (st : State) : State :=
  match get (sounds st) id with
  | Some sound => call sound HowlPause st
  | None => st
  end.

Definition resume (id : string) (st : State) : State :=
  match get (sounds st) id with
  | Some sound => call sound (HowlPlay None) st
  | None => st
  end.

Definition setVolume (id : string) (percent : nat) (st : State) : State :=
  match get (sounds st) id with
  | Some sound => call sound (HowlVolume percent) st
  | None => st
  end.

Definition unload (id : string) (st : State) : State :=
  match get (sounds st) id with
  | Some sound =>
      {| sounds := remove (sounds st) id; howls := howls st;
         calls := calls st ++ [(sound, HowlUnload)]; messages := messages st |}
  | None => st
  end.

Definition unloadAll (st : State) : State :=
  {| sounds := []; howls := howls st;
     calls := calls st ++ map (fun kv => (snd kv, HowlUnload)) (sounds st);
     messages := messages st |}.

End SoundManager.

(** ** [components/popUp/popUp.js]: the methods

    A method takes the object it is called on and returns it as it is after
    the call; the document is in the world. *)

Module PopUpMethods.

Definition popUpCss : string := "components/popUp/popUp.css".

(** The popup element [showPopup] builds, as its markup. *)
Definition popupHtml (message buttonText : string) : string :=
  "<div class=" +:+ JsString.dq +:+ "popup-content" +:+ JsString.dq +:+ ">"
  +:+ "<p id=" +:+ JsString.dq +:+ "popup-message" +:+ JsString.dq +:+ ">"
  +:+ message +:+ "</p>"
  +:+ "<button id=" +:+ JsString.dq +:+ "popup-close" +:+ JsString.dq +:+ ">"
  +:+ buttonText +:+ "</button></div>".

Definition popupNode (html : string) : Node := Element ["popup"] html.

Definition node_is (html : string) (n : Node) : bool :=
  match n with
  | Element cls h =>
      String.eqb h html
      && match cls with
         | [c] => String.eqb c "popup"
         | _ => false
         end
  | _ => false
  end.

(** [this.popup.remove()] *)
Fixpoint removePopup (html : string) (ns : list Node) : list Node :=
  match ns with
  | [] => []
  | n :: ns' => if node_is html n then ns' else n :: removePopup html ns'
  end.

(** [PopUpStates.INITIAL_GAME] *)
Definition INITIAL_GAME : nat := 0.

Section WithEnv.

Variable env : Env.

(** [loadPopUpCSS()] *)
Definition loadPopUpCSS (this : PopUp.Obj) : M PopUp.Obj :=
  if PopUp.cssLoaded this then ret this
  else
    try_catch
      (App.ensureCSS env (JStr popUpCss);;
       ret {| PopUp.popup := PopUp.popup this;
              PopUp.popupMessage := PopUp.popupMessage this;
              PopUp.popupCloseButton := PopUp.popupCloseButton this;
              PopUp.cssLoaded := true;
              PopUp.cssLink := Some popUpCss |})
      (fun error =>
         ErrorHandler.handleError
           (GameError "Failed to load popup CSS" ErrorTypes.RESOURCE
              [("originalError", JStr (error_message error))])
           "popUp.loadPopUpCSS" None;;
         ret this).

(** [closePopup()] *)
Definition closePopup (this : PopUp.Obj) : M PopUp.Obj :=
  match PopUp.popup this with
  | Some html =>
      modify (set_body (removePopup html));;
      ret {| PopUp.popup := None;
             PopUp.popupMessage := PopUp.popupMessage this;
             PopUp.popupCloseButton := PopUp.popupCloseButton this;
             PopUp.cssLoaded := PopUp.cssLoaded this;
             PopUp.cssLink := PopUp.cssLink this |}
  | None => ret this
  end.

(** [showPopup(message, state)] up to the promise it returns, which waits
    for a click on the button. *)
Definition showPopup (message : string) (state : nat) (this : PopUp.Obj) : M PopUp.Obj :=
  try_catch
    (soundManager.play "popUpSounds" "openPopUp";;
     this1 <- loadPopUpCSS this;;
     this2 <- (match PopUp.popup this1 with
               | Some _ => closePopup this1
               | None => ret this1
               end);;
     let buttonText := if Nat.eqb state INITIAL_GAME then "Започни" else "Опитай отново" in
     let html := popupHtml message buttonText in
     modify (set_body (fun b => b ++ [popupNode html]));;
     ret {| PopUp.popup := Some html;
            PopUp.popupMessage := Some message;
            PopUp.popupCloseButton := Some buttonText;
            PopUp.cssLoaded := PopUp.cssLoaded this2;
            PopUp.cssLink := PopUp.cssLink this2 |})
    (fun error =>
       ErrorHandler.handleError
         (GameError "Failed to show popup" ErrorTypes.RUNTIME
            [("originalError", JStr (error_message error))])
         "popUp.showPopup" None;;
       ret this).

(** The click listener of the button. *)
Definition closeHandler (this : PopUp.Obj) : M PopUp.Obj :=
  soundManager.play "popUpSounds" "closePopUp";;
  closePopup this.

(** [destroyPopUp()], with the [unloadCSS] it imports.  [unloadCSS] is an
    async function and is not awaited: were it to reject, nothing here
    would see it. *)
Definition destroyPopUp (unloadCSS : JsVal -> M unit) (this : PopUp.Obj) : M PopUp.Obj :=
  this1 <- (match PopUp.popup this with
            | Some html =>
                modify (set_body (removePopup html));;
                ret {| PopUp.popup := None;
                       PopUp.popupMessage := PopUp.popupMessage this;
                       PopUp.popupCloseButton := PopUp.popupCloseButton this;
                       PopUp.cssLoaded := PopUp.cssLoaded this;
                       PopUp.cssLink := PopUp.cssLink this |}
            | None => ret this
            end);;
  match PopUp.cssLoaded this1, PopUp.cssLink this1 with
  | true, Some link =>
      if falsy (JStr link) then ret this1
      else
        try_catch (unloadCSS (JStr link)) (fun _ => ret tt);;
        ret {| PopUp.popup := PopUp.popup this1;
               PopUp.popupMessage := PopUp.popupMessage this1;
               PopUp.popupCloseButton := PopUp.popupCloseButton this1;
               PopUp.cssLoaded := false;
               PopUp.cssLink := None |}
  | _, _ => ret this1
  end.

End WithEnv.

(** The fields of a new popup. *)
Definition fresh : PopUp.Obj :=
  {| PopUp.popup := None; PopUp.popupMessage := None;
     PopUp.popupCloseButton := None; PopUp.cssLoaded := false;
     PopUp.cssLink := None |}.

End PopUpMethods.

(** ** More observations *)

(** Error reports by the context that raised them. *)
Definition reportFrom (ctx : string) (c : ConsoleEntry) : bool :=
  match c with
  | ErrorReport ctx' _ _ => String.eqb ctx' ctx
  | _ => false
  end.

Definition countFrom (ctx : string) (cs : list ConsoleEntry) : nat :=
  length (List.filter (reportFrom ctx) cs).




(** The test of [unloadCSS] on one link:
    [link.href && link.href.includes(filename)]. *)
Definition unloadMatches (env : Env) (filename : string) (l : Link) : bool :=
  negb (String.eqb (abs_url env (href l)) "")
  && JsString.includes (abs_url env (href l)) filename.

(** [link[rel="stylesheet"]] *)
Definition isStylesheet (l : Link) : bool := String.eqb (rel l) "stylesheet".

(** The links [unloadCSS(filename)] detaches. *)
Definition unloaded (env : Env) (filename : string) (l : Link) : bool :=
  isStylesheet l && unloadMatches env filename l.

(** A game module that renders its screen and returns. *)
Definition rendersGameScreen : M unit :=
  modify (set_body (fun _ => [Element ["game-screen"] "<h1>Puzzle</h1>"])).

Definition playableEnv : Env :=
  {| abs_url := abs_url Sample.env;
     css_load_ok := css_load_ok Sample.env;
     import_module := fun _ => ImportResolved (Some rendersGameScreen) |}.

(** [noLinkFor] on a list of links. *)
Definition noLinkFor_links (env : Env) (path : string) (h : list Link) : bool :=
  forallb (fun l => negb (linkMatches env path l)
                    && negb (String.eqb (href l) path)) h.

(** Every tracked path has a link with that [href] in the head. *)
Definition trackedAttached (w : World) : bool :=
  forallb (fun path => existsb (fun l => String.eqb (href l) path) (head w))
          (loadedCSS w).

(** The popup elements of the body. *)
Definition isPopup (n : Node) : bool :=
  match n with
  | Element cls _ => existsb (String.eqb "popup") cls
  | _ => false
  end.

Definition countPopups (ns : list Node) : nat := length (List.filter isPopup ns).

(** The result of a method that returns. *)
Definition result {A} (default : A) (o : Outcome A) : A :=
  match o with
  | Returned a _ => a
  | Thrown _ _ => default
  end.

(** The body after [showUserFriendlyError] wrote [msg] to the banner. *)
Definition banner (msg : string) (b : list Node) : list Node :=
  match ErrorHandler.setErrorContainer msg b with
  | Some b' => b'
  | None => b ++ [ErrorContainer msg]
  end.

(** The popup an object holds is in the body: 1 if so, 0 if not. *)
Definition openPopups (this : PopUp.Obj) (b : list Node) : nat :=
  match PopUp.popup this with
  | Some html => if existsb (PopUpMethods.node_is html) b then 1 else 0
  | None => 0
  end.

(** [showPopup] followed by [destroyPopUp] with the documented
    [unloadCSS]. *)
Definition showThenDestroy (env : Env) (message : string) (state : nat)
    (this : PopUp.Obj) : M PopUp.Obj :=
  (this1 <- PopUpMethods.showPopup env message state this;;
   PopUpMethods.destroyPopUp (HelpersDocumented.unloadCSS env) this1)%js.

(** [showPopup] followed by a click on the button. *)
Definition showThenClick (env : Env) (message : string) (state : nat)
    (this : PopUp.Obj) : M PopUp.Obj :=
  (this1 <- PopUpMethods.showPopup env message state this;;
   PopUpMethods.closeHandler this1)%js.

(** Case analysis on a scrutinee of the goal that is not itself a case
    analysis. *)
Ltac case_innermost :=
  match goal with
  | |- context [match ?X with _ => _ end] =>
      lazymatch X with
      | match _ with _ => _ end => fail
      | (match _ with _ => _ end) _ => fail
      | _ => destruct X eqn:?; simpl
      end
  end.

(** Evaluates the tokenizer on the next literal piece of markup. *)
Ltac scan_literal :=
  match goal with
  | |- context [Html.scan ?m ?s] =>
      let r := eval vm_compute in (Html.scan m s) in
      lazymatch r with
      | Some _ => replace (Html.scan m s) with r by (vm_compute; reflexivity)
      end
  end.

(** ** Strings *)

Lemma append_cons c s t : String c s +:+ t = String c (s +:+ t).
Proof. reflexivity. Qed.

Lemma append_empty_l t : "" +:+ t = t.
Proof. reflexivity. Qed.

Lemma append_empty_r s : s +:+ "" = s.
Proof. induction s as [|c s IH]; [reflexivity|]. now rewrite append_cons, IH. Qed.

Lemma append_assoc_string a b c : (a +:+ b) +:+ c = a +:+ (b +:+ c).
Proof. induction a as [|x a IH]; [reflexivity|]. now rewrite !append_cons, IH. Qed.

(** ** The markup of the home screen parses to its floors *)

Lemma scan_app m s1 s2 :
  Html.scan m (s1 +:+ s2)
  = match Html.scan m s1 with
    | Some (ts1, m1) =>
        match Html.scan m1 s2 with
        | Some (ts2, m2) => Some (ts1 ++ ts2, m2)
        | None => None
        end
    | None => None
    end.
Proof.
  revert m. induction s1 as [|c s1 IH]; intros m.
  - rewrite append_empty_l. cbn [Html.scan].
    now destruct (Html.scan m s2) as [[ts2 m2]|].
  - rewrite append_cons. cbn [Html.scan].
    destruct (Html.step m c) as [[ts m']|]; [|reflexivity].
    rewrite IH. destruct (Html.scan m' s1) as [[ts1 m1]|]; [|reflexivity].
    destruct (Html.scan m1 s2) as [[ts2 m2]|]; [|reflexivity].
    now rewrite app_assoc.
Qed.

Lemma markupFreeChar_codes c :
  markupFreeChar c = true ->
  Html.codeIs c 34 = false /\ Html.codeIs c 38 = false /\ Html.codeIs c 60 = false
  /\ Html.codeIs c 0 = false /\ Html.codeIs c 13 = false.
Proof.
  unfold markupFreeChar. intros H.
  repeat (apply andb_true_iff in H as [H ?]).
  repeat match goal with
         | K : negb _ = true |- _ => apply negb_true_iff in K
         end.
  now repeat split.
Qed.

Lemma snoc_append v c k : Html.snoc v c +:+ k = v +:+ String c k.
Proof. unfold Html.snoc. now rewrite append_assoc_string. Qed.

(** An identifier free of markup is read into an attribute value as it
    is. *)
Lemma scan_value n attrs a v k :
  markupFree k = true ->
  Html.scan (Html.AttrValue n attrs a v) k
  = Some ([], Html.AttrValue n attrs a (v +:+ k)).
Proof.
  unfold markupFree. revert v. induction k as [|c k IH]; intros v H.
  - now rewrite append_empty_r.
  - cbn [allChars] in H. apply andb_true_iff in H as [Hc Hk].
    destruct (markupFreeChar_codes c Hc) as (H34 & H38 & _ & H0 & H13).
    cbn [Html.scan Html.step]. rewrite H34, H38, H0, H13. cbn [orb].
    rewrite (IH _ Hk), snoc_append. reflexivity.
Qed.

(** Text free of markup is read into character tokens. *)
Lemma scan_text t :
  markupFree t = true ->
  Html.scan Html.Data t = Some (map Html.TChar (list_ascii_of_string t), Html.Data).
Proof.
  unfold markupFree. induction t as [|c t IH]; intros H; [reflexivity|].
  cbn [allChars] in H. apply andb_true_iff in H as [Hc Ht].
  destruct (markupFreeChar_codes c Hc) as (_ & H38 & H60 & H0 & H13).
  cbn [Html.scan Html.step]. rewrite H60, H38, H0, H13. cbn [orb].
  now rewrite (IH Ht).
Qed.

Lemma allChars_drop P n s : allChars P s = true -> allChars P (JsString.drop n s) = true.
Proof.
  revert s. induction n as [|n IH]; intros s H; [destruct s; exact H|].
  destruct s as [|c s]; [reflexivity|]. cbn [JsString.drop].
  cbn [allChars] in H. apply andb_true_iff in H as [_ H]. now apply IH.
Qed.

(** [replace] with an empty replacement keeps a string free of markup. *)
Lemma markupFree_replace pat k :
  markupFree k = true -> markupFree (JsString.replace pat "" k) = true.
Proof.
  unfold markupFree. induction k as [|c k IH]; intros H.
  - cbn [JsString.replace]. destruct (String.prefix pat ""); [|reflexivity].
    rewrite append_empty_l. now apply allChars_drop.
  - cbn [JsString.replace]. destruct (String.prefix pat (String c k)).
    + rewrite append_empty_l. now apply allChars_drop.
    + cbn [allChars] in *. apply andb_true_iff in H as [Hc Hk].
      now rewrite Hc, (IH Hk).
Qed.

Lemma plainKey_markupFree k : plainKey k = true -> markupFree k = true.
Proof.
  unfold plainKey, markupFree. induction k as [|c k IH]; [reflexivity|].
  cbn [allChars]. intros H. apply andb_true_iff in H as [Hc Hk].
  unfold plainChar in Hc. apply andb_true_iff in Hc as [Hc _].
  apply andb_true_iff in Hc as [Hc _]. now rewrite Hc, (IH Hk).
Qed.

Lemma plainKeys_markupFree games :
  plainKeys games = true -> markupFreeKeys games = true.
Proof.
  unfold plainKeys, markupFreeKeys. rewrite !forallb_forall.
  intros H k Hin. apply plainKey_markupFree. now apply H.
Qed.

(** The tokens of one floor. *)
Lemma scan_floor k :
  markupFree k = true ->
  Html.scan Html.Data (App.floorMarkup k) = Some (floorTokens k, Html.Data).
Proof.
  intros Hk. unfold App.floorMarkup.
  do 11 (first [rewrite scan_app | idtac];
         first [scan_literal
               | rewrite (scan_value _ _ _ _ _ Hk)
               | rewrite (scan_text _ (markupFree_replace _ _ Hk))];
         cbv beta iota).
  reflexivity.
Qed.

(** The tokens of the floors, joined. *)
Lemma scan_floors ks :
  forallb markupFree ks = true ->
  Html.scan Html.Data (App.join (map App.floorMarkup ks))
  = Some (flat_map floorTokens ks, Html.Data).
Proof.
  induction ks as [|k ks IH]; intros H; [reflexivity|].
  cbn [forallb] in H. apply andb_true_iff in H as [Hk Hks].
  cbn [map App.join fold_right flat_map].
  change (fold_right String.append "" (map App.floorMarkup ks))
    with (App.join (map App.floorMarkup ks)).
  now rewrite scan_app, (scan_floor k Hk), (IH Hks).
Qed.

Lemma markupFreeKeys_rev games :
  markupFreeKeys games = true -> forallb markupFree (rev (keys games)) = true.
Proof.
  unfold markupFreeKeys. rewrite !forallb_forall. intros H k Hin.
  apply H. now apply in_rev.
Qed.

Lemma build_app ts1 ts2 b :
  Html.build (ts1 ++ ts2) b
  = match Html.build ts1 b with
    | Some b' => Html.build ts2 b'
    | None => None
    end.
Proof.
  revert b. induction ts1 as [|t ts1 IH]; intros b; [reflexivity|].
  cbn [app Html.build]. destruct (Html.insert t b); [apply IH|reflexivity].
Qed.

(** A run of characters after a text node extends it. *)
Lemma build_chars s t ks op :
  Html.build (map Html.TChar (list_ascii_of_string s))
    {| Html.kids := Html.Text t :: ks; Html.opened := op |}
  = Some {| Html.kids := Html.Text (t +:+ s) :: ks; Html.opened := op |}.
Proof.
  revert t. induction s as [|c s IH]; intros t.
  - now rewrite append_empty_r.
  - cbn [list_ascii_of_string map Html.build Html.insert Html.kids Html.opened
         Html.addChar].
    now rewrite IH, snoc_append.
Qed.

(** One floor is built into one element. *)
Lemma build_floor k b :
  Html.build (floorTokens k) b
  = Some {| Html.kids := floorTree k :: Html.kids b; Html.opened := Html.opened b |}.
Proof.
  unfold floorTokens. rewrite append_cons.
  cbn [Html.build list_ascii_of_string map app].
  change (Html.insert (Html.TStart "div" [("class", "floor"); ("data-game", k)]) b)
    with (Some {| Html.kids := [];
                  Html.opened := ("div", [("class", "floor"); ("data-game", k)],
                                  Html.kids b) :: Html.opened b |}).
  cbv beta iota. cbn [Html.insert Html.kids Html.opened Html.addChar].
  rewrite build_app, build_chars. cbn [Html.build]. reflexivity.
Qed.

Lemma build_floors ks b :
  Html.build (flat_map floorTokens ks) b
  = Some {| Html.kids := rev (map floorTree ks) ++ Html.kids b;
            Html.opened := Html.opened b |}.
Proof.
  revert b. induction ks as [|k ks IH]; intros b; [now destruct b|].
  cbn [flat_map map rev]. rewrite build_app, build_floor, IH.
  cbn [Html.kids Html.opened]. now rewrite <- app_assoc.
Qed.

(** White space of the template after an element starts a text node. *)
Lemma build_indent n tag a cs ks op :
  Html.build (map Html.TChar (list_ascii_of_string (indent n)))
    {| Html.kids := Html.Elem tag a cs :: ks; Html.opened := op |}
  = Some {| Html.kids := Html.Text (indent n) :: Html.Elem tag a cs :: ks;
            Html.opened := op |}.
Proof.
  change (indent n) with (String (ascii_of_nat 10) (spaces n)).
  cbn [list_ascii_of_string map Html.build Html.insert Html.addChar
       Html.kids Html.opened].
  now rewrite build_chars.
Qed.

(** [</div>] closes the [div] that is the current node. *)
Lemma insert_end_div a older ks rest :
  Html.insert (Html.TEnd "div")
    {| Html.kids := ks; Html.opened := ("div", a, older) :: rest |}
  = Some {| Html.kids := Html.Elem "div" a (rev ks) :: older; Html.opened := rest |}.
Proof. reflexivity. Qed.

(** The markup of the home screen parses to the container, the building
    and the floors of the registry in reverse. *)
Lemma parse_generateHomeScreen games :
  markupFreeKeys games = true ->
  Html.parse (App.generateHomeScreen games) = Some (homeForest (rev (keys games))).
Proof.
  intros H. unfold Html.parse, Html.tokens, App.generateHomeScreen, App.floorsMarkup.
  repeat (first [rewrite scan_app | idtac];
          first [scan_literal
                | rewrite (scan_floors _ (markupFreeKeys_rev _ H))];
          cbv beta iota).
  generalize (rev (keys games)) as l. intros l.
  induction l as [|k l _] using rev_ind; [vm_compute; reflexivity|].
  cbn [app]. cbn -[flat_map floorTokens Html.snoc].
  rewrite build_app, build_floors. cbn [Html.kids Html.opened].
  rewrite map_app, rev_app_distr. cbn [map rev app].
  match goal with
  | |- context [Html.build ?ts {| Html.kids := floorTree k :: _; Html.opened := _ |}] =>
      change ts with
        (map Html.TChar (list_ascii_of_string (indent 16))
         ++ Html.TEnd "div"
         :: map Html.TChar (list_ascii_of_string (indent 12))
         ++ Html.TEnd "div"
         :: map Html.TChar (list_ascii_of_string (indent 8)))
  end.
  unfold floorTree at 1.
  rewrite build_app, build_indent. cbn [Html.build].
  rewrite insert_end_div, build_app, build_indent. cbn [Html.build].
  rewrite insert_end_div, build_indent. cbn [Html.kids Html.opened Html.finish].
  cbn [rev app]. rewrite rev_app_distr, rev_involutive. cbn [rev app].
  unfold homeForest.
  replace (match l ++ [k] with
           | [] => [Html.Text (indent 20 +:+ indent 16)]
           | _ :: _ => Html.Text (indent 20) :: map floorTree (l ++ [k])
                       ++ [Html.Text (indent 16)]
           end)
    with (Html.Text (indent 20) :: map floorTree (l ++ [k]) ++ [Html.Text (indent 16)])
    by (now destruct l).
  rewrite map_app, <- !app_assoc. reflexivity.
Qed.

Lemma byClass_floors ks :
  flat_map (Html.byClass "floor") (map floorTree ks) = map floorTree ks.
Proof.
  induction ks as [|k ks IH]; [reflexivity|].
  cbn [map flat_map]. rewrite IH. reflexivity.
Qed.

Lemma floorsIn_floors ks :
  flat_map Html.floorsIn (map floorTree ks) = map App.floorElement ks.
Proof.
  induction ks as [|k ks IH]; [reflexivity|].
  cbn [map flat_map]. rewrite IH. reflexivity.
Qed.

Lemma quiet_floors ks : forallb Html.quiet (map floorTree ks) = true.
Proof. induction ks as [|k ks IH]; [reflexivity|]. cbn [map forallb]. now rewrite IH. Qed.

(** The floors of the parsed home screen. *)
Lemma homeForest_floors ks :
  Html.elementsByClassName "floor" (homeForest ks) = map floorTree ks.
Proof.
  destruct ks as [|k ks]; [reflexivity|].
  unfold Html.elementsByClassName, homeForest.
  set (fs := map floorTree (k :: ks)).
  cbn [flat_map Html.byClass].
  change (Html.hasClass "floor" [("class", "container")]) with false.
  change (Html.hasClass "floor" [("class", "building")]) with false.
  change (Html.hasClass "floor" [("src", "logo.png"); ("alt", "Logo")]) with false.
  cbn [app]. rewrite !app_nil_r, flat_map_app. subst fs.
  rewrite byClass_floors. cbn [flat_map Html.byClass app]. now rewrite app_nil_r.
Qed.

(** The body the parsed home screen gives: one container, not yet
    [loaded], with the floors. *)
Lemma homeForest_nodes ks :
  Html.nodes (homeForest ks) = Some [Container false (map App.floorElement ks)].
Proof.
  destruct ks as [|k ks]; [reflexivity|].
  unfold homeForest. set (fs := map floorTree (k :: ks)).
  assert (Q : forallb Html.quiet (Html.Text (indent 20) :: fs ++ [Html.Text (indent 16)])
              = true).
  { cbn [forallb Html.quiet]. rewrite forallb_app. subst fs.
    now rewrite quiet_floors. }
  assert (F : flat_map Html.floorsIn (Html.Text (indent 20) :: fs ++ [Html.Text (indent 16)])
              = map App.floorElement (k :: ks)).
  { cbn [flat_map Html.floorsIn app]. rewrite flat_map_app. subst fs.
    rewrite floorsIn_floors. cbn [flat_map Html.floorsIn app]. now rewrite app_nil_r. }
  set (bk := Html.Text (indent 20) :: fs ++ [Html.Text (indent 16)]) in *.
  clearbody bk. cbn [Html.nodes Html.node Html.quiet forallb].
  rewrite Q. cbn [flat_map Html.floorsIn].
  change (Html.attr "data-game" [("src", "logo.png"); ("alt", "Logo")]) with (@None string).
  change (Html.attr "data-game" [("class", "building")]) with (@None string).
  cbn [app]. rewrite !app_nil_r, F. reflexivity.
Qed.

(** What [document.body.innerHTML = generateHomeScreen()] leaves in the
    body. *)
Lemma bodyOf_generateHomeScreen games :
  markupFreeKeys games = true ->
  Html.bodyOf (App.generateHomeScreen games)
  = [Container false (map App.floorElement (rev (keys games)))].
Proof.
  intros H. unfold Html.bodyOf.
  now rewrite (parse_generateHomeScreen games H), homeForest_nodes.
Qed.

(** * Properties *)

(** ** Tracked set and document head *)

Lemma has_app s x y : App.has (s ++ [y]) x = App.has s x || String.eqb x y.
Proof.
  unfold App.has. rewrite existsb_app. simpl. now rewrite orb_false_r.
Qed.

Lemma has_false_countTracked s x : App.has s x = false -> countTracked x s = 0.
Proof.
  unfold App.has, countTracked. induction s as [|y s IH]; simpl; [easy|].
  intros H. apply orb_false_iff in H as [Hy Hs].
  rewrite Hy. now apply IH.
Qed.

Lemma countTracked_app s t x :
  countTracked x (s ++ t) = countTracked x s + countTracked x t.
Proof. unfold countTracked. now rewrite List.filter_app, length_app. Qed.

Lemma add_fresh s x : App.has s x = false -> App.add x s = s ++ [x].
Proof. unfold App.add. now intros ->. Qed.

Lemma noExistingLink_find env n w :
  noExistingLink env n w = true ->
  find (fun l => JsString.includes (abs_url env (href l)) n) (head w) = None.
Proof.
  unfold noExistingLink, linkMatches. induction (head w) as [|l h IH]; simpl; [easy|].
  intros H. apply andb_true_iff in H as [Hl Hh].
  apply negb_true_iff in Hl. rewrite Hl. now apply IH.
Qed.

Lemma noLinkFor_noExisting env n w :
  noLinkFor env n w = true -> noExistingLink env n w = true.
Proof.
  unfold noLinkFor, noExistingLink. induction (head w) as [|l h IH]; simpl; [easy|].
  intros H. apply andb_true_iff in H as [Hl Hh].
  apply andb_true_iff in Hl as [Hl _]. rewrite Hl. now apply IH.
Qed.

Lemma noLinkFor_countLinks env n w :
  noLinkFor env n w = true -> countLinks n (head w) = 0.
Proof.
  unfold noLinkFor, countLinks. induction (head w) as [|l h IH]; simpl; [easy|].
  intros H. apply andb_true_iff in H as [Hl Hh].
  apply andb_true_iff in Hl as [_ Hl]. apply negb_true_iff in Hl.
  rewrite Hl. now apply IH.
Qed.

Lemma countLinks_app n h k :
  countLinks n (h ++ k) = countLinks n h + countLinks n k.
Proof. unfold countLinks. now rewrite List.filter_app, length_app. Qed.

(** The call on a tracked path: one log line, nothing else. *)
Lemma ensureCSS_tracked env p w :
  App.has (loadedCSS w) (App.normalizePath p) = true ->
  App.ensureCSS env (JStr p) w =
  Returned tt (add_console (ConsoleLog ("CSS already loaded: " +:+ App.normalizePath p)) w).
Proof. intros H. unfold App.ensureCSS. run. now rewrite H. Qed.

(** The call that attaches a link whose [load] event fires. *)
Lemma ensureCSS_loads env p w :
  App.has (loadedCSS w) (App.normalizePath p) = false ->
  noExistingLink env (App.normalizePath p) w = true ->
  css_load_ok env (App.normalizePath p) = true ->
  App.ensureCSS env (JStr p) w =
  Returned tt
    (set_loadedCSS (fun s => s ++ [App.normalizePath p])
       (set_head (fun h => h ++ [{| rel := "stylesheet"; href := App.normalizePath p |}]) w)).
Proof.
  intros Hhas Hno Hok. unfold App.ensureCSS. run.
  rewrite Hhas, (noExistingLink_find _ _ _ Hno), Hok.
  unfold set_loadedCSS. simpl. now rewrite (add_fresh _ _ Hhas).
Qed.

(** The call that attaches a link whose [error] event fires: the link
    stays, the tracked set is as before, and the error goes to
    [handleError] with the context of the call. *)
Lemma ensureCSS_fails env p w :
  App.has (loadedCSS w) (App.normalizePath p) = false ->
  noExistingLink env (App.normalizePath p) w = true ->
  css_load_ok env (App.normalizePath p) = false ->
  App.ensureCSS env (JStr p) w =
  ErrorHandler.handleError (App.cssLoadError (App.normalizePath p))
    "App.ensureCSS" None
    (set_head (fun h => h ++ [{| rel := "stylesheet"; href := App.normalizePath p |}]) w).
Proof.
  intros Hhas Hno Hok. unfold App.ensureCSS. run.
  now rewrite Hhas, (noExistingLink_find _ _ _ Hno), Hok.
Qed.

Lemma setErrorContainer_banner msg b b' :
  ErrorHandler.setErrorContainer msg b = Some b' -> hasBanner msg b' = true.
Proof.
  revert b'. induction b as [|n b IH]; intros b' H; simpl in H; [easy|].
  destruct n; simpl in H;
    try (destruct (ErrorHandler.setErrorContainer msg b) as [b0|]; simpl in H;
         [injection H as <-; simpl; now apply IH | easy]).
  injection H as <-. simpl. now rewrite String.eqb_refl.
Qed.

(** After [showUserFriendlyError] the banner is in the body. *)
Lemma showUserFriendlyError_banner msg w :
  hasBanner msg (body (final (ErrorHandler.showUserFriendlyError msg w))) = true.
Proof.
  unfold ErrorHandler.showUserFriendlyError. run.
  destruct (ErrorHandler.setErrorContainer msg (body w)) as [b'|] eqn:E.
  - now apply setErrorContainer_banner with (b := body w).
  - unfold hasBanner. rewrite existsb_app. simpl.
    now rewrite String.eqb_refl, orb_true_r.
Qed.

(** C3: for a path whose stylesheet load succeeds, two calls of
    [ensureCSS] in a row leave exactly one link for the path in the
    document and the normalized path exactly once in the tracked set, and
    the second call changes neither the document nor the tracked set. *)
Theorem ensureCSS_twice_attaches_once env p w :
  css_load_ok env (App.normalizePath p) = true ->
  App.has (loadedCSS w) (App.normalizePath p) = false ->
  noLinkFor env (App.normalizePath p) w = true ->
  let o1 := App.ensureCSS env (JStr p) w in
  let o2 := App.ensureCSS env (JStr p) (final o1) in
  returns o1 = true /\ returns o2 = true /\
  countLinks (App.normalizePath p) (head (final o2)) = 1 /\
  countTracked (App.normalizePath p) (loadedCSS (final o2)) = 1 /\
  head (final o2) = head (final o1) /\
  body (final o2) = body (final o1) /\
  loadedCSS (final o2) = loadedCSS (final o1).
Proof.
  intros Hok Hhas Hno. simpl.
  rewrite (ensureCSS_loads env p w Hhas (noLinkFor_noExisting _ _ _ Hno) Hok).
  simpl. rewrite ensureCSS_tracked.
  2:{ simpl. rewrite has_app, String.eqb_refl. apply orb_true_r. }
  simpl. repeat split.
  - rewrite countLinks_app, (noLinkFor_countLinks _ _ _ Hno).
    unfold countLinks. simpl. now rewrite String.eqb_refl.
  - rewrite countTracked_app, (has_false_countTracked _ _ Hhas).
    unfold countTracked. simpl. now rewrite String.eqb_refl.
Qed.

Lemma ensureCSS_twice_attaches_once_witness :
  let o1 := App.ensureCSS Sample.env (JStr " /style.css/ ") Sample.world in
  let o2 := App.ensureCSS Sample.env (JStr " /style.css/ ") (final o1) in
  returns o1 = true /\ returns o2 = true /\
  countLinks "style.css" (head (final o2)) = 1 /\
  countTracked "style.css" (loadedCSS (final o2)) = 1 /\
  head (final o2) = head (final o1) /\
  body (final o2) = body (final o1) /\
  loadedCSS (final o2) = loadedCSS (final o1).
Proof.
  apply (ensureCSS_twice_attaches_once Sample.env " /style.css/ " Sample.world);
    reflexivity.
Defined.

(** C5: for a path whose stylesheet load fails, [ensureCSS] hands a
    resource error to the global error facility and leaves the tracked set
    as it was. *)
Theorem ensureCSS_failure_not_tracked env p w :
  css_load_ok env (App.normalizePath p) = false ->
  App.has (loadedCSS w) (App.normalizePath p) = false ->
  noExistingLink env (App.normalizePath p) w = true ->
  let o := App.ensureCSS env (JStr p) w in
  returns o = true /\
  console (final o) =
    console w ++ [ErrorReport "App.ensureCSS"
                    ("Failed to load CSS: " +:+ App.normalizePath p)
                    ErrorTypes.RESOURCE] /\
  hasBanner (ErrorHandler.userMessage (App.cssLoadError (App.normalizePath p)))
    (body (final o)) = true /\
  loadedCSS (final o) = loadedCSS w /\
  App.has (loadedCSS (final o)) (App.normalizePath p) = false.
Proof.
  intros Hok Hhas Hno. simpl.
  rewrite (ensureCSS_fails env p w Hhas Hno Hok).
  unfold ErrorHandler.handleError.
  pose proof (showUserFriendlyError_banner
                (ErrorHandler.userMessage (App.cssLoadError (App.normalizePath p)))) as Hb.
  unfold ErrorHandler.showUserFriendlyError in *. run.
  repeat split; try assumption.
  apply (Hb (add_console
               (ErrorReport "App.ensureCSS"
                  ("Failed to load CSS: " +:+ App.normalizePath p) ErrorTypes.RESOURCE)
               (set_head (fun h => h ++ [{| rel := "stylesheet";
                                             href := App.normalizePath p |}]) w))).
Qed.

Lemma ensureCSS_failure_not_tracked_witness :
  let o := App.ensureCSS Sample.offline (JStr "games/game1/game1.css") Sample.world in
  returns o = true /\
  console (final o) =
    console Sample.world
    ++ [ErrorReport "App.ensureCSS"
          ("Failed to load CSS: " +:+ App.normalizePath "games/game1/game1.css")
          ErrorTypes.RESOURCE] /\
  hasBanner (ErrorHandler.userMessage
               (App.cssLoadError (App.normalizePath "games/game1/game1.css")))
    (body (final o)) = true /\
  loadedCSS (final o) = loadedCSS Sample.world /\
  App.has (loadedCSS (final o)) (App.normalizePath "games/game1/game1.css") = false.
Proof.
  apply (ensureCSS_failure_not_tracked Sample.offline "games/game1/game1.css"
           Sample.world); reflexivity.
Defined.

(** The pattern of [normalizePath] takes one slash off each end. *)
Lemma replaceEdgeSlashes_inner s :
  JsString.replaceEdgeSlashes false s = SpecNormalForm.stripTrailingSlash s.
Proof.
  induction s as [|c s IH]; [reflexivity|].
  cbn [JsString.replaceEdgeSlashes SpecNormalForm.stripTrailingSlash orb].
  destruct s as [|c' s'].
  - cbn [String.eqb andb JsString.replaceEdgeSlashes].
    rewrite andb_true_r. now destruct (Ascii.eqb c "/").
  - change (String.eqb (String c' s') "") with false.
    rewrite andb_false_r. now rewrite IH.
Qed.

Lemma stripLeadingSlash_slash s : JsString.stripLeadingSlash (String "/" s) = s.
Proof. reflexivity. Qed.

Lemma stripLeadingSlash_other c s :
  Ascii.eqb c "/" = false ->
  JsString.stripLeadingSlash (String c s) = String c s.
Proof.
  destruct c as [[] [] [] [] [] [] [] []]; intros H;
    first [reflexivity | discriminate H].
Qed.

(** The normal form of the code is the identifier of the amended
    wording. *)
Lemma normalizePath_identifierOnce p :
  App.normalizePath p = SpecNormalForm.identifierOnce p.
Proof.
  unfold App.normalizePath, SpecNormalForm.identifierOnce, JsString.stripSlashes.
  destruct (JsString.trim p) as [|c s]; [reflexivity|].
  cbn [JsString.replaceEdgeSlashes orb]. rewrite andb_true_r.
  destruct (Ascii.eqb c "/") eqn:E.
  - apply Ascii.eqb_eq in E. subst c.
    now rewrite stripLeadingSlash_slash, replaceEdgeSlashes_inner.
  - rewrite (stripLeadingSlash_other c s E), replaceEdgeSlashes_inner.
    destruct s as [|c' s']; cbn [SpecNormalForm.stripTrailingSlash];
      [now rewrite E|reflexivity].
Qed.

(** C7, amended: two paths with the same identifier, where the identifier
    of a path is what is left when white space is trimmed and then one
    leading and one trailing slash are taken off, name one tracked
    resource: once [ensureCSS] has loaded the first, the call with the
    second returns at the tracked-set test and attaches no link. *)
Theorem ensureCSS_same_normal_form env p q w :
  SpecNormalForm.identifierOnce p = SpecNormalForm.identifierOnce q ->
  let w1 := final (App.ensureCSS env (JStr p) w) in
  App.has (loadedCSS w1) (SpecNormalForm.identifierOnce p) = true ->
  App.ensureCSS env (JStr q) w1 =
    Returned tt (add_console
                   (ConsoleLog ("CSS already loaded: "
                                +:+ SpecNormalForm.identifierOnce q)) w1)
  /\ head (final (App.ensureCSS env (JStr q) w1)) = head w1
  /\ loadedCSS (final (App.ensureCSS env (JStr q) w1)) = loadedCSS w1.
Proof.
  intros Hpq w1 Htracked. rewrite Hpq, <- normalizePath_identifierOnce in Htracked.
  rewrite (ensureCSS_tracked env q w1 Htracked), <- normalizePath_identifierOnce.
  now repeat split.
Qed.

Lemma ensureCSS_same_normal_form_witness :
  let w1 := final (App.ensureCSS Sample.env (JStr "/style.css/") Sample.world) in
  App.ensureCSS Sample.env (JStr "style.css") w1 =
    Returned tt (add_console
                   (ConsoleLog ("CSS already loaded: "
                                +:+ SpecNormalForm.identifierOnce "style.css")) w1)
  /\ head (final (App.ensureCSS Sample.env (JStr "style.css") w1)) = head w1
  /\ loadedCSS (final (App.ensureCSS Sample.env (JStr "style.css") w1)) = loadedCSS w1.
Proof.
  apply (ensureCSS_same_normal_form Sample.env "/style.css/" "style.css" Sample.world);
    reflexivity.
Defined.

(** C7 as worded does not hold.  ["style.css"] and ["//style.css//"] are
    one identifier once white space is trimmed and leading and trailing
    slashes are stripped; the pattern of the code takes one slash off each
    end, so after a successful [ensureCSS("style.css")] the call
    [ensureCSS("//style.css//")] does not return at the tracked-set test:
    it attaches and tracks a second link. *)
Lemma ensureCSS_repeated_slashes_second_link :
  let p := "style.css" in
  let q := "//style.css//" in
  let w1 := final (App.ensureCSS Sample.env (JStr p) Sample.world) in
  let w2 := final (App.ensureCSS Sample.env (JStr q) w1) in
  SpecNormalForm.identifier p = SpecNormalForm.identifier q
  /\ map href (head w1) = ["style.css"]
  /\ loadedCSS w1 = ["style.css"]
  /\ reports (console w1) = []
  /\ head w2 <> head w1
  /\ map href (head w2) = ["style.css"; "/style.css/"]
  /\ loadedCSS w2 = ["style.css"; "/style.css/"].
Proof. repeat split; try (vm_compute; reflexivity). vm_compute. discriminate. Qed.

(** ** The error facility *)


(** A callback that throws: the page navigates to the root. *)
Example handleError_failing_fallback :
  let o := ErrorHandler.handleError (GameError "Game not found" ErrorTypes.RESOURCE [])
             "app.loadScreen" (Some Sample.failingFallback) Sample.world in
  returns o = true /\ location_href (final o) = Some "/".
Proof. split; reflexivity. Qed.

(** Without a callback nothing follows the banner. *)
Lemma handleError_no_fallback error context w :
  ErrorHandler.handleError error context None w =
  Returned tt
    (final (ErrorHandler.showUserFriendlyError (ErrorHandler.userMessage error)
              (add_console (ErrorReport context (error_message error)
                              (ErrorHandler.reportedType error)) w))).
Proof. unfold ErrorHandler.handleError, ErrorHandler.showUserFriendlyError. now run. Qed.

(** ** The home screen *)

Lemma nth_error_rev_keys {A} (l : list A) i k :
  nth_error l i = Some k ->
  nth_error (rev l) (length l - 1 - i) = Some k.
Proof.
  intros H.
  assert (Hi : i < length l) by (apply nth_error_Some; congruence).
  rewrite nth_error_rev.
  destruct (Nat.ltb_spec (length l - 1 - i) (length l)) as [_|Hge]; [|lia].
  replace (length l - S (length l - 1 - i)) with i by lia.
  exact H.
Qed.

Lemma data_game_floorElement ks :
  map data_game (map App.floorElement ks) = ks.
Proof. rewrite map_map. apply map_id. Qed.

(** C6, amended: for a registry whose identifiers are free of markup, the
    rendered home screen holds one floor element per registry entry, in
    the reverse of the registry's key order.  The markup
    [generateHomeScreen] returns parses to a tree whose elements of class
    [floor] are the floors of the keys in reverse: as many as there are
    entries, read backwards they are the floors of the keys in registry
    order, and the first is the floor of the last key.  The body after
    rendering holds these floors in this order. *)
Theorem home_floors_reverse_registry games :
  markupFreeKeys games = true ->
  exists forest,
    Html.parse (App.generateHomeScreen games) = Some forest
    /\ Html.elementsByClassName "floor" forest = map floorTree (rev (keys games))
    /\ length (Html.elementsByClassName "floor" forest) = length games
    /\ rev (Html.elementsByClassName "floor" forest) = map floorTree (keys games)
    /\ nth_error (Html.elementsByClassName "floor" forest) 0
       = option_map floorTree (nth_error (keys games) (length games - 1))
    /\ Html.bodyOf (App.generateHomeScreen games)
       = [Container false (map App.floorElement (rev (keys games)))]
    /\ map data_game (floorsOf (Html.bodyOf (App.generateHomeScreen games)))
       = rev (keys games).
Proof.
  intros Hpl.
  assert (Hlen : length (keys games) = length games)
    by (unfold keys; apply length_map).
  pose proof (bodyOf_generateHomeScreen games Hpl) as Hb.
  exists (homeForest (rev (keys games))).
  rewrite homeForest_floors, Hb.
  split; [now apply parse_generateHomeScreen|].
  split; [reflexivity|].
  split; [now rewrite length_map, length_rev|].
  split; [now rewrite <- map_rev, rev_involutive|].
  split.
  - rewrite nth_error_map, <- Hlen. f_equal.
    destruct (nth_error (keys games) (length (keys games) - 1)) as [k|] eqn:E.
    + pose proof (nth_error_rev_keys _ _ _ E) as R.
      assert (Hi : length (keys games) - 1 < length (keys games))
        by (apply nth_error_Some; congruence).
      now replace (length (keys games) - 1 - (length (keys games) - 1)) with 0 in R by lia.
    + apply nth_error_None in E.
      destruct (keys games) as [|k ks]; [reflexivity|simpl in E; lia].
  - split; [reflexivity|].
    cbn [floorsOf flat_map]. rewrite app_nil_r. apply data_game_floorElement.
Qed.

Lemma home_floors_reverse_registry_witness :
  exists forest,
    Html.parse (App.generateHomeScreen Sample.games) = Some forest
    /\ Html.elementsByClassName "floor" forest
       = map floorTree (rev (keys Sample.games))
    /\ length (Html.elementsByClassName "floor" forest) = length Sample.games
    /\ rev (Html.elementsByClassName "floor" forest) = map floorTree (keys Sample.games)
    /\ nth_error (Html.elementsByClassName "floor" forest) 0
       = option_map floorTree (nth_error (keys Sample.games) (length Sample.games - 1))
    /\ Html.bodyOf (App.generateHomeScreen Sample.games)
       = [Container false (map App.floorElement (rev (keys Sample.games)))]
    /\ map data_game (floorsOf (Html.bodyOf (App.generateHomeScreen Sample.games)))
       = rev (keys Sample.games).
Proof.
  apply (home_floors_reverse_registry Sample.games); reflexivity.
Defined.

(** C6 as worded does not hold for every registry.  [generateHomeScreen]
    writes the identifier into the markup as it is, so an identifier with
    markup in it adds elements.  The registry with the one key [k] below,
    a double quote followed by the start tag of a [span] of class [floor],
    is rendered with three elements of class [floor]: the floor, and a
    [span] from each of the two places the identifier is written to. *)
Lemma home_floors_markup_in_identifier :
  let k := "x" +:+ JsString.dq +:+ "><span class=" +:+ JsString.dq +:+ "floor"
           +:+ JsString.dq +:+ ">z" in
  let games := [Sample.gameEntry k] in
  length games = 1
  /\ option_map (fun forest => length (Html.elementsByClassName "floor" forest))
       (Html.parse (App.generateHomeScreen games)) = Some 3
  /\ option_map (fun forest => map Html.tagOf (Html.elementsByClassName "floor" forest))
       (Html.parse (App.generateHomeScreen games)) = Some ["div"; "span"; "span"].
Proof. repeat split; vm_compute; reflexivity. Qed.

(** The scenario of the specification: the keys game1, game2, game3 give the
    floors game3, game2, game1. *)
Example generateHomeScreen_three_games :
  map data_game (floorsOf (Html.bodyOf (App.generateHomeScreen Sample.games)))
  = ["game3"; "game2"; "game1"]
  /\ option_map (Html.elementsByClassName "floor")
       (Html.parse (App.generateHomeScreen Sample.games))
     = Some [floorTree "game3"; floorTree "game2"; floorTree "game1"]
  /\ JsString.includes (App.generateHomeScreen Sample.games)
       (App.floorMarkup "game3" +:+ App.floorMarkup "game2" +:+ App.floorMarkup "game1")
     = true.
Proof. repeat split; vm_compute; reflexivity. Qed.

(** ** Floor listeners *)

Lemma floorWith_ext (P Q : string -> bool) (l : list string) :
  (forall k, In k l -> P k = Q k) -> map (floorWith P) l = map (floorWith Q) l.
Proof.
  intros H. apply map_ext_in. intros k Hk. unfold floorWith. now rewrite (H k Hk).
Qed.

(** A listener lands on the one floor of its game. *)
Lemma addClickFloors_wires (P : string -> bool) (g : string) (l : list string) :
  List.NoDup l -> In g l -> P g = false ->
  App.addClickFloors g (map (floorWith P) l)
  = Some (map (floorWith (fun k => String.eqb k g || P k)) l).
Proof.
  induction l as [|k l IH]; intros Hnd Hin HP; [destruct Hin|].
  inversion Hnd as [|? ? Hk Hl]; subst. simpl.
  destruct (String.eqb_spec k g) as [->|Hne].
  - f_equal. f_equal.
    + unfold floorWith. simpl. now rewrite HP, String.eqb_refl.
    + apply floorWith_ext. intros k Hk'.
      destruct (String.eqb_spec k g) as [->|_]; [contradiction|reflexivity].
  - destruct Hin as [->|Hin]; [contradiction|].
    rewrite (IH Hl Hin HP). simpl. f_equal. f_equal.
    unfold floorWith. simpl.
    destruct (String.eqb_spec k g) as [->|_]; [contradiction|reflexivity].
Qed.

Lemma addFloorListener_wires (P : string -> bool) (g : string) (l : list string) w :
  List.NoDup l -> In g l -> P g = false ->
  body w = [Container false (map (floorWith P) l)] ->
  App.addFloorListener g w
  = set_body (fun _ => [Container false
                          (map (floorWith (fun k => String.eqb k g || P k)) l)]) w.
Proof.
  intros Hnd Hin HP Hb. unfold App.addFloorListener. rewrite Hb. simpl.
  now rewrite (addClickFloors_wires P g l Hnd Hin HP).
Qed.

(** Wiring the keys [ks] one after the other. *)
Lemma fold_addFloorListener_wires (ks l : list string) :
  List.NoDup ks -> List.NoDup l -> (forall k, In k ks -> In k l) ->
  forall (P : string -> bool) w,
    (forall k, In k ks -> P k = false) ->
    body w = [Container false (map (floorWith P) l)] ->
    fold_left (fun w' gameId => App.addFloorListener gameId w') ks w
    = set_body (fun _ => [Container false
                (map (floorWith (fun k => existsb (String.eqb k) ks || P k)) l)]) w.
Proof.
  intros Hks Hl. induction ks as [|g ks IH]; intros Hsub P w HP Hb.
  - simpl. destruct w; simpl in *. unfold set_body. simpl. now rewrite Hb.
  - inversion Hks as [|? ? Hg Hks']; subst. simpl.
    rewrite (addFloorListener_wires P g l w Hl (Hsub g (or_introl eq_refl))
               (HP g (or_introl eq_refl)) Hb).
    rewrite (IH Hks' (fun k Hk => Hsub k (or_intror Hk))
               (fun k => String.eqb k g || P k)).
    + unfold set_body. simpl. do 3 f_equal.
      apply floorWith_ext. intros k _.
      destruct (String.eqb k g); simpl; [now rewrite orb_true_r|reflexivity].
    + intros k Hk. rewrite (HP k (or_intror Hk)), orb_false_r.
      destruct (String.eqb_spec k g) as [->|_]; [contradiction|reflexivity].
    + reflexivity.
Qed.

(** Rendering the home screen: the markup is stored, the body is the home
    screen with every floor wired, the [loaded] class is scheduled. *)
Lemma renderHome_wired games w :
  plainKeys games = true ->
  List.NoDup (keys games) ->
  App.renderHome games w =
  Returned tt
    (set_body (fun _ => wiredHomeBody games)
       (add_console (ConsoleLog "Setting up floor listeners for games:")
          (add_timer AddLoadedToContainer
             (set_screens_home (App.generateHomeScreen games)
                (add_console (ConsoleLog "Available games:") w))))).
Proof.
  intros Hpl Hnd. unfold App.renderHome, App.setupFloorListeners, bind, modify.
  cbn [set_screens_home App.home_markup screens_home].
  rewrite (bodyOf_generateHomeScreen games (plainKeys_markupFree _ Hpl)). run. f_equal.
  rewrite (fold_addFloorListener_wires (keys games) (rev (keys games)) Hnd
             (List.NoDup_rev Hnd) (fun k Hk => proj1 (in_rev _ k) Hk)
             (fun _ => false)); [|reflexivity|reflexivity].
  unfold set_body, wiredHomeBody. simpl. do 3 f_equal.
  apply map_ext_in. intros k Hk. unfold floorWith, wiredFloor. f_equal.
  apply in_rev in Hk.
  assert (E : existsb (String.eqb k) (keys games) = true).
  { apply existsb_exists. exists k. split; [exact Hk|apply String.eqb_refl]. }
  now rewrite E.
Qed.

(** ** What [ensureCSS] can and cannot do *)

Lemma ensureCSS_effect env v w :
  exists w' extra,
    App.ensureCSS env v w = Returned tt w'
    /\ loadingScreen w' = loadingScreen w
    /\ console w' = console w ++ extra
    /\ forallb cssEntry extra = true.
Proof.
  unfold App.ensureCSS, ErrorHandler.handleError, ErrorHandler.showUserFriendlyError.
  destruct v as [|p]; run.
  - eexists _, [_]. repeat split; reflexivity.
  - destruct (App.has (loadedCSS w) (App.normalizePath p)).
    + eexists _, [_]. repeat split; reflexivity.
    + destruct (find _ (head w)); simpl.
      * eexists _, [_]. repeat split; reflexivity.
      * destruct (css_load_ok env (App.normalizePath p)); simpl.
        -- eexists _, []. repeat split; simpl; try reflexivity.
           now rewrite app_nil_r.
        -- eexists _, [_]. repeat split; reflexivity.
Qed.

Lemma countNotFound_app a b :
  countNotFound (a ++ b) = countNotFound a + countNotFound b.
Proof. unfold countNotFound. now rewrite List.filter_app, length_app. Qed.

Lemma countReports_app t a b :
  countReports t (a ++ b) = countReports t a + countReports t b.
Proof. unfold countReports. now rewrite List.filter_app, length_app. Qed.

Lemma cssEntry_not_notFound extra :
  forallb cssEntry extra = true -> countNotFound extra = 0.
Proof.
  unfold countNotFound. induction extra as [|c extra IH]; simpl; [easy|].
  intros H. apply andb_true_iff in H as [Hc Hx].
  destruct c as [| | |ctx m t]; simpl in *; try (now apply IH).
  apply andb_true_iff in Hc as [Hctx _]. apply String.eqb_eq in Hctx. subst ctx.
  simpl. now apply IH.
Qed.

Lemma cssEntry_not_gameInit extra :
  forallb cssEntry extra = true ->
  countReports ErrorTypes.GAME_INITIALIZATION extra = 0.
Proof.
  unfold countReports. induction extra as [|c extra IH]; simpl; [easy|].
  intros H. apply andb_true_iff in H as [Hc Hx].
  destruct c as [| | |ctx m t]; simpl in *; try (now apply IH).
  apply andb_true_iff in Hc as [_ Ht]. apply orb_true_iff in Ht as [Ht|Ht];
    apply String.eqb_eq in Ht; subst t; simpl; now apply IH.
Qed.

(** ** Screen transitions *)

Arguments App.ensureCSS : simpl never.
Opaque App.renderHome.


(** A screen identifier for which [games[screenId]] is undefined: the
    transition recovers to the wired home screen, with one not-found
    report. *)
Lemma loadScreen_unknown_recovers env games s w :
  String.eqb s "home" = false ->
  get games s = Undefined ->
  plainKeys games = true ->
  List.NoDup (keys games) ->
  let o := App.loadScreen env games s w in
  returns o = true
  /\ body (final o) = wiredHomeBody games
  /\ screens_home (final o) = Some (App.generateHomeScreen games)
  /\ countNotFound (console (final o)) = countNotFound (console w) + 1
  /\ isHiding (loadingScreen (final o)) = true.
Proof.
  intros Hhome Hget Hpl Hnd. unfold App.loadScreen. run.
  step_call ensureCSS_effect w1 x1 E1 L1 C1 F1.
  step_call ensureCSS_effect w2 x2 E2 L2 C2 F2.
  rewrite Hhome, Hget.
  unfold LoadingScreen.show, ErrorHandler.handleError,
    ErrorHandler.showUserFriendlyError, LoadingScreen.hide. run.
  assert (Hcount : countNotFound (console w2) = countNotFound (console w)).
  { rewrite C2, C1. simpl. rewrite !countNotFound_app.
    rewrite (cssEntry_not_notFound _ F1), (cssEntry_not_notFound _ F2).
    generalize (countNotFound (console w)). intros n.
    unfold countNotFound. simpl. lia. }
  destruct (element (loadingScreen w2)) as [el|] eqn:Hel; simpl;
    rewrite (renderHome_wired _ _ Hpl Hnd); simpl; rewrite ?Hel; simpl.
  - destruct (isHiding (loadingScreen w2)) eqn:Hh; simpl;
      repeat split; try assumption; try reflexivity;
      rewrite !countNotFound_app, Hcount;
      generalize (countNotFound (console w)); intros n;
      unfold countNotFound; simpl; lia.
  - destruct (isHiding (loadingScreen w2)) eqn:Hh; simpl;
      repeat split; try assumption; try reflexivity;
      rewrite !countNotFound_app, Hcount;
      generalize (countNotFound (console w)); intros n;
      unfold countNotFound; simpl; lia.
Qed.

Lemma own_get games g e : own games g = Some e -> get games g = OwnEntry e.
Proof. unfold get. now intros ->. Qed.

(** C2, amended: when the dynamic import of a registered game's script
    rejects with a reason other than [null] and [undefined], the
    transition completes with the loading indicator hidden, the
    placeholder gone, the home screen rendered from the parsed markup with
    a working listener on every floor, and exactly one Game-Initialization
    error reported.  The reason is any value whose [message] can be read:
    an error object, or a value without that property. *)
Theorem loadScreen_import_rejected_recovers env games g e reason message w :
  String.eqb g "home" = false ->
  own games g = Some e ->
  import_module env (script e) = ImportRejected reason ->
  reason_message reason = inr message ->
  plainKeys games = true ->
  List.NoDup (keys games) ->
  let o := App.loadScreen env games g w in
  returns o = true
  /\ screens_home (final o) = Some (App.generateHomeScreen games)
  /\ body (final o) = wiredHomeBody games
  /\ existsb isPlaceholder (body (final o)) = false
  /\ existsb isLoadingEl (body (final o)) = false
  /\ isHiding (loadingScreen (final o)) = true
  /\ countReports ErrorTypes.GAME_INITIALIZATION (console (final o))
     = countReports ErrorTypes.GAME_INITIALIZATION (console w) + 1.
Proof.
  intros Hhome Hown Himp Hmsg Hpl Hnd. unfold App.loadScreen. run.
  step_call ensureCSS_effect w1 x1 E1 L1 C1 F1.
  step_call ensureCSS_effect w2 x2 E2 L2 C2 F2.
  rewrite Hhome, (own_get _ _ _ Hown).
  unfold LoadingScreen.show, LoadingScreen.updateMessage,
    LoadingScreen.updateProgress, soundManager.stop. run.
  assert (Hcount : countReports ErrorTypes.GAME_INITIALIZATION (console w2)
                   = countReports ErrorTypes.GAME_INITIALIZATION (console w)).
  { rewrite C2, C1. simpl. rewrite !countReports_app.
    rewrite (cssEntry_not_gameInit _ F1), (cssEntry_not_gameInit _ F2).
    generalize (countReports ErrorTypes.GAME_INITIALIZATION (console w)). intros n.
    unfold countReports. simpl. lia. }
  destruct (element (loadingScreen w2)) as [el|] eqn:Hel; simpl;
    step_call ensureCSS_effect w3 x3 E3 L3 C3 F3; simpl in L3, C3;
    rewrite Himp; simpl; rewrite Hmsg; simpl;
    unfold ErrorHandler.handleError, ErrorHandler.showUserFriendlyError,
      LoadingScreen.hide; run;
    rewrite (renderHome_wired _ _ Hpl Hnd); simpl; rewrite L3, ?Hel; simpl;
    destruct (isHiding (loadingScreen w2)) eqn:Hh; simpl;
    repeat split; simpl; rewrite ?L3, ?Hel, ?Hh; simpl; try reflexivity;
    rewrite C3, !countReports_app, Hcount, (cssEntry_not_gameInit _ F3);
    generalize (countReports ErrorTypes.GAME_INITIALIZATION (console w)); intros n;
    unfold countReports; simpl; lia.
Qed.

Transparent App.renderHome.

Lemma loadScreen_import_rejected_recovers_witness :
  let o := App.loadScreen Sample.env Sample.games "game2" Sample.world in
  returns o = true
  /\ screens_home (final o) = Some (App.generateHomeScreen Sample.games)
  /\ body (final o) = wiredHomeBody Sample.games
  /\ existsb isPlaceholder (body (final o)) = false
  /\ existsb isLoadingEl (body (final o)) = false
  /\ isHiding (loadingScreen (final o)) = true
  /\ countReports ErrorTypes.GAME_INITIALIZATION (console (final o)) = 1.
Proof.
  apply (loadScreen_import_rejected_recovers Sample.env Sample.games "game2"
           (snd (Sample.gameEntry "game2"))
           (ErrorObject
              (NativeError "TypeError" "Failed to fetch dynamically imported module"))
           (JStr "Failed to fetch dynamically imported module")
           Sample.world); try reflexivity.
  repeat constructor; simpl; intuition discriminate.
Defined.

Opaque App.renderHome.

Lemma cssEntry_not_type t extra :
  String.eqb ErrorTypes.RESOURCE t = false ->
  String.eqb ErrorTypes.ASSET_LOADING t = false ->
  forallb cssEntry extra = true -> countReports t extra = 0.
Proof.
  intros Hr Ha. unfold countReports.
  induction extra as [|c extra IH]; [reflexivity|].
  intros H. cbn [forallb] in H. apply andb_true_iff in H as [Hc Hx].
  cbn [List.filter].
  destruct c as [| | |ctx m t']; cbn [reportOfType]; try (now apply IH).
  cbn [cssEntry] in Hc. apply andb_true_iff in Hc as [_ Ht].
  apply orb_true_iff in Ht as [Ht|Ht]; apply String.eqb_eq in Ht; subst t';
    rewrite ?Hr, ?Ha; now apply IH.
Qed.

(** When the reason of the rejection is [null] or [undefined], reading its
    [message] in the inner [catch] throws a [TypeError]: the transition
    still recovers to the wired home screen, but what is reported is that
    [TypeError], of kind UNKNOWN, and no Game-Initialization error. *)
Lemma loadScreen_import_rejected_nullish env games g e reason typeError w :
  String.eqb g "home" = false ->
  own games g = Some e ->
  import_module env (script e) = ImportRejected reason ->
  reason_message reason = inl typeError ->
  plainKeys games = true ->
  List.NoDup (keys games) ->
  let o := App.loadScreen env games g w in
  returns o = true
  /\ body (final o) = wiredHomeBody games
  /\ isHiding (loadingScreen (final o)) = true
  /\ countReports ErrorTypes.GAME_INITIALIZATION (console (final o))
     = countReports ErrorTypes.GAME_INITIALIZATION (console w)
  /\ countReports "UNKNOWN" (console (final o))
     = countReports "UNKNOWN" (console w) + 1.
Proof.
  intros Hhome Hown Himp Hmsg Hpl Hnd. unfold App.loadScreen. run.
  step_call ensureCSS_effect w1 x1 E1 L1 C1 F1.
  step_call ensureCSS_effect w2 x2 E2 L2 C2 F2.
  rewrite Hhome, (own_get _ _ _ Hown).
  unfold LoadingScreen.show, LoadingScreen.updateMessage,
    LoadingScreen.updateProgress, soundManager.stop. run.
  assert (Hcount : forall t,
            String.eqb ErrorTypes.RESOURCE t = false ->
            String.eqb ErrorTypes.ASSET_LOADING t = false ->
            countReports t (console w2) = countReports t (console w)).
  { intros t Hr Ha. rewrite C2, C1. simpl. rewrite !countReports_app.
    rewrite (cssEntry_not_type t _ Hr Ha F1), (cssEntry_not_type t _ Hr Ha F2).
    generalize (countReports t (console w)). intros n.
    unfold countReports. simpl. lia. }
  pose proof (Hcount ErrorTypes.GAME_INITIALIZATION eq_refl eq_refl) as Hg.
  pose proof (Hcount "UNKNOWN" eq_refl eq_refl) as Hu.
  assert (Hty : ErrorHandler.reportedType typeError = "UNKNOWN").
  { destruct reason; simpl in Hmsg; try discriminate; now inversion Hmsg. }
  destruct (element (loadingScreen w2)) as [el|] eqn:Hel; simpl;
    step_call ensureCSS_effect w3 x3 E3 L3 C3 F3; simpl in L3, C3;
    rewrite Himp; simpl; rewrite Hmsg; simpl;
    unfold ErrorHandler.handleError, ErrorHandler.showUserFriendlyError,
      LoadingScreen.hide; run;
    rewrite (renderHome_wired _ _ Hpl Hnd); simpl; rewrite L3, ?Hel; simpl;
    destruct (isHiding (loadingScreen w2)) eqn:Hh; simpl;
    repeat split; simpl; rewrite ?L3, ?Hel, ?Hh; simpl; try reflexivity;
    rewrite C3, !countReports_app, ?Hg, ?Hu,
      ?(cssEntry_not_type ErrorTypes.GAME_INITIALIZATION _ eq_refl eq_refl F3),
      ?(cssEntry_not_type "UNKNOWN" _ eq_refl eq_refl F3);
    unfold countReports; simpl; rewrite Hty; simpl; lia.
Qed.

Transparent App.renderHome.

(** C2 as worded does not hold for every rejection.  When the module of a
    registered game throws [null] while it is evaluated, [import(script)]
    is rejected with [null]; the inner [catch] throws a [TypeError] at
    [error.message], and that error is what is reported, of kind UNKNOWN:
    the home screen is back and wired, but no Game-Initialization error is
    reported. *)
Lemma loadScreen_import_rejected_with_null :
  let env := {| abs_url := abs_url Sample.env;
                css_load_ok := css_load_ok Sample.env;
                import_module := fun _ => ImportRejected NullValue |} in
  let o := App.loadScreen env Sample.games "game2" Sample.world in
  own Sample.games "game2" = Some (snd (Sample.gameEntry "game2"))
  /\ import_module env (script (snd (Sample.gameEntry "game2"))) = ImportRejected NullValue
  /\ returns o = true
  /\ body (final o) = wiredHomeBody Sample.games
  /\ countReports ErrorTypes.GAME_INITIALIZATION (console (final o)) = 0
  /\ countReports ErrorTypes.GAME_INITIALIZATION (console (final o))
     <> countReports ErrorTypes.GAME_INITIALIZATION (console Sample.world) + 1
  /\ reports (console (final o))
     = [ErrorReport "app.loadScreen"
          "Cannot read properties of null (reading 'message')" "UNKNOWN"].
Proof.
  repeat split; try (vm_compute; reflexivity). vm_compute. discriminate.
Qed.

(** The identifier of the specification's scenario. *)
Example loadScreen_unknown_game :
  let o := App.loadScreen Sample.env Sample.games "unknown-game" Sample.world in
  returns o = true
  /\ body (final o) = wiredHomeBody Sample.games
  /\ reports (console (final o))
     = [ErrorReport "app.loadScreen" "Game not found" ErrorTypes.RESOURCE].
Proof. repeat split; reflexivity. Qed.

(** C1 does not hold for an identifier the registry object inherits from
    [Object.prototype].  [games["constructor"]] is a function, so
    [loadScreen("constructor")] takes the branch of a registered game with
    [script] and [style] undefined: [ensureCSS(undefined)] reports an
    ASSET_LOADING error, the import of ["undefined"] rejects and is reported
    as GAME_INITIALIZATION.  The home screen is rendered, but no Resource
    (not-found) report is emitted. *)
Theorem loadScreen_inherited_name_no_not_found_report :
  let o := App.loadScreen Sample.env Sample.games "constructor" Sample.world in
  String.eqb "constructor" "home" = false
  /\ existsb (String.eqb "constructor") (keys Sample.games) = false
  /\ get Sample.games "constructor" = Inherited
  /\ returns o = true
  /\ body (final o) = wiredHomeBody Sample.games
  /\ countNotFound (console (final o)) = 0
  /\ countReports ErrorTypes.RESOURCE (console (final o)) = 0
  /\ reports (console (final o))
     = [ErrorReport "App.ensureCSS" "CSS loading failed" ErrorTypes.ASSET_LOADING;
        ErrorReport "app.loadScreen" "Failed to load game module"
          ErrorTypes.GAME_INITIALIZATION].
Proof. repeat split; reflexivity. Qed.

(** ** Unloading a stylesheet *)

Lemma forEachLink_no_match env filename links found w :
  forallb (fun l => negb (negb (String.eqb (abs_url env (href l)) "")
                          && JsString.includes (abs_url env (href l)) filename))
          links = true ->
  Helpers.forEachLink env filename links found w = Returned found w.
Proof.
  induction links as [|l links IH]; simpl; intros H; [reflexivity|].
  apply andb_true_iff in H as [Hl Hrest]. apply negb_true_iff in Hl.
  rewrite Hl. now apply IH.
Qed.

Lemma forEachLink_documented_no_match env filename links found w :
  forallb (fun l => negb (negb (String.eqb (abs_url env (href l)) "")
                          && JsString.includes (abs_url env (href l)) filename))
          links = true ->
  HelpersDocumented.forEachLink env filename links found w = Returned found w.
Proof.
  induction links as [|l links IH]; simpl; intros H; [reflexivity|].
  apply andb_true_iff in H as [Hl Hrest]. apply negb_true_iff in Hl.
  rewrite Hl. now apply IH.
Qed.

(** The documented copy: a path no attached stylesheet matches costs one
    warning and nothing else. *)
Lemma unloadCSS_documented_missing_warns env p w :
  falsy (JStr p) = false ->
  noStylesheetFor env (JsString.stripLeadingSlash p) w = true ->
  HelpersDocumented.unloadCSS env (JStr p) w
  = Returned tt
      (add_console
         (ConsoleWarn ("CSS file not found: " +:+ JsString.stripLeadingSlash p)) w).
Proof.
  intros Hp Hno. unfold HelpersDocumented.unloadCSS. run. rewrite Hp.
  now rewrite (forEachLink_documented_no_match env _ _ false w Hno).
Qed.

(** The copy at [utils/helpers.js]: the same call goes through
    [handleError] as a RESOURCE error, banner included. *)
Lemma unloadCSS_missing_reports env p w :
  falsy (JStr p) = false ->
  noStylesheetFor env p w = true ->
  Helpers.unloadCSS env (JStr p) w
  = ErrorHandler.handleError
      (GameError "CSS file not found" ErrorTypes.RESOURCE [("filename", JStr p)])
      "helpers.unloadCSS" None w.
Proof.
  intros Hp Hno. unfold Helpers.unloadCSS. run. rewrite Hp.
  now rewrite (forEachLink_no_match env _ _ false w Hno).
Qed.

(** Neither copy throws to its caller. *)
Lemma unloadCSS_returns env v w :
  returns (Helpers.unloadCSS env v w) = true
  /\ returns (HelpersDocumented.unloadCSS env v w) = true.
Proof.
  unfold Helpers.unloadCSS, HelpersDocumented.unloadCSS,
    ErrorHandler.handleError, ErrorHandler.showUserFriendlyError. run.
  destruct (falsy v); simpl; [now split|]. split.
  - destruct (Helpers.forEachLink env (to_string v) (stylesheetLinks w) false w)
      as [[] w'|e w']; reflexivity.
  - destruct (HelpersDocumented.forEachLink env
                (JsString.stripLeadingSlash (to_string v)) (stylesheetLinks w) false w)
      as [[] w'|e w']; reflexivity.
Qed.

(** The guard of both copies: an empty file name is reported as an error. *)
Example unloadCSS_documented_empty_name :
  reports (console (final (HelpersDocumented.unloadCSS Sample.env (JStr "") Sample.world)))
  = [ErrorReport "helpers.unloadCSS" "No filename provided for CSS unloading"
       ErrorTypes.RESOURCE].
Proof. reflexivity. Qed.

(** C4 does not hold for [unloadCSS] of [utils/helpers.js].  With no
    stylesheet attached, [unloadCSS("games/game1/game1.css")] does not throw
    to its caller, but it reports a RESOURCE error through [handleError] and
    shows the banner, and writes no warning; so does the second unload after
    a load and an unload.  The documented copy only warns in both cases. *)
Theorem unloadCSS_missing_is_user_facing_error :
  let p := "games/game1/game1.css" in
  let o := Helpers.unloadCSS Sample.env (JStr p) Sample.world in
  let loaded := final (App.ensureCSS Sample.env (JStr p) Sample.world) in
  let unloaded := final (Helpers.unloadCSS Sample.env (JStr p) loaded) in
  let again := Helpers.unloadCSS Sample.env (JStr p) unloaded in
  noStylesheetFor Sample.env p Sample.world = true
  /\ returns o = true
  /\ console (final o)
     = [ErrorReport "helpers.unloadCSS" "CSS file not found" ErrorTypes.RESOURCE]
  /\ body (final o)
     = [ErrorContainer "Липсват някои ресурси. Моля, презаредете страницата."]
  /\ head loaded = [{| rel := "stylesheet"; href := p |}]
  /\ head unloaded = [] /\ loadedCSS unloaded = [] /\ reports (console unloaded) = []
  /\ returns again = true
  /\ reports (console (final again))
     = [ErrorReport "helpers.unloadCSS" "CSS file not found" ErrorTypes.RESOURCE]
  /\ body (final again)
     = [ErrorContainer "Липсват някои ресурси. Моля, презаредете страницата."]
  /\ HelpersDocumented.unloadCSS Sample.env (JStr p) Sample.world
     = Returned tt (add_console (ConsoleWarn ("CSS file not found: " +:+ p)) Sample.world).
Proof. repeat split; reflexivity. Qed.

(** ** Shuffling *)

Section ShuffleFacts.

Context {A : Type}.

Lemma swap_length (a : list A) i j : length (swap a i j) = length a.
Proof.
  unfold swap. destruct (a !! j), (a !! i); try reflexivity.
  now rewrite !length_insert.
Qed.

Lemma swap_Permutation (a : list A) i j : swap a i j ≡ₚ a.
Proof.
  unfold swap. destruct (a !! j) as [aj|] eqn:Hj, (a !! i) as [ai|] eqn:Hi;
    try reflexivity.
  now apply Permutation_insert_swap.
Qed.

Lemma shuffleLoop_length random calls i (a : list A) :
  length (shuffleLoop random calls i a) = length a.
Proof.
  revert calls a. induction i as [|i IH]; intros calls a; simpl; [reflexivity|].
  now rewrite IH, swap_length.
Qed.

Lemma shuffleLoop_Permutation random calls i (a : list A) :
  shuffleLoop random calls i a ≡ₚ a.
Proof.
  revert calls a. induction i as [|i IH]; intros calls a; simpl; [reflexivity|].
  now rewrite IH, swap_Permutation.
Qed.

(** The index drawn for position [i] lies in the part not yet fixed. *)
Lemma floorMul_in_range (r : Unit01) n : 0 < n -> floorMul r n < n.
Proof.
  intros Hn. unfold floorMul. pose proof (in_range r) as Hr.
  apply Nat.Div0.div_lt_upper_bound. nia.
Qed.

Lemma shuffleLoop_short random calls (a : list A) :
  length a <= 1 -> shuffleLoop random calls (length a - 1) a = a.
Proof.
  intros H. replace (length a - 1) with 0 by lia. reflexivity.
Qed.

End ShuffleFacts.

(** C9: [shuffleArray] returns the reference it was given; the array it
    points to keeps its length and holds a permutation of its former
    contents, unchanged when there are fewer than two; no other array of
    the store is touched. *)
Theorem shuffleArray_permutes_in_place {A : Type} (random : nat -> Unit01)
    (array : nat) (store : gmap nat (list A)) (a : list A) :
  store !! array = Some a ->
  fst (shuffleArray random array store) = array
  /\ (exists a',
        snd (shuffleArray random array store) !! array = Some a'
        /\ length a' = length a
        /\ a' ≡ₚ a
        /\ (length a <= 1 -> a' = a))
  /\ (forall other, other <> array ->
        snd (shuffleArray random array store) !! other = store !! other).
Proof.
  intros Hlook. unfold shuffleArray. rewrite Hlook. simpl.
  split; [reflexivity|]. split.
  - exists (shuffleLoop random 0 (length a - 1) a).
    split; [apply lookup_insert_eq|].
    split; [apply shuffleLoop_length|].
    split; [apply shuffleLoop_Permutation|apply shuffleLoop_short].
  - intros other Hne. now apply lookup_insert_ne.
Qed.

Lemma shuffleArray_permutes_in_place_witness :
  let store : gmap nat (list nat) := {[ 7 := [10; 20; 30] ]} in
  let res := shuffleArray (fun _ => Sample.half) 7 store in
  fst res = 7
  /\ (exists a',
        snd res !! 7 = Some a'
        /\ length a' = 3
        /\ a' ≡ₚ [10; 20; 30]
        /\ (3 <= 1 -> a' = [10; 20; 30]))
  /\ (forall other, other <> 7 -> snd res !! other = store !! other).
Proof.
  apply (shuffleArray_permutes_in_place (fun _ => Sample.half) 7
           {[ 7 := [10; 20; 30] ]} [10; 20; 30]).
  reflexivity.
Defined.

(** One run of the loop on three elements. *)
Example shuffleLoop_three :
  shuffleLoop (fun _ => Sample.half) 0 2 [10; 20; 30] = [10; 30; 20].
Proof. reflexivity. Qed.

(** ** The popup singleton *)

Lemma run_with_instance ops st i :
  PopUp.instance st = Some i ->
  Forall (fun r => r = i) (fst (PopUp.run ops st))
  /\ PopUp.instance (snd (PopUp.run ops st)) = Some i
  /\ dom (PopUp.objects (snd (PopUp.run ops st))) = dom (PopUp.objects st).
Proof.
  revert st. induction ops as [|op ops IH]; intros st Hi; simpl.
  - repeat split. constructor. exact Hi.
  - destruct op as [|r f].
    + unfold PopUp.construct. rewrite Hi.
      match goal with |- context [PopUp.run ops ?s] =>
        destruct (IH s eq_refl) as (Hall & Hinst & Hdom);
        destruct (PopUp.run ops s) as [rs st'] end.
      simpl in *. repeat split; [constructor; [reflexivity|exact Hall]|exact Hinst|exact Hdom].
    + destruct (IH (PopUp.writeObj r f st) Hi) as (Hall & Hinst & Hdom).
      repeat split; [exact Hall|exact Hinst|].
      rewrite Hdom. simpl. apply dom_alter_L.
Qed.

Lemma run_without_instance ops st :
  PopUp.instance st = None ->
  PopUp.objects st = ∅ ->
  Forall (fun r => r = PopUp.next st) (fst (PopUp.run ops st))
  /\ (fst (PopUp.run ops st) <> [] ->
      PopUp.instance (snd (PopUp.run ops st)) = Some (PopUp.next st)
      /\ dom (PopUp.objects (snd (PopUp.run ops st))) = {[ PopUp.next st ]}).
Proof.
  revert st. induction ops as [|op ops IH]; intros st Hi Ho; simpl.
  - split; [constructor|congruence].
  - destruct op as [|r f].
    + unfold PopUp.construct. rewrite Hi.
      match goal with |- context [PopUp.run ops ?s] =>
        destruct (run_with_instance ops s (PopUp.next st) eq_refl) as (Hall & Hinst & Hdom);
        destruct (PopUp.run ops s) as [rs st'] end.
      simpl in *. split; [constructor; [reflexivity|exact Hall]|].
      intros _. split; [exact Hinst|].
      rewrite Hdom, Ho, dom_insert_L, dom_empty_L. apply (right_id_L ∅ (∪)).
    + apply (IH (PopUp.writeObj r f st)); simpl; [exact Hi|].
      rewrite Ho. apply (alter_empty (M := gmap nat)).
Qed.

(** C10: in every run of the program from the loaded module, whatever is
    written to popup fields in between, each constructor invocation returns
    the reference the first one returned; that reference is the recorded
    instance and the only popup object of the store. *)
Theorem PopUp_constructor_singleton ops i r :
  fst (PopUp.run ops PopUp.initial) !! i = Some r ->
  fst (PopUp.run ops PopUp.initial) !! 0 = Some r
  /\ PopUp.instance (snd (PopUp.run ops PopUp.initial)) = Some r
  /\ dom (PopUp.objects (snd (PopUp.run ops PopUp.initial))) = {[ r ]}.
Proof.
  intros Hi.
  destruct (run_without_instance ops PopUp.initial eq_refl eq_refl) as [Hall Hst].
  simpl in Hall, Hst.
  assert (Hr : r = 0).
  { rewrite Forall_forall in Hall. apply Hall.
    now apply list_elem_of_lookup_2 with i. }
  subst r.
  destruct (fst (PopUp.run ops PopUp.initial)) as [|r0 rs] eqn:E; [discriminate|].
  inversion Hall as [|? ? Hr0 _]; subst.
  split; [reflexivity|]. now apply Hst.
Qed.

Lemma PopUp_constructor_singleton_witness :
  let ops := [PopUp.New; PopUp.New;
              PopUp.FieldWrite 0 (fun o => {| PopUp.popup := PopUp.popup o;
                                              PopUp.popupMessage := PopUp.popupMessage o;
                                              PopUp.popupCloseButton := PopUp.popupCloseButton o;
                                              PopUp.cssLoaded := true;
                                              PopUp.cssLink := Some "components/popUp/popUp.css" |});
              PopUp.New] in
  fst (PopUp.run ops PopUp.initial) !! 0 = Some 0
  /\ PopUp.instance (snd (PopUp.run ops PopUp.initial)) = Some 0
  /\ dom (PopUp.objects (snd (PopUp.run ops PopUp.initial))) = {[ 0 ]}.
Proof.
  intros ops. apply (PopUp_constructor_singleton ops 2 0). reflexivity.
Defined.

(** Three game instances, one popup: the references and the shared flag. *)
Example PopUp_shared_state :
  let ops := [PopUp.New; PopUp.New;
              PopUp.FieldWrite 0 (fun o => {| PopUp.popup := PopUp.popup o;
                                              PopUp.popupMessage := PopUp.popupMessage o;
                                              PopUp.popupCloseButton := PopUp.popupCloseButton o;
                                              PopUp.cssLoaded := true;
                                              PopUp.cssLink := Some "components/popUp/popUp.css" |});
              PopUp.New] in
  fst (PopUp.run ops PopUp.initial) = [0; 0; 0]
  /\ PopUp.cssLoaded <$> (PopUp.objects (snd (PopUp.run ops PopUp.initial)) !! 0)
     = Some true
  /\ PopUp.loadSoundCalls (snd (PopUp.run ops PopUp.initial)) = ["popUpSounds"].
Proof. repeat split; reflexivity. Qed.

(** ** Normalization, and the other way a call succeeds *)

(** The example of the specification, and what the regular expression
    leaves of doubled slashes: one slash is taken from each end. *)
Example normalizePath_examples :
  App.normalizePath "/style.css/" = "style.css"
  /\ App.normalizePath "style.css" = "style.css"
  /\ App.normalizePath "  /style.css/  " = "style.css"
  /\ App.normalizePath "//style.css//" = "/style.css/".
Proof. repeat split; reflexivity. Qed.

Lemma reports_app a b : reports (a ++ b) = reports a ++ reports b.
Proof. unfold reports. apply List.filter_app. Qed.

(** Whenever the first call reports no error (the path was tracked, or a
    link for it was found, or its link loaded), the call with a path of the
    same normal form attaches no link and tracks nothing new. *)
Lemma ensureCSS_no_second_link env p q w :
  App.normalizePath p = App.normalizePath q ->
  let w1 := final (App.ensureCSS env (JStr p) w) in
  reports (console w1) = reports (console w) ->
  head (final (App.ensureCSS env (JStr q) w1)) = head w1
  /\ loadedCSS (final (App.ensureCSS env (JStr q) w1)) = loadedCSS w1.
Proof.
  intros Hpq w1 Hrep.
  destruct (App.has (loadedCSS w) (App.normalizePath p)) eqn:Hhas.
  - subst w1. rewrite (ensureCSS_tracked env p w Hhas) in *. simpl.
    rewrite ensureCSS_tracked; [now split|]. simpl. now rewrite <- Hpq.
  - destruct (find (fun l => JsString.includes (abs_url env (href l)) (App.normalizePath p))
                (head w)) as [l|] eqn:Hfind.
    + assert (E : App.ensureCSS env (JStr p) w
                  = Returned tt (add_console
                      (ConsoleWarn ("Duplicate CSS detected: " +:+ App.normalizePath p)) w)).
      { unfold App.ensureCSS. run. now rewrite Hhas, Hfind. }
      subst w1. rewrite E in *. simpl.
      unfold App.ensureCSS. run_goal. rewrite <- Hpq, Hhas. simpl.
      rewrite Hfind. run_goal. now split.
    + destruct (css_load_ok env (App.normalizePath p)) eqn:Hok.
      * assert (E : App.ensureCSS env (JStr p) w
                    = Returned tt
                        (set_loadedCSS (App.add (App.normalizePath p))
                           (set_head (fun h => h ++ [{| rel := "stylesheet";
                                                        href := App.normalizePath p |}]) w))).
        { unfold App.ensureCSS. run. now rewrite Hhas, Hfind, Hok. }
        subst w1. rewrite E in *. simpl.
        rewrite ensureCSS_tracked; [now split|]. simpl.
        rewrite <- Hpq, (add_fresh _ _ Hhas), has_app, String.eqb_refl.
        apply orb_true_r.
      * exfalso. subst w1.
        assert (E : App.ensureCSS env (JStr p) w
                    = ErrorHandler.handleError (App.cssLoadError (App.normalizePath p))
                        "App.ensureCSS" None
                        (set_head (fun h => h ++ [{| rel := "stylesheet";
                                                     href := App.normalizePath p |}]) w)).
        { unfold App.ensureCSS. run. now rewrite Hhas, Hfind, Hok. }
        rewrite E in Hrep. unfold ErrorHandler.handleError,
          ErrorHandler.showUserFriendlyError in Hrep. run.
        rewrite reports_app in Hrep. simpl in Hrep.
        apply (f_equal (@length ConsoleEntry)) in Hrep.
        rewrite length_app in Hrep. simpl in Hrep. lia.
Qed.

(** * Further properties *)

(** ** Transitions never reject *)



Lemma countFrom_app ctx a b :
  countFrom ctx (a ++ b) = countFrom ctx a + countFrom ctx b.
Proof. unfold countFrom. now rewrite List.filter_app, length_app. Qed.

Lemma cssEntry_not_from ctx extra :
  String.eqb "App.ensureCSS" ctx = false ->
  forallb cssEntry extra = true -> countFrom ctx extra = 0.
Proof.
  intros Hctx. unfold countFrom. induction extra as [|c extra IH]; [reflexivity|].
  intros H. cbn [forallb] in H. apply andb_true_iff in H as [Hc Hx].
  cbn [List.filter].
  destruct c as [| | |ctx' m t]; cbn [reportFrom]; try (now apply IH).
  cbn [cssEntry] in Hc. apply andb_true_iff in Hc as [Hc _].
  apply String.eqb_eq in Hc. subst ctx'. rewrite Hctx. now apply IH.
Qed.

Opaque App.renderHome.




(** ** Listeners add up *)




Arguments App.loadScreen : simpl never.



(** ** Starting a game *)






(** The game screen of the witness ends up marked as loaded. *)
Example loadScreen_game_screen_loaded :
  body (final (App.loadScreen playableEnv Sample.games "game2" Sample.world))
  = [Element ["game-screen"; "loaded"] "<h1>Puzzle</h1>"].
Proof. reflexivity. Qed.

(** ** More on [ensureCSS] and [untrackCSS] *)





Lemma has_delete s x y :
  App.has (App.delete x s) y = App.has s y && negb (String.eqb y x).
Proof.
  unfold App.has, App.delete. induction s as [|a s IH]; simpl; [reflexivity|].
  destruct (String.eqb x a) eqn:Hxa; simpl; rewrite IH.
  - apply String.eqb_eq in Hxa. subst a.
    destruct (String.eqb y x); simpl; now rewrite ?andb_false_r, ?andb_true_r.
  - destruct (String.eqb y a) eqn:Hya; simpl; [|reflexivity].
    apply String.eqb_eq in Hya. subst a.
    rewrite String.eqb_sym, Hxa. reflexivity.
Qed.

(** X8: [untrackCSS(p)] removes exactly [p] from the tracked set and touches
    nothing of the document; on an untracked path it changes nothing at
    all. *)
Theorem untrackCSS_only_untracks p q w :
  let o := App.untrackCSS p w in
  returns o = true
  /\ App.has (loadedCSS (final o)) q = App.has (loadedCSS w) q && negb (String.eqb q p)
  /\ head (final o) = head w
  /\ body (final o) = body w
  /\ (if App.has (loadedCSS w) p then True else final o = w).
Proof.
  unfold App.untrackCSS. destruct (App.has (loadedCSS w) p) eqn:Hp; run_goal.
  - repeat split. apply has_delete.
  - repeat split. destruct (String.eqb_spec q p) as [->|_]; simpl.
    + now rewrite Hp.
    + now rewrite andb_true_r.
Qed.

(** ** What [unloadCSS] detaches *)

Lemma link_eqb_eq a b : link_eqb a b = true -> a = b.
Proof.
  destruct a as [ra ha], b as [rb hb]. unfold link_eqb. simpl. intros H.
  apply andb_true_iff in H as [Hr Hh].
  apply String.eqb_eq in Hr, Hh. now subst.
Qed.

Lemma link_eqb_refl a : link_eqb a a = true.
Proof. unfold link_eqb. now rewrite !String.eqb_refl. Qed.

(** Detaching links that all differ from the first one keeps it first. *)
Lemma fold_removeChild_keeps (m : Link -> bool) a xs t :
  (forall x, In x xs -> m x = true -> x <> a) ->
  fold_left (fun h l => if m l then removeChild l h else h) xs (a :: t)
  = a :: fold_left (fun h l => if m l then removeChild l h else h) xs t.
Proof.
  revert t. induction xs as [|x xs IH]; intros t Hne; [reflexivity|]. simpl.
  destruct (m x) eqn:Hm.
  - destruct (link_eqb a x) eqn:Hax.
    + apply link_eqb_eq in Hax. exfalso. apply (Hne x (or_introl eq_refl) Hm). now subst.
    + apply IH. intros y Hy. apply Hne. now right.
  - apply IH. intros y Hy. apply Hne. now right.
Qed.

(** Detaching the matching links of the stylesheet snapshot, in order,
    leaves the head without them. *)
Lemma fold_removeChild_filter (m : Link -> bool) (h : list Link) :
  fold_left (fun h' l => if m l then removeChild l h' else h')
    (List.filter isStylesheet h) h
  = List.filter (fun l => negb (isStylesheet l && m l)) h.
Proof.
  induction h as [|a h IH]; [reflexivity|]. simpl.
  destruct (isStylesheet a) eqn:Hs; simpl.
  - destruct (m a) eqn:Hm; simpl.
    + rewrite link_eqb_refl. exact IH.
    + rewrite fold_removeChild_keeps; [now rewrite IH|].
      intros x _ Hx ->. congruence.
  - rewrite fold_removeChild_keeps; [now rewrite IH|].
    intros x Hx _ ->. apply filter_In in Hx as [_ Hx]. congruence.
Qed.

Lemma delete_untracked s x : App.has s x = false -> App.delete x s = s.
Proof.
  unfold App.has, App.delete. induction s as [|a s IH]; simpl; [reflexivity|].
  intros H. apply orb_false_iff in H as [Ha Hs]. rewrite Ha. simpl. now rewrite IH.
Qed.

Lemma delete_twice s x : App.delete x (App.delete x s) = App.delete x s.
Proof.
  apply delete_untracked. rewrite has_delete, String.eqb_refl. apply andb_false_r.
Qed.

(** The loop of [unloadCSS]: what it leaves of the head and of the tracked
    set, and that it reports nothing. *)
Lemma forEachLink_documented_spec env f links found w :
  exists w',
    HelpersDocumented.forEachLink env f links found w
    = Returned (found || existsb (unloadMatches env f) links) w'
    /\ head w' = fold_left (fun h l => if unloadMatches env f l
                                       then removeChild l h else h) links (head w)
    /\ App.delete f (loadedCSS w')
       = App.delete f (loadedCSS w)
    /\ (existsb (unloadMatches env f) links = true -> App.has (loadedCSS w') f = false)
    /\ (existsb (unloadMatches env f) links = false -> loadedCSS w' = loadedCSS w)
    /\ body w' = body w
    /\ reports (console w') = reports (console w).
Proof.
  revert found w. induction links as [|l links IH]; intros found w; simpl.
  - exists w. rewrite orb_false_r. repeat split; congruence.
  - fold (unloadMatches env f l). destruct (unloadMatches env f l) eqn:Hm; simpl.
    + unfold App.untrackCSS. run_goal.
      destruct (App.has (loadedCSS w) f) eqn:Hhas; simpl;
        match goal with |- context [HelpersDocumented.forEachLink env f links true ?W] =>
          destruct (IH true W) as (w' & E & Hh & Hd & Ht & Hn & Hb & Hr) end;
        exists w'; rewrite E, orb_true_r; simpl in *;
        (split; [reflexivity|]); (split; [exact Hh|]).
      * rewrite Hd, delete_twice. split; [reflexivity|].
        split.
        { intros _. destruct (existsb (unloadMatches env f) links) eqn:Hex; [now apply Ht|].
          rewrite (Hn eq_refl), has_delete, String.eqb_refl. apply andb_false_r. }
        split; [discriminate|]. split; [exact Hb|].
        rewrite Hr, !reports_app. simpl. now rewrite !app_nil_r.
      * split; [exact Hd|]. split.
        { intros _. destruct (existsb (unloadMatches env f) links) eqn:Hex; [now apply Ht|].
          now rewrite (Hn eq_refl). }
        split; [discriminate|]. split; [exact Hb|].
        rewrite Hr, !reports_app. simpl. now rewrite !app_nil_r.
    + destruct (IH found w) as (w' & E & Hh & Hd & Ht & Hn & Hb & Hr).
      exists w'. rewrite E. repeat split; assumption.
Qed.

Lemma existsb_stylesheet env f h :
  existsb (unloadMatches env f) (List.filter isStylesheet h) = existsb (unloaded env f) h.
Proof.
  unfold unloaded. induction h as [|a h IH]; simpl; [reflexivity|].
  destruct (isStylesheet a); simpl; now rewrite IH.
Qed.

Lemma filter_unloaded_none env f h :
  forallb (fun l => negb (unloadMatches env f l))
    (List.filter isStylesheet (List.filter (fun l => negb (unloaded env f l)) h)) = true.
Proof.
  unfold unloaded. induction h as [|a h IH]; simpl; [reflexivity|].
  destruct (isStylesheet a) eqn:Hs; simpl.
  - destruct (unloadMatches env f a) eqn:Hm; simpl; [exact IH|].
    now rewrite Hs; simpl; rewrite Hm.
  - now rewrite Hs.
Qed.

(** The documented [unloadCSS] on a non-empty file name. *)
Lemma unloadCSS_documented_effect env p w :
  falsy (JStr p) = false ->
  let f := JsString.stripLeadingSlash p in
  let o := HelpersDocumented.unloadCSS env (JStr p) w in
  returns o = true
  /\ head (final o) = List.filter (fun l => negb (unloaded env f l)) (head w)
  /\ loadedCSS (final o)
     = (if existsb (unloaded env f) (head w) then App.delete f (loadedCSS w)
        else loadedCSS w)
  /\ body (final o) = body w
  /\ reports (console (final o)) = reports (console w).
Proof.
  intros Hp f o. subst o. unfold HelpersDocumented.unloadCSS. run_goal.
  pose proof Hp as Hp'. simpl in Hp'. rewrite Hp'. fold f.
  destruct (forEachLink_documented_spec env f (stylesheetLinks w) false w)
    as (w' & E & Hh & Hd & Ht & Hn & Hb & Hr).
  rewrite E. simpl. unfold stylesheetLinks in *.
  change (fun l : Link => String.eqb (rel l) "stylesheet") with isStylesheet in *.
  rewrite existsb_stylesheet in *. rewrite fold_removeChild_filter in Hh.
  destruct (existsb (unloaded env f) (head w)) eqn:Hex; simpl.
  - repeat split; try assumption.
    now rewrite <- Hd, (delete_untracked _ _ (Ht eq_refl)).
  - repeat split; try assumption.
    + now apply Hn.
    + rewrite reports_app. simpl. now rewrite app_nil_r.
Qed.

(** X9: [unloadCSS] of the documented copy, for a non-empty file name,
    detaches exactly the stylesheet links whose location contains the name
    (any such link, whatever its path), untracks the name when it detached
    one, reports no error, and leaves no matching stylesheet: a second
    [unloadCSS] of the same name only warns. *)
Theorem unloadCSS_documented_detaches_matching env p q w :
  falsy (JStr p) = false ->
  let f := JsString.stripLeadingSlash p in
  let o := HelpersDocumented.unloadCSS env (JStr p) w in
  returns o = true
  /\ head (final o) = List.filter (fun l => negb (unloaded env f l)) (head w)
  /\ App.has (loadedCSS (final o)) q
     = App.has (loadedCSS w) q
       && negb (String.eqb q f && existsb (unloaded env f) (head w))
  /\ body (final o) = body w
  /\ reports (console (final o)) = reports (console w)
  /\ noStylesheetFor env f (final o) = true
  /\ HelpersDocumented.unloadCSS env (JStr p) (final o)
     = Returned tt (add_console (ConsoleWarn ("CSS file not found: " +:+ f)) (final o)).
Proof.
  intros Hp f o.
  destruct (unloadCSS_documented_effect env p w Hp) as (Hret & Hh & Hl & Hb & Hr).
  fold f in Hh, Hl. fold o in Hret, Hh, Hl, Hb, Hr.
  assert (Ht : App.has (loadedCSS (final o)) q
               = App.has (loadedCSS w) q
                 && negb (String.eqb q f && existsb (unloaded env f) (head w))).
  { rewrite Hl. destruct (existsb (unloaded env f) (head w)).
    - rewrite has_delete. now rewrite andb_true_r.
    - now rewrite andb_false_r, andb_true_r. }
  assert (Hnone : noStylesheetFor env f (final o) = true).
  { unfold noStylesheetFor, stylesheetLinks. rewrite Hh. apply filter_unloaded_none. }
  repeat split; try assumption.
  now apply unloadCSS_documented_missing_warns.
Qed.

Lemma unloadCSS_documented_detaches_matching_witness :
  let w := final (App.ensureCSS Sample.env (JStr "games/game1/game1.css")
             (final (App.ensureCSS Sample.env (JStr "games/game11/game1.css")
                (final (App.ensureCSS Sample.env (JStr "style.css") Sample.world))))) in
  let f := "game1.css" in
  let o := HelpersDocumented.unloadCSS Sample.env (JStr "/game1.css") w in
  returns o = true
  /\ head (final o) = List.filter (fun l => negb (unloaded Sample.env f l)) (head w)
  /\ App.has (loadedCSS (final o)) "games/game1/game1.css"
     = App.has (loadedCSS w) "games/game1/game1.css"
       && negb (String.eqb "games/game1/game1.css" f
                && existsb (unloaded Sample.env f) (head w))
  /\ body (final o) = body w
  /\ reports (console (final o)) = reports (console w)
  /\ noStylesheetFor Sample.env f (final o) = true
  /\ HelpersDocumented.unloadCSS Sample.env (JStr "/game1.css") (final o)
     = Returned tt (add_console (ConsoleWarn ("CSS file not found: " +:+ f)) (final o)).
Proof.
  intros w.
  apply (unloadCSS_documented_detaches_matching Sample.env "/game1.css"
           "games/game1/game1.css" w).
  reflexivity.
Defined.

(** What the witness shows of the matching by containment: the name of
    one file detaches the stylesheets of two games, and both paths stay
    tracked. *)
Example unloadCSS_detaches_by_containment :
  let w := final (App.ensureCSS Sample.env (JStr "games/game1/game1.css")
             (final (App.ensureCSS Sample.env (JStr "games/game11/game1.css")
                (final (App.ensureCSS Sample.env (JStr "style.css") Sample.world))))) in
  let o := HelpersDocumented.unloadCSS Sample.env (JStr "/game1.css") w in
  map href (head w) = ["style.css"; "games/game11/game1.css"; "games/game1/game1.css"]
  /\ map href (head (final o)) = ["style.css"]
  /\ loadedCSS (final o) = ["style.css"; "games/game11/game1.css"; "games/game1/game1.css"].
Proof. repeat split; reflexivity. Qed.

Lemma filter_unloaded_fresh env p (h : list Link) :
  noLinkFor_links env p h = true ->
  List.filter (fun l => negb (unloaded env p l)) h = h
  /\ existsb (unloaded env p) h = false.
Proof.
  unfold noLinkFor_links. induction h as [|a h IH]; intros Hno; [now split|].
  cbn [forallb] in Hno. apply andb_true_iff in Hno as [Ha Hh].
  apply andb_true_iff in Ha as [Ha _]. unfold linkMatches in Ha.
  apply negb_true_iff in Ha.
  assert (Hu : unloaded env p a = false).
  { unfold unloaded, unloadMatches. now rewrite Ha, !andb_false_r. }
  destruct (IH Hh) as [If Ie]. cbn [List.filter existsb].
  rewrite Hu, If, Ie. now split.
Qed.

Lemma filter_unloaded_app env p (h : list Link) :
  noLinkFor_links env p h = true ->
  unloadMatches env p {| rel := "stylesheet"; href := p |} = true ->
  List.filter (fun l => negb (unloaded env p l))
    (h ++ [{| rel := "stylesheet"; href := p |}]) = h
  /\ existsb (unloaded env p) (h ++ [{| rel := "stylesheet"; href := p |}]) = true.
Proof.
  intros Hno Hm. destruct (filter_unloaded_fresh env p h Hno) as [Hf He].
  assert (Hlink : unloaded env p {| rel := "stylesheet"; href := p |} = true).
  { unfold unloaded, isStylesheet. cbn [rel]. now rewrite String.eqb_refl. }
  rewrite List.filter_app, existsb_app, Hf, He. cbn [List.filter existsb].
  rewrite Hlink. simpl. now rewrite app_nil_r.
Qed.

(** X10: loading a stylesheet and unloading it again is a round trip.  For a
    path already in normal form that the resolved location of its own link
    contains, [ensureCSS] followed by the documented [unloadCSS] restores
    the head and the tracked set, leaves the body alone and reports
    nothing. *)
Theorem ensureCSS_unloadCSS_round_trip env p w :
  falsy (JStr p) = false ->
  App.normalizePath p = p ->
  JsString.stripLeadingSlash p = p ->
  css_load_ok env p = true ->
  App.has (loadedCSS w) p = false ->
  noLinkFor env p w = true ->
  unloadMatches env p {| rel := "stylesheet"; href := p |} = true ->
  let w1 := final (App.ensureCSS env (JStr p) w) in
  let o := HelpersDocumented.unloadCSS env (JStr p) w1 in
  App.has (loadedCSS w1) p = true
  /\ countLinks p (head w1) = 1
  /\ returns o = true
  /\ head (final o) = head w
  /\ loadedCSS (final o) = loadedCSS w
  /\ body (final o) = body w
  /\ reports (console (final o)) = reports (console w).
Proof.
  intros Hp Hn Hs Hok Hhas Hno Hm w1 o.
  assert (E1 : App.ensureCSS env (JStr p) w
               = Returned tt
                   (set_loadedCSS (fun s => s ++ [p])
                      (set_head (fun h => h ++ [{| rel := "stylesheet"; href := p |}]) w))).
  { pose proof (ensureCSS_loads env p w) as E. rewrite Hn in E.
    apply E; try assumption. now apply noLinkFor_noExisting. }
  destruct (unloadCSS_documented_effect env p w1 Hp) as (Hret & Hh & Hl & Hb & Hr).
  fold o in Hret, Hh, Hl, Hb, Hr. rewrite Hs in Hh, Hl.
  subst w1. rewrite E1 in *. simpl in *.
  destruct (filter_unloaded_app env p (head w) Hno Hm) as [Hf He].
  rewrite Hf in Hh. rewrite He in Hl.
  repeat split; try assumption.
  - rewrite has_app, String.eqb_refl. apply orb_true_r.
  - rewrite countLinks_app, (noLinkFor_countLinks _ _ _ Hno).
    unfold countLinks. simpl. now rewrite String.eqb_refl.
  - rewrite Hl. unfold App.delete. rewrite List.filter_app. simpl.
    rewrite String.eqb_refl. simpl. rewrite app_nil_r.
    now apply delete_untracked.
Qed.

Lemma ensureCSS_unloadCSS_round_trip_witness :
  let p := "games/game2/game2.css" in
  let w := final (App.ensureCSS Sample.env (JStr "style.css") Sample.world) in
  let w1 := final (App.ensureCSS Sample.env (JStr p) w) in
  let o := HelpersDocumented.unloadCSS Sample.env (JStr p) w1 in
  App.has (loadedCSS w1) p = true
  /\ countLinks p (head w1) = 1
  /\ returns o = true
  /\ head (final o) = head w
  /\ loadedCSS (final o) = loadedCSS w
  /\ body (final o) = body w
  /\ reports (console (final o)) = reports (console w).
Proof.
  intros p w.
  apply (ensureCSS_unloadCSS_round_trip Sample.env p w); reflexivity.
Defined.

Lemma forEachLink_copies_agree env f links found w :
  Helpers.forEachLink env f links found w
  = HelpersDocumented.forEachLink env f links found w.
Proof.
  revert found w. induction links as [|l links IH]; intros found w; simpl; [reflexivity|].
  destruct (negb (String.eqb (abs_url env (href l)) "")
            && JsString.includes (abs_url env (href l)) f); [|apply IH].
  run_goal. destruct (App.untrackCSS f _) as [[] w'|e w']; [apply IH|reflexivity].
Qed.

(** X11: the two copies of [unloadCSS] do the same whenever a stylesheet
    matches.  For a file name without a leading slash that some attached
    stylesheet's location contains, [unloadCSS] of [utils/helpers.js] and
    the documented [unloadCSS] return the same world. *)
Theorem unloadCSS_copies_agree_when_found env p w :
  JsString.stripLeadingSlash p = p ->
  existsb (unloaded env p) (head w) = true ->
  Helpers.unloadCSS env (JStr p) w = HelpersDocumented.unloadCSS env (JStr p) w.
Proof.
  intros Hs Hex. unfold Helpers.unloadCSS, HelpersDocumented.unloadCSS. run_goal.
  destruct (String.eqb p ""); [reflexivity|]. rewrite Hs, forEachLink_copies_agree.
  destruct (forEachLink_documented_spec env p (stylesheetLinks w) false w)
    as (w' & E & _). rewrite E. simpl.
  unfold stylesheetLinks.
  change (fun l : Link => String.eqb (rel l) "stylesheet") with isStylesheet.
  now rewrite existsb_stylesheet, Hex.
Qed.

Lemma unloadCSS_copies_agree_when_found_witness :
  let w := final (App.ensureCSS Sample.env (JStr "games/game2/game2.css") Sample.world) in
  Helpers.unloadCSS Sample.env (JStr "games/game2/game2.css") w
  = HelpersDocumented.unloadCSS Sample.env (JStr "games/game2/game2.css") w.
Proof.
  intros w.
  apply (unloadCSS_copies_agree_when_found Sample.env "games/game2/game2.css" w);
    reflexivity.
Defined.

(** ** The loading indicator *)

(** X12: [show] and [hide] are idempotent.  A second [show] changes nothing,
    its message included; a second [hide] changes nothing, so one fade-out
    schedules one timer. *)
Theorem loadingScreen_show_hide_idempotent m1 m2 w :
  LoadingScreen.show m2 (final (LoadingScreen.show m1 w))
  = Returned tt (final (LoadingScreen.show m1 w))
  /\ LoadingScreen.hide (final (LoadingScreen.hide w))
     = Returned tt (final (LoadingScreen.hide w)).
Proof.
  unfold LoadingScreen.show, LoadingScreen.hide. split.
  - destruct (element (loadingScreen w)) eqn:He; simpl; [now rewrite He|reflexivity].
  - destruct (element (loadingScreen w)) eqn:He; simpl; [|now rewrite He].
    destruct (isHiding (loadingScreen w)) eqn:Hh; simpl; [now rewrite He, Hh|reflexivity].
Qed.

Lemma removeLoadingEl_snoc b :
  existsb isLoadingEl b = false ->
  LoadingScreenTimer.removeLoadingEl (b ++ [LoadingEl]) = b.
Proof.
  induction b as [|n b IH]; simpl; [reflexivity|].
  intros H. apply orb_false_iff in H as [Hn Hb].
  destruct n; simpl in *; try discriminate; now rewrite IH.
Qed.

(** X13: showing, hiding and letting the timer of [hide] fire is a round
    trip: the body and the loading-screen object are as before [show]. *)
Theorem loadingScreen_show_hide_round_trip m w :
  element (loadingScreen w) = None ->
  isHiding (loadingScreen w) = false ->
  existsb isLoadingEl (body w) = false ->
  let shown := final (LoadingScreen.show m w) in
  let w' := final (LoadingScreenTimer.hideTimeout (final (LoadingScreen.hide shown))) in
  existsb isLoadingEl (body shown) = true
  /\ option_map ls_message (element (loadingScreen shown)) = Some m
  /\ body w' = body w
  /\ loadingScreen w' = loadingScreen w
  /\ timers w' = timers w ++ [RemoveLoadingEl].
Proof.
  intros He Hh Hb. unfold LoadingScreen.show, LoadingScreen.hide,
    LoadingScreenTimer.hideTimeout. rewrite He. simpl. rewrite Hh. simpl.
  repeat split.
  - rewrite existsb_app. simpl. apply orb_true_r.
  - now apply removeLoadingEl_snoc.
  - destruct (loadingScreen w); simpl in *. now subst.
Qed.

Lemma loadingScreen_show_hide_round_trip_witness :
  let shown := final (LoadingScreen.show "Зареждане..." Sample.world) in
  let w' := final (LoadingScreenTimer.hideTimeout (final (LoadingScreen.hide shown))) in
  existsb isLoadingEl (body shown) = true
  /\ option_map ls_message (element (loadingScreen shown)) = Some "Зареждане..."
  /\ body w' = body Sample.world
  /\ loadingScreen w' = loadingScreen Sample.world
  /\ timers w' = timers Sample.world ++ [RemoveLoadingEl].
Proof.
  apply (loadingScreen_show_hide_round_trip "Зареждане..." Sample.world); reflexivity.
Defined.

(** X14: a [show] issued while a fade-out is pending is lost.  [show] changes
    nothing because the element still exists, and when the pending timer
    fires the element is detached and forgotten: the indicator is gone
    although it was asked for, and later updates of message and progress
    have no effect. *)
Theorem loadingScreen_show_while_hiding_is_lost m m' el w :
  element (loadingScreen w) = Some el ->
  isHiding (loadingScreen w) = true ->
  let w1 := final (LoadingScreen.show m w) in
  let w2 := final (LoadingScreenTimer.hideTimeout w1) in
  w1 = w
  /\ element (loadingScreen w2) = None
  /\ body w2 = LoadingScreenTimer.removeLoadingEl (body w)
  /\ LoadingScreen.updateMessage m' w2 = Returned tt w2
  /\ LoadingScreen.updateProgress 1 2 w2 = Returned tt w2.
Proof.
  intros He Hh. unfold LoadingScreen.show, LoadingScreenTimer.hideTimeout,
    LoadingScreen.updateMessage, LoadingScreen.updateProgress. rewrite He. simpl.
  rewrite He. simpl. now repeat split.
Qed.

Lemma loadingScreen_show_while_hiding_is_lost_witness :
  let w := final (LoadingScreen.hide (final (LoadingScreen.show "Зареждане..." Sample.world))) in
  let w1 := final (LoadingScreen.show "Зареждане на game1..." w) in
  let w2 := final (LoadingScreenTimer.hideTimeout w1) in
  w1 = w
  /\ element (loadingScreen w2) = None
  /\ body w2 = LoadingScreenTimer.removeLoadingEl (body w)
  /\ LoadingScreen.updateMessage "Зареждане на стилове..." w2 = Returned tt w2
  /\ LoadingScreen.updateProgress 1 2 w2 = Returned tt w2.
Proof.
  intros w.
  apply (loadingScreen_show_while_hiding_is_lost "Зареждане на game1..."
           "Зареждане на стилове..."
           {| ls_message := "Зареждане..."; ls_progress := None; ls_fade_out := true |} w);
    reflexivity.
Defined.

(** ** Random numbers and the shuffle step *)



(** X16: one step of the shuffle exchanges two elements of the array.  For a
    position [i] inside the array the drawn index [j] is at most [i], and
    after the destructuring assignment [array[i]] holds the former
    [array[j]], [array[j]] the former [array[i]], and every other position
    is unchanged. *)
Theorem shuffle_step_exchanges {A : Type} (random : Unit01) (array : list A) (i k : nat) :
  i < length array ->
  let j := floorMul random (i + 1) in
  j <= i
  /\ swap array i j !! i = array !! j
  /\ swap array i j !! j = array !! i
  /\ (if Nat.eqb k i || Nat.eqb k j then True else swap array i j !! k = array !! k).
Proof.
  intros Hi j.
  assert (Hj : j <= i) by (pose proof (floorMul_in_range random (i + 1)); lia).
  clearbody j.
  destruct (lookup_lt_is_Some_2 array i Hi) as [ai Hai].
  destruct (lookup_lt_is_Some_2 array j ltac:(lia)) as [aj Haj].
  unfold swap. rewrite Hai, Haj.
  split; [exact Hj|]. split; [|split].
  - destruct (Nat.eq_dec i j) as [->|Hne].
    + rewrite list_lookup_insert_eq by (rewrite length_insert; lia). congruence.
    + rewrite list_lookup_insert_ne by lia.
      now rewrite list_lookup_insert_eq by lia.
  - now rewrite list_lookup_insert_eq by (rewrite length_insert; lia).
  - destruct (Nat.eqb_spec k i) as [->|Hki]; simpl; [exact I|].
    destruct (Nat.eqb_spec k j) as [->|Hkj]; [exact I|].
    now rewrite !list_lookup_insert_ne by lia.
Qed.

Lemma shuffle_step_exchanges_witness :
  let j := floorMul Sample.half (2 + 1) in
  j <= 2
  /\ swap [10; 20; 30] 2 j !! 2 = [10; 20; 30] !! j
  /\ swap [10; 20; 30] 2 j !! j = [10; 20; 30] !! 2
  /\ (if Nat.eqb 0 2 || Nat.eqb 0 j then True
      else swap [10; 20; 30] 2 j !! 0 = [10; 20; 30] !! 0).
Proof. apply (shuffle_step_exchanges Sample.half [10; 20; 30] 2 0). simpl. lia. Defined.

(** ** Orientation *)

Lemma has_add s x y : App.has (App.add x s) y = App.has s y || String.eqb y x.
Proof.
  unfold App.add. destruct (App.has s x) eqn:Hx.
  - destruct (String.eqb_spec y x) as [->|_]; [now rewrite Hx|now rewrite orb_false_r].
  - apply has_app.
Qed.

(** X17: after [checkOrientation] the body carries the class [landscape]
    exactly when the window is not taller than wide; every other class is
    kept; and checking again with the same window changes nothing. *)
Theorem checkOrientation_sets_landscape innerHeight innerWidth classList c :
  let after := AppInit.checkOrientation innerHeight innerWidth classList in
  App.has after c
  = (if String.eqb c "landscape" then Nat.leb innerHeight innerWidth
     else App.has classList c)
  /\ AppInit.checkOrientation innerHeight innerWidth after = after.
Proof.
  unfold AppInit.checkOrientation.
  destruct (Nat.ltb_spec innerWidth innerHeight) as [Hlt|Hge]; simpl.
  - split.
    + rewrite has_delete. destruct (String.eqb c "landscape"); simpl.
      * rewrite andb_false_r. symmetry. apply Nat.leb_gt. exact Hlt.
      * apply andb_true_r.
    + apply delete_twice.
  - split.
    + rewrite has_add. destruct (String.eqb c "landscape"); simpl.
      * rewrite orb_true_r. symmetry. apply Nat.leb_le. exact Hge.
      * apply orb_false_r.
    + unfold App.add at 1. rewrite has_add, String.eqb_refl, orb_true_r. reflexivity.
Qed.

(** ** The stylesheet path of the running game *)

Lemma prefix_app p s t : String.prefix p s = true -> String.prefix p (s +:+ t) = true.
Proof.
  revert s. induction p as [|c p IH]; intros s H; [now destruct (s +:+ t)|].
  destruct s as [|b s]; [discriminate|]. rewrite append_cons.
  cbn [String.prefix] in *.
  destruct (ascii_dec c b); [now apply IH|discriminate].
Qed.

Lemma splitSlash_nonempty s : exists part parts, HelpersMore.splitSlash s = part :: parts.
Proof.
  induction s as [|c s IH]; simpl; [now eexists _, _|].
  destruct (Ascii.eqb c "/"); [now eexists _, _|].
  destruct IH as (part & parts & ->). now eexists _, _.
Qed.

Lemma joinSlash_cons c part parts :
  HelpersMore.joinSlash (String c part :: parts)
  = String c (HelpersMore.joinSlash (part :: parts)).
Proof. destruct parts; reflexivity. Qed.

(** Splitting at the slashes and joining with slashes gives the string
    back. *)
Lemma joinSlash_splitSlash s : HelpersMore.joinSlash (HelpersMore.splitSlash s) = s.
Proof.
  induction s as [|c s IH]; [reflexivity|]. cbn [HelpersMore.splitSlash].
  destruct (splitSlash_nonempty s) as (part & parts & E). rewrite E.
  destruct (Ascii.eqb_spec c "/") as [->|Hc].
  - change (HelpersMore.joinSlash ("" :: part :: parts))
      with (String "/" (HelpersMore.joinSlash (part :: parts))).
    now rewrite <- E, IH.
  - now rewrite joinSlash_cons, <- E, IH.
Qed.

Lemma joinSlash_skipn parts i :
  exists before, HelpersMore.joinSlash parts
                 = before +:+ HelpersMore.joinSlash (List.skipn i parts).
Proof.
  revert parts. induction i as [|i IH]; intros parts; [now exists ""|].
  destruct parts as [|p parts]; [now exists ""|].
  destruct (IH parts) as (b & Hb). cbn [List.skipn].
  destruct parts as [|p2 parts].
  - exists p. destruct i; simpl; symmetry; apply append_empty_r.
  - exists (p +:+ "/" +:+ b). change (HelpersMore.joinSlash (p :: p2 :: parts))
      with (p +:+ "/" +:+ HelpersMore.joinSlash (p2 :: parts)).
    rewrite Hb. now rewrite !append_assoc_string.
Qed.

Lemma endsWith_app before suffix :
  HelpersMore.endsWith (before +:+ suffix) suffix = true.
Proof.
  induction before as [|c before IH].
  - change ("" +:+ suffix) with suffix.
    destruct suffix; cbn [HelpersMore.endsWith]; now rewrite String.eqb_refl.
  - rewrite append_cons. cbn [HelpersMore.endsWith].
    destruct (String.eqb (String c (before +:+ suffix)) suffix); [reflexivity|exact IH].
Qed.

Lemma splitSlash_starts_with_game s :
  String.prefix "game" s = true ->
  exists part parts, HelpersMore.splitSlash s = part :: parts
                     /\ String.prefix "game" part = true.
Proof.
  intros H.
  destruct s as [|c1 [|c2 [|c3 [|c4 s]]]]; cbn [String.prefix] in H; try discriminate;
    repeat match type of H with
           | context [ascii_dec ?a ?b] =>
               destruct (ascii_dec a b); [subst; cbn [String.prefix] in H|discriminate]
           end; try discriminate.
  destruct (splitSlash_nonempty s) as (part & parts & E).
  cbn [HelpersMore.splitSlash]. rewrite E. simpl.
  eexists _, _. split; [reflexivity|]. now destruct part.
Qed.

(** A location that contains [/game] has a part that starts with [game]
    after its first slash. *)
Lemma includes_game_part s :
  JsString.includes s "/game" = true ->
  existsb (String.prefix "game") (List.tl (HelpersMore.splitSlash s)) = true.
Proof.
  induction s as [|c s IH]; [discriminate|].
  cbn [JsString.includes]. destruct (String.prefix "/game" (String c s)) eqn:Hp.
  - intros _. cbn [String.prefix] in Hp.
    destruct (ascii_dec "/" c) as [<-|]; [|discriminate].
    destruct (splitSlash_starts_with_game s Hp) as (part & parts & E & Hg).
    simpl. rewrite E. simpl. now rewrite Hg.
  - intros H. specialize (IH H).
    destruct (splitSlash_nonempty s) as (part & parts & E). rewrite E in IH.
    cbn [HelpersMore.splitSlash]. rewrite E.
    destruct (Ascii.eqb c "/"); simpl in *; [now rewrite IH, orb_true_r|exact IH].
Qed.

Lemma findIndexGame_found parts :
  existsb (String.prefix "game") parts = true ->
  exists i part rest,
    HelpersMore.findIndexGame parts = Some i
    /\ List.skipn i parts = part :: rest
    /\ String.prefix "game" part = true.
Proof.
  induction parts as [|p parts IH]; [discriminate|]. cbn [existsb HelpersMore.findIndexGame].
  destruct (String.prefix "game" p) eqn:Hp.
  - intros _. now exists 0, p, parts.
  - intros H. destruct (IH H) as (i & part & rest & E & Hs & Hg).
    exists (S i), part, rest. rewrite E. now repeat split.
Qed.

Lemma joinSlash_starts_with_game part rest :
  String.prefix "game" part = true ->
  String.prefix "game" (HelpersMore.joinSlash (part :: rest)) = true.
Proof.
  intros H. destruct rest; [exact H|].
  change (HelpersMore.joinSlash (part :: s :: rest))
    with (part +:+ "/" +:+ HelpersMore.joinSlash (s :: rest)).
  now apply prefix_app.
Qed.

(** X18: what [getCurrentGameCssPath] returns.  It never throws and never
    falls off its end: with a link whose location contains [/game] and ends
    in [.css] it returns, without touching anything, a path that starts with
    [game] and is the tail of that location; without one it reports a
    RESOURCE error and returns null. *)
Theorem getCurrentGameCssPath_result env w :
  match HelpersMore.getCurrentGameCssPath env w with
  | Thrown _ _ => False
  | Returned HelpersMore.PathUndefined _ => False
  | Returned HelpersMore.PathNull w' =>
      find (HelpersMore.isGameCssLink env) (head w) = None
      /\ head w' = head w /\ loadedCSS w' = loadedCSS w
      /\ console w' = console w ++ [ErrorReport "helpers.getCurrentGameCssPath"
                                      "No game CSS file found" ErrorTypes.RESOURCE]
  | Returned (HelpersMore.PathString path) w' =>
      w' = w
      /\ String.prefix "game" path = true
      /\ exists link,
           find (HelpersMore.isGameCssLink env) (head w) = Some link
           /\ HelpersMore.endsWith (abs_url env (href link)) path = true
  end.
Proof.
  unfold HelpersMore.getCurrentGameCssPath, ErrorHandler.handleError,
    ErrorHandler.showUserFriendlyError. run_goal.
  destruct (find (HelpersMore.isGameCssLink env) (head w)) as [link|] eqn:Hfind; simpl;
    [|now repeat split].
  apply find_some in Hfind as Hlink. destruct Hlink as [_ Hlink].
  unfold HelpersMore.isGameCssLink in Hlink.
  apply andb_true_iff in Hlink as [Hlink _]. apply andb_true_iff in Hlink as [_ Hinc].
  pose proof (includes_game_part _ Hinc) as Hpart.
  destruct (splitSlash_nonempty (abs_url env (href link))) as (p0 & ps & E).
  assert (Hex : existsb (String.prefix "game") (HelpersMore.splitSlash (abs_url env (href link)))
                = true).
  { rewrite E in *. simpl in *. now rewrite Hpart, orb_true_r. }
  destruct (findIndexGame_found _ Hex) as (i & part & rest & Ei & Es & Hg).
  rewrite Ei. simpl. split; [reflexivity|]. split.
  - rewrite Es. now apply joinSlash_starts_with_game.
  - exists link. split; [reflexivity|].
    destruct (joinSlash_skipn (HelpersMore.splitSlash (abs_url env (href link))) i)
      as (before & Hb).
    rewrite joinSlash_splitSlash in Hb. rewrite Hb at 1. apply endsWith_app.
Qed.

(** After the transition has loaded a game's stylesheet on the sample
    page, the path found is the path of the registry. *)
Example getCurrentGameCssPath_after_load :
  let w := final (App.ensureCSS Sample.env (JStr "games/game2/game2.css")
             (final (App.ensureCSS Sample.env (JStr "style.css") Sample.world))) in
  HelpersMore.getCurrentGameCssPath Sample.env w
  = Returned (HelpersMore.PathString "games/game2/game2.css") w.
Proof. reflexivity. Qed.

(** ** The sound manager *)

Lemma sm_get_app m id v :
  SoundManager.get (m ++ [(id, v)]) id
  = match SoundManager.get m id with
    | Some x => Some x
    | None => Some v
    end.
Proof.
  induction m as [|[k x] m IH]; simpl.
  - now rewrite String.eqb_refl.
  - destruct (String.eqb k id); [reflexivity|apply IH].
Qed.

Lemma sm_get_remove m id id' :
  SoundManager.get (SoundManager.remove m id) id'
  = if String.eqb id' id then None else SoundManager.get m id'.
Proof.
  unfold SoundManager.remove. induction m as [|[k x] m IH]; simpl.
  - now destruct (String.eqb id' id).
  - destruct (String.eqb k id) eqn:Ek; simpl.
    + apply String.eqb_eq in Ek. subst k. rewrite IH.
      rewrite (String.eqb_sym id id').
      now destruct (String.eqb id' id).
    + destruct (String.eqb k id') eqn:Ek'; [|apply IH].
      apply String.eqb_eq in Ek'. subst k.
      now rewrite Ek.
Qed.

(** X19: an id is loaded once.  A second [loadSound] under an id that is
    loaded returns the Howl of the first, constructs no Howl and changes
    neither the registry nor any Howl: the file and options of the second
    call are ignored. *)
Theorem loadSound_same_id_keeps_first id src options src' options' st :
  let r1 := SoundManager.loadSound id src options st in
  let r2 := SoundManager.loadSound id src' options' (snd r1) in
  fst r2 = fst r1
  /\ SoundManager.howls (snd r2) = SoundManager.howls (snd r1)
  /\ SoundManager.sounds (snd r2) = SoundManager.sounds (snd r1)
  /\ SoundManager.calls (snd r2) = SoundManager.calls (snd r1)
  /\ SoundManager.get (SoundManager.sounds (snd r1)) id = Some (fst r1).
Proof.
  unfold SoundManager.loadSound.
  destruct (SoundManager.get (SoundManager.sounds st) id) eqn:G; simpl.
  - rewrite G. simpl. now repeat split.
  - rewrite sm_get_app, G. simpl. now repeat split.
Qed.

(** X20: an unloaded sound is gone.  After [unload(id)], [play(id)] returns
    null and reaches no Howl, the other ids are registered as before, the
    Howl that was registered is told to unload, and a later [loadSound(id)]
    constructs a new Howl. *)
Theorem unload_then_play_is_null id sprite src options id' st :
  let st1 := SoundManager.unload id st in
  fst (SoundManager.play id sprite st1) = None
  /\ SoundManager.calls (snd (SoundManager.play id sprite st1)) = SoundManager.calls st1
  /\ SoundManager.get (SoundManager.sounds st1) id'
     = (if String.eqb id' id then None else SoundManager.get (SoundManager.sounds st) id')
  /\ SoundManager.calls st1
     = SoundManager.calls st
       ++ match SoundManager.get (SoundManager.sounds st) id with
          | Some sound => [(sound, SoundManager.HowlUnload)]
          | None => []
          end
  /\ fst (SoundManager.loadSound id src options st1) = length (SoundManager.howls st).
Proof.
  intros st1.
  assert (G : forall k, SoundManager.get (SoundManager.sounds st1) k
                        = if String.eqb k id then None
                          else SoundManager.get (SoundManager.sounds st) k).
  { intros k. subst st1. unfold SoundManager.unload.
    destruct (SoundManager.get (SoundManager.sounds st) id) eqn:E; simpl.
    - apply sm_get_remove.
    - destruct (String.eqb k id) eqn:Ek; [|reflexivity].
      apply String.eqb_eq in Ek. now subst k. }
  assert (H : SoundManager.howls st1 = SoundManager.howls st).
  { subst st1. unfold SoundManager.unload.
    now destruct (SoundManager.get (SoundManager.sounds st) id). }
  unfold SoundManager.play, SoundManager.loadSound.
  rewrite (G id), String.eqb_refl. simpl. rewrite H.
  repeat split; try apply G.
  subst st1. unfold SoundManager.unload.
  destruct (SoundManager.get (SoundManager.sounds st) id); simpl;
    [reflexivity|now rewrite app_nil_r].
Qed.


(** ** The popup *)

Lemma setErrorContainer_filter (P : Node -> bool) msg b b' :
  (forall m, P (ErrorContainer m) = false) ->
  ErrorHandler.setErrorContainer msg b = Some b' ->
  List.filter P b' = List.filter P b.
Proof.
  intros HP. revert b'. induction b as [|n b IH]; intros b' H; [discriminate|].
  destruct n; simpl in H;
    try (destruct (ErrorHandler.setErrorContainer msg b) as [b0|]; [|discriminate];
         injection H as <-; cbn [List.filter]; now rewrite (IH b0 eq_refl)).
  injection H as <-. cbn [List.filter]. now rewrite !HP.
Qed.

Lemma banner_filter (P : Node -> bool) msg b :
  (forall m, P (ErrorContainer m) = false) ->
  List.filter P (banner msg b) = List.filter P b.
Proof.
  intros HP. unfold banner.
  destruct (ErrorHandler.setErrorContainer msg b) eqn:E.
  - now apply (setErrorContainer_filter P msg).
  - rewrite List.filter_app. cbn [List.filter]. rewrite HP. apply app_nil_r.
Qed.

Lemma existsb_filter {A} (P : A -> bool) l :
  existsb P l = negb (Nat.eqb (length (List.filter P l)) 0).
Proof.
  induction l as [|a l IH]; [reflexivity|]. cbn [existsb List.filter].
  destruct (P a); simpl; [reflexivity|apply IH].
Qed.

(** What [ensureCSS] does to the body: nothing, or the banner. *)
Lemma ensureCSS_body env v w :
  exists w',
    App.ensureCSS env v w = Returned tt w'
    /\ sounds w' = sounds w
    /\ (body w' = body w \/ exists msg, body w' = banner msg (body w)).
Proof.
  unfold App.ensureCSS, ErrorHandler.handleError, ErrorHandler.showUserFriendlyError.
  fold banner.
  destruct v as [|p]; run_goal.
  - eexists. repeat split. right. eexists. reflexivity.
  - repeat case_innermost; eexists; (repeat split);
      solve [now left | right; eexists; reflexivity].
Qed.

Lemma node_is_popup html n : PopUpMethods.node_is html n = true -> isPopup n = true.
Proof.
  destruct n as [| | | |cls h]; simpl; try discriminate.
  intros H. apply andb_true_iff in H as [_ H].
  destruct cls as [|c [|c' cls]]; try discriminate.
  apply String.eqb_eq in H. now subst c.
Qed.

Lemma removePopup_count html b :
  countPopups (PopUpMethods.removePopup html b)
  + (if existsb (PopUpMethods.node_is html) b then 1 else 0)
  = countPopups b.
Proof.
  unfold countPopups. induction b as [|n b IH]; [reflexivity|].
  cbn [PopUpMethods.removePopup existsb List.filter].
  destruct (PopUpMethods.node_is html n) eqn:E.
  - rewrite (node_is_popup _ _ E). simpl. lia.
  - cbn [List.filter orb]. destruct (isPopup n); simpl in *; lia.
Qed.

Lemma node_is_banner m html : PopUpMethods.node_is html (ErrorContainer m) = false.
Proof. reflexivity. Qed.

Lemma isPopup_banner m : isPopup (ErrorContainer m) = false.
Proof. reflexivity. Qed.

Lemma loadPopUpCSS_spec env this w :
  exists w',
    PopUpMethods.loadPopUpCSS env this w
    = Returned {| PopUp.popup := PopUp.popup this;
                  PopUp.popupMessage := PopUp.popupMessage this;
                  PopUp.popupCloseButton := PopUp.popupCloseButton this;
                  PopUp.cssLoaded := true;
                  PopUp.cssLink := if PopUp.cssLoaded this then PopUp.cssLink this
                                   else Some PopUpMethods.popUpCss |} w'
    /\ w' = (if PopUp.cssLoaded this then w
             else final (App.ensureCSS env (JStr PopUpMethods.popUpCss) w))
    /\ sounds w' = sounds w
    /\ countPopups (body w') = countPopups (body w)
    /\ (forall html, existsb (PopUpMethods.node_is html) (body w')
                     = existsb (PopUpMethods.node_is html) (body w)).
Proof.
  unfold PopUpMethods.loadPopUpCSS.
  destruct this as [p m c [|] l]; simpl.
  - exists w. now repeat split.
  - destruct (ensureCSS_body env (JStr PopUpMethods.popUpCss) w) as (w' & E & S & B).
    exists w'. unfold try_catch, bind, ret. rewrite E. simpl.
    repeat split; try assumption.
    + unfold countPopups. destruct B as [-> | [msg ->]]; [reflexivity|].
      now rewrite (banner_filter isPopup _ _ isPopup_banner).
    + intros html. rewrite !existsb_filter.
      destruct B as [-> | [msg ->]]; [reflexivity|].
      now rewrite (banner_filter _ _ _ (fun m => node_is_banner m html)).
Qed.

Arguments PopUpMethods.loadPopUpCSS : simpl never.

(** [showPopup] in full: the cue, the stylesheet, the open popup closed,
    the new one appended. *)
Lemma showPopup_spec env message state this w :
  let w0 := add_sound (SoundPlay "popUpSounds" "openPopUp") w in
  let w1 := if PopUp.cssLoaded this then w0
            else final (App.ensureCSS env (JStr PopUpMethods.popUpCss) w0) in
  let buttonText := if Nat.eqb state PopUpMethods.INITIAL_GAME
                    then "Започни" else "Опитай отново" in
  let html := PopUpMethods.popupHtml message buttonText in
  PopUpMethods.showPopup env message state this w
  = Returned {| PopUp.popup := Some html;
                PopUp.popupMessage := Some message;
                PopUp.popupCloseButton := Some buttonText;
                PopUp.cssLoaded := true;
                PopUp.cssLink := if PopUp.cssLoaded this then PopUp.cssLink this
                                 else Some PopUpMethods.popUpCss |}
      (set_body (fun b => b ++ [PopUpMethods.popupNode html])
         (match PopUp.popup this with
          | Some old => set_body (PopUpMethods.removePopup old) w1
          | None => w1
          end))
  /\ sounds w1 = sounds w ++ [SoundPlay "popUpSounds" "openPopUp"]
  /\ countPopups (body w1) = countPopups (body w)
  /\ (forall old, existsb (PopUpMethods.node_is old) (body w1)
                  = existsb (PopUpMethods.node_is old) (body w)).
Proof.
  intros w0 w1 buttonText html.
  destruct (loadPopUpCSS_spec env this w0) as (w' & E & W & S & C & X).
  fold w1 in W. subst w'.
  repeat split; try assumption.
  unfold PopUpMethods.showPopup, soundManager.play, PopUpMethods.closePopup.
  unfold try_catch, bind, modify, ret. fold w0. rewrite E. cbn [PopUp.popup].
  destruct (PopUp.popup this); reflexivity.
Qed.

Lemma node_is_refl html : PopUpMethods.node_is html (PopUpMethods.popupNode html) = true.
Proof. unfold PopUpMethods.node_is, PopUpMethods.popupNode. now rewrite !String.eqb_refl. Qed.

Lemma countPopups_snoc b html :
  countPopups (b ++ [PopUpMethods.popupNode html]) = S (countPopups b).
Proof.
  unfold countPopups. rewrite List.filter_app, length_app. simpl. lia.
Qed.

Lemma existsb_snoc_popup b html :
  existsb (PopUpMethods.node_is html) (b ++ [PopUpMethods.popupNode html]) = true.
Proof.
  rewrite existsb_app. cbn [existsb]. rewrite node_is_refl. now rewrite orb_true_r.
Qed.

(** The body between closing the open popup and appending the new one. *)
Lemma closed_count this (b0 b : list Node) :
  countPopups b = countPopups b0 ->
  (forall old, existsb (PopUpMethods.node_is old) b
               = existsb (PopUpMethods.node_is old) b0) ->
  countPopups (match PopUp.popup this with
               | Some old => PopUpMethods.removePopup old b
               | None => b
               end)
  + openPopups this b0 = countPopups b0.
Proof.
  intros C X. unfold openPopups. destruct (PopUp.popup this) as [old|]; [|lia].
  rewrite <- X, <- C. apply removePopup_count.
Qed.

Lemma body_closed this w1 :
  body (match PopUp.popup this with
        | Some old => set_body (PopUpMethods.removePopup old) w1
        | None => w1
        end)
  = match PopUp.popup this with
    | Some old => PopUpMethods.removePopup old (body w1)
    | None => body w1
    end.
Proof. now destruct (PopUp.popup this). Qed.

Lemma closed_frame this w1 :
  let w2 := match PopUp.popup this with
            | Some old => set_body (PopUpMethods.removePopup old) w1
            | None => w1
            end in
  console w2 = console w1 /\ sounds w2 = sounds w1
  /\ head w2 = head w1 /\ loadedCSS w2 = loadedCSS w1.
Proof. now destruct (PopUp.popup this). Qed.

Lemma body_set_body f w : body (set_body f w) = f (body w).
Proof. reflexivity. Qed.

(** X21: the popup's stylesheet is marked loaded whatever happens.
    [loadPopUpCSS] always returns with [cssLoaded] set, also when the
    stylesheet cannot be fetched, and its own error report is never
    written: [ensureCSS] does not reject. *)
Theorem loadPopUpCSS_always_marks_loaded env this w :
  let o := PopUpMethods.loadPopUpCSS env this w in
  returns o = true
  /\ PopUp.cssLoaded (result this o) = true
  /\ PopUp.cssLink (result this o)
     = (if PopUp.cssLoaded this then PopUp.cssLink this else Some PopUpMethods.popUpCss)
  /\ PopUp.popup (result this o) = PopUp.popup this
  /\ countFrom "popUp.loadPopUpCSS" (console (final o))
     = countFrom "popUp.loadPopUpCSS" (console w).
Proof.
  intros o. destruct (loadPopUpCSS_spec env this w) as (w' & E & W & _).
  subst o. rewrite E. simpl. repeat split.
  subst w'. destruct (PopUp.cssLoaded this); [reflexivity|].
  destruct (ensureCSS_effect env (JStr PopUpMethods.popUpCss) w)
    as (w' & extra & E' & _ & C & F).
  rewrite E'. simpl.
  rewrite C, countFrom_app, (cssEntry_not_from "popUp.loadPopUpCSS" _ eq_refl F). lia.
Qed.

(** Offline, the popup is marked as styled although its stylesheet, whose
    link stays in the head, did not load and is not tracked. *)
Example loadPopUpCSS_offline :
  let o := PopUpMethods.loadPopUpCSS Sample.offline PopUpMethods.fresh Sample.world in
  PopUp.cssLoaded (result PopUpMethods.fresh o) = true
  /\ App.has (loadedCSS (final o)) PopUpMethods.popUpCss = false
  /\ countLinks PopUpMethods.popUpCss (head (final o)) = 1.
Proof. repeat split; reflexivity. Qed.

(** X22: one popup at a time.  [showPopup] always returns with a popup open
    and in the body; it removes the popup the object had open, so the body
    gains one popup element when none was open and keeps their number
    when one was.  Its own error report is never written. *)
Theorem showPopup_one_popup_at_a_time env message state this w :
  let o := PopUpMethods.showPopup env message state this w in
  returns o = true
  /\ PopUp.popupMessage (result this o) = Some message
  /\ PopUp.cssLoaded (result this o) = true
  /\ openPopups (result this o) (body (final o)) = 1
  /\ countPopups (body (final o)) + openPopups this (body w) = S (countPopups (body w))
  /\ countFrom "popUp.showPopup" (console (final o))
     = countFrom "popUp.showPopup" (console w).
Proof.
  intros o. destruct (showPopup_spec env message state this w) as (E & S & C & X).
  subst o. rewrite E. cbn [returns result final PopUp.popupMessage PopUp.cssLoaded].
  rewrite body_set_body, body_closed.
  repeat split.
  - unfold openPopups. cbn [PopUp.popup]. now rewrite existsb_snoc_popup.
  - rewrite countPopups_snoc. simpl. f_equal. now apply closed_count.
  - change (console (set_body ?f ?W)) with (console W).
    destruct (closed_frame this
                (if PopUp.cssLoaded this
                 then add_sound (SoundPlay "popUpSounds" "openPopUp") w
                 else final (App.ensureCSS env (JStr PopUpMethods.popUpCss)
                               (add_sound (SoundPlay "popUpSounds" "openPopUp") w))))
      as (K & _). cbv zeta in K. rewrite K.
    destruct (PopUp.cssLoaded this); [reflexivity|].
    destruct (ensureCSS_effect env (JStr PopUpMethods.popUpCss)
                (add_sound (SoundPlay "popUpSounds" "openPopUp") w))
      as (w' & extra & E' & _ & Cn & F).
    rewrite E'. simpl.
    rewrite Cn, countFrom_app, (cssEntry_not_from "popUp.showPopup" _ eq_refl F).
    simpl. lia.
Qed.

(** X23: a click on the button closes the popup.  After [showPopup] and the
    click, the object holds no popup, the popup it showed and the one it
    had open before are out of the body, and the open and close cues were
    played in that order. *)
Theorem showPopup_click_closes env message state this w :
  let o := showThenClick env message state this w in
  returns o = true
  /\ PopUp.popup (result this o) = None
  /\ countPopups (body (final o)) + openPopups this (body w) = countPopups (body w)
  /\ sounds (final o) = sounds w ++ [SoundPlay "popUpSounds" "openPopUp";
                                      SoundPlay "popUpSounds" "closePopUp"].
Proof.
  intros o. destruct (showPopup_spec env message state this w) as (E & S & C & X).
  subst o. unfold showThenClick, bind. rewrite E.
  unfold PopUpMethods.closeHandler, soundManager.play, PopUpMethods.closePopup.
  unfold bind, modify, ret. cbn [PopUp.popup returns result final].
  destruct (closed_frame this
              (if PopUp.cssLoaded this
               then add_sound (SoundPlay "popUpSounds" "openPopUp") w
               else final (App.ensureCSS env (JStr PopUpMethods.popUpCss)
                             (add_sound (SoundPlay "popUpSounds" "openPopUp") w))))
    as (_ & K & _). cbv zeta in K.
  repeat split.
  - rewrite body_set_body.
    change (body (add_sound ?c ?W)) with (body W).
    rewrite body_set_body, body_closed.
    match goal with
    | |- countPopups (PopUpMethods.removePopup ?h (?b ++ _)) + _ = _ =>
        pose proof (removePopup_count h (b ++ [PopUpMethods.popupNode h])) as R;
        rewrite existsb_snoc_popup, countPopups_snoc in R;
        pose proof (closed_count this (body w) _ C X) as Q
    end.
    lia.
  - change (sounds (set_body ?f ?W)) with (sounds W).
    change (sounds (add_sound ?c ?W)) with (sounds W ++ [c]).
    change (sounds (set_body ?f ?W)) with (sounds W).
    rewrite K, S, <- app_assoc. reflexivity.
Qed.

(** X24: showing and destroying the popup is a round trip for its
    stylesheet.  For a popup not yet styled, on a page where the
    stylesheet is neither attached nor tracked and loads, [showPopup]
    attaches and tracks it, and [destroyPopUp] with the documented
    [unloadCSS] detaches and untracks it again, takes the popup out of the
    body and clears the object's stylesheet fields. *)
Theorem showPopup_destroyPopUp_round_trip env message state this w :
  PopUp.cssLoaded this = false ->
  css_load_ok env PopUpMethods.popUpCss = true ->
  App.has (loadedCSS w) PopUpMethods.popUpCss = false ->
  noLinkFor env PopUpMethods.popUpCss w = true ->
  unloadMatches env PopUpMethods.popUpCss
    {| rel := "stylesheet"; href := PopUpMethods.popUpCss |} = true ->
  let o1 := PopUpMethods.showPopup env message state this w in
  let o := showThenDestroy env message state this w in
  App.has (loadedCSS (final o1)) PopUpMethods.popUpCss = true
  /\ countLinks PopUpMethods.popUpCss (head (final o1)) = 1
  /\ returns o = true
  /\ PopUp.popup (result this o) = None
  /\ PopUp.cssLoaded (result this o) = false
  /\ PopUp.cssLink (result this o) = None
  /\ head (final o) = head w
  /\ loadedCSS (final o) = loadedCSS w
  /\ countPopups (body (final o)) + openPopups this (body w) = countPopups (body w).
Proof.
  intros Hc Hok Hhas Hno Hm o1 o.
  destruct (showPopup_spec env message state this w) as (E & S & C & X).
  rewrite Hc in E, S, C, X.
  set (w0 := add_sound (SoundPlay "popUpSounds" "openPopUp") w) in *.
  assert (E1 : App.ensureCSS env (JStr PopUpMethods.popUpCss) w0
               = Returned tt
                   (set_loadedCSS (fun s => s ++ [PopUpMethods.popUpCss])
                      (set_head (fun h => h ++ [{| rel := "stylesheet";
                                                   href := PopUpMethods.popUpCss |}]) w0))).
  { apply (ensureCSS_loads env PopUpMethods.popUpCss w0); try assumption.
    now apply noLinkFor_noExisting. }
  rewrite E1 in E, S, C, X. cbn [final] in E, S, C, X.
  set (w1 := set_loadedCSS _ _) in *.
  destruct (closed_frame this w1) as (_ & _ & Hh & Hl). cbv zeta in Hh, Hl.
  subst o o1. unfold showThenDestroy, bind. rewrite E.
  cbn [final]. 
  change (loadedCSS (set_body ?f ?W)) with (loadedCSS W).
  change (head (set_body ?f ?W)) with (head W).
  rewrite Hh, Hl.
  split; [subst w1; simpl; rewrite has_app, String.eqb_refl; apply orb_true_r|].
  split.
  { subst w1. cbn [head set_loadedCSS set_head w0 add_sound].
    rewrite countLinks_app, (noLinkFor_countLinks _ _ _ Hno). reflexivity. }
  unfold PopUpMethods.destroyPopUp, bind, modify, ret, try_catch.
  cbv beta. cbn [PopUp.popup PopUp.cssLoaded PopUp.cssLink]. cbv beta.
  cbn [PopUp.popup PopUp.cssLoaded PopUp.cssLink].
  change (falsy (JStr PopUpMethods.popUpCss)) with false. cbv beta iota.
  match goal with
  | |- context [HelpersDocumented.unloadCSS env _ ?W] =>
      pose proof (unloadCSS_documented_effect env PopUpMethods.popUpCss W eq_refl)
        as (Hret & Hhd & Hld & Hbd & _);
      change (JsString.stripLeadingSlash PopUpMethods.popUpCss)
        with PopUpMethods.popUpCss in Hhd, Hld;
      destruct (HelpersDocumented.unloadCSS env (JStr PopUpMethods.popUpCss) W)
        as [[] w4|e w4]; [|discriminate Hret]
  end.
  cbn [final] in Hhd, Hld, Hbd. cbn [returns result final PopUp.popup PopUp.cssLoaded
                                      PopUp.cssLink].
  change (head (set_body ?f ?W)) with (head W) in Hhd, Hld.
  change (loadedCSS (set_body ?f ?W)) with (loadedCSS W) in Hld.
  change (head (set_body ?f ?W)) with (head W) in Hhd, Hld.
  change (loadedCSS (set_body ?f ?W)) with (loadedCSS W) in Hld.
  rewrite Hh in Hhd, Hld. rewrite Hl in Hld.
  subst w1. cbn [head loadedCSS set_loadedCSS set_head w0 add_sound] in Hhd, Hld.
  destruct (filter_unloaded_app env PopUpMethods.popUpCss (head w) Hno Hm) as [Hf He].
  rewrite Hf in Hhd. rewrite He in Hld.
  repeat split; try assumption.
  - rewrite Hld. unfold App.delete. rewrite List.filter_app. cbn [List.filter].
    rewrite String.eqb_refl. cbn [negb]. rewrite app_nil_r.
    now apply delete_untracked.
  - rewrite Hbd, !body_set_body, body_closed.
    match goal with
    | |- countPopups (PopUpMethods.removePopup ?h (?b ++ _)) + _ = _ =>
        pose proof (removePopup_count h (b ++ [PopUpMethods.popupNode h])) as R;
        rewrite existsb_snoc_popup, countPopups_snoc in R;
        pose proof (closed_count this (body w) _ C X) as Q
    end.
    lia.
Qed.

Lemma showPopup_destroyPopUp_round_trip_witness :
  let this := PopUpMethods.fresh in
  let w := final (App.ensureCSS Sample.env (JStr "style.css") Sample.world) in
  let o1 := PopUpMethods.showPopup Sample.env "Готов ли си?" 0 this w in
  let o := showThenDestroy Sample.env "Готов ли си?" 0 this w in
  App.has (loadedCSS (final o1)) PopUpMethods.popUpCss = true
  /\ countLinks PopUpMethods.popUpCss (head (final o1)) = 1
  /\ returns o = true
  /\ PopUp.popup (result this o) = None
  /\ PopUp.cssLoaded (result this o) = false
  /\ PopUp.cssLink (result this o) = None
  /\ head (final o) = head w
  /\ loadedCSS (final o) = loadedCSS w
  /\ countPopups (body (final o)) + openPopups this (body w) = countPopups (body w).
Proof.
  intros this w.
  apply (showPopup_destroyPopUp_round_trip Sample.env "Готов ли си?" 0 this w);
    reflexivity.
Defined.

(** ** Tracked stylesheets are attached *)

Lemma attached_more (h x : list Link) (s : list string) :
  forallb (fun path => existsb (fun l => String.eqb (href l) path) h) s = true ->
  forallb (fun path => existsb (fun l => String.eqb (href l) path) (h ++ x)) s = true.
Proof.
  induction s as [|a s IH]; [reflexivity|]. cbn [forallb]. intros H.
  apply andb_true_iff in H as [Ha Hs]. rewrite existsb_app, Ha. simpl. now apply IH.
Qed.

Lemma attached_fewer (h : list Link) (P : string -> bool) (s : list string) :
  forallb (fun path => existsb (fun l => String.eqb (href l) path) h) s = true ->
  forallb (fun path => existsb (fun l => String.eqb (href l) path) h)
    (List.filter P s) = true.
Proof.
  induction s as [|a s IH]; [reflexivity|]. cbn [forallb List.filter]. intros H.
  apply andb_true_iff in H as [Ha Hs].
  destruct (P a); cbn [forallb]; [rewrite Ha|]; now apply IH.
Qed.

(** X25: the calls that track and untrack keep the tracked set inside the
    document.  If every tracked path has a link with that [href] in the
    head, the same holds after [ensureCSS], whatever its argument and
    whether or not the stylesheet loads, and after [untrackCSS]. *)
Theorem ensureCSS_keeps_tracked_attached env v p w :
  trackedAttached w = true ->
  trackedAttached (final (App.ensureCSS env v w)) = true
  /\ trackedAttached (final (App.untrackCSS p w)) = true.
Proof.
  unfold trackedAttached. intros H. split.
  - unfold App.ensureCSS, ErrorHandler.handleError, ErrorHandler.showUserFriendlyError.
    destruct v as [|q]; run_goal; [assumption|].
    repeat case_innermost; try assumption.
    + unfold App.add. 
      match goal with E : App.has _ _ = false |- _ => rewrite E end.
      rewrite forallb_app. rewrite (attached_more _ _ _ H). cbn [forallb].
      rewrite existsb_app. simpl. rewrite String.eqb_refl. now rewrite orb_true_r.
    + now apply attached_more.
  - unfold App.untrackCSS. destruct (App.has (loadedCSS w) p); [|assumption].
    run_goal. now apply attached_fewer.
Qed.

Lemma ensureCSS_keeps_tracked_attached_witness :
  let w := final (App.ensureCSS Sample.env (JStr "style.css") Sample.world) in
  trackedAttached (final (App.ensureCSS Sample.offline (JStr "/games/game1/game1.css") w)) = true
  /\ trackedAttached (final (App.untrackCSS "style.css" w)) = true.
Proof.
  intros w.
  apply (ensureCSS_keeps_tracked_attached Sample.offline (JStr "/games/game1/game1.css")
           "style.css" w).
  reflexivity.
Defined.

(** [unloadCSS] does not keep it: called with a file name, it detaches the
    link and leaves the path tracked, and the next [ensureCSS] of that path
    attaches nothing. *)
Example unloadCSS_leaves_tracked_detached :
  let w := final (App.ensureCSS Sample.env (JStr "games/game1/game1.css") Sample.world) in
  let w1 := final (HelpersDocumented.unloadCSS Sample.env (JStr "game1.css") w) in
  let w2 := final (App.ensureCSS Sample.env (JStr "games/game1/game1.css") w1) in
  trackedAttached w = true
  /\ trackedAttached w1 = false
  /\ head w2 = []
  /\ loadedCSS w2 = ["games/game1/game1.css"].
Proof. repeat split; reflexivity. Qed.
